(** * The transaction state-transition engine (core/state_transition.go)

    A shallow embedding of [IntrinsicGas], [buyGas], [preCheck],
    [TransitionDb], [innerTransitionDb], [refundGas] and of the signature
    accessors of [DepositTx], followed by the properties of the gas and
    balance accounting they implement.

    Go's [uint64] is a [Z] kept in [0, 2^64) with the wrap-around written
    out; a [*big.Int] is a [Z], and an [option Z] where the code compares
    the pointer with [nil]; a Go [(value, error)] result is a pair whose
    second component is an [option error]; a run-time panic is the
    [Panic] outcome. *)

From Stdlib Require Import ZArith List Bool String Lia Strings.Byte.
From stdpp Require Import base option gmap.

Import ListNotations.
Local Open Scope Z_scope.

(** ** Machine integers *)

Module U64.

Definition modulus : Z := 2 ^ 64.

(** [math.MaxUint64] *)
Definition MaxUint64 : Z := modulus - 1.

(** Conversion to [uint64]: the value modulo [2^64]. *)
Definition wrap (z : Z) : Z := z mod modulus.

Definition add (a b : Z) : Z := wrap (a + b).
Definition sub (a b : Z) : Z := wrap (a - b).
Definition mul (a b : Z) : Z := wrap (a * b).
Definition div (a b : Z) : Z := a / b.

Definition in_range (z : Z) : Prop := 0 <= z < modulus.

End U64.

(** ** Data *)

(** [common.Address] and [common.Hash], as numbers. *)
Definition Address : Type := Z.
Definition Hash : Type := Z.

Module types.

(** [types.AccessTuple] *)
Record AccessTuple := {
  Address : Address;
  StorageKeys : list Hash
}.

(** [types.AccessList]. A [nil] access list is the empty list: on an
    empty, non-nil list the two additions of [IntrinsicGas] add zero. *)
Definition AccessList := list AccessTuple.

(** Modelled from the spec: [AccessList.StorageKeys], which is declared
    with the access-list transaction type and is not among the sources; it
    is the number of storage keys of the list, a flat per-key cost being
    charged for each of them. *)
Definition AccessList_StorageKeys (al : AccessList) : Z :=
  fold_left (fun sum tuple => sum + Z.of_nat (length (StorageKeys tuple))) al 0.

End types.

(** Errors: the sentinels the engine returns or compares with, the errors of
    the virtual machine, and [fmt.Errorf] with a [%w] verb, which makes a new
    error value around the wrapped one (the rendered arguments are left
    out). *)
Inductive error : Type :=
| ErrGasLimitReached
| ErrDataGasLimitReached
| ErrGasUintOverflow
| ErrInternalFailure
| ErrInsufficientFunds
| ErrNonceTooHigh
| ErrNonceTooLow
| ErrNonceMax
| ErrSenderNoEOA
| ErrFeeCapVeryHigh
| ErrTipVeryHigh
| ErrTipAboveFeeCap
| ErrFeeCapTooLow
| ErrMaxFeePerDataGas
| ErrIntrinsicGas
| ErrInsufficientFundsForTransfer
| ErrMaxInitCodeSizeExceeded
| VMError (name : string)
| Errorf (format : string) (wrapped : error).

Definition error_eq_dec (a b : error) : {a = b} + {a <> b}.
Proof. decide equality; apply string_dec. Defined.

#[global] Instance error_eq_decision : EqDecision error := error_eq_dec.

(** [errors.Is]: the chain of wrapped errors reaches the target. *)
Fixpoint errorIs (e target : error) : bool :=
  if error_eq_dec e target then true
  else match e with
       | Errorf _ inner => errorIs inner target
       | _ => false
       end.

(** The protocol constants of package [params], which is not among the
    sources: they are taken as parameters. The two refund quotients are
    stated by the comments of [innerTransitionDb] and are defined below. *)
Record ProtocolParams := {
  TxGas : Z;
  TxGasContractCreation : Z;
  TxDataZeroGas : Z;
  TxDataNonZeroGasFrontier : Z;
  TxDataNonZeroGasEIP2028 : Z;
  InitCodeWordGas : Z;
  TxAccessListAddressGas : Z;
  TxAccessListStorageKeyGas : Z;
  MaxInitCodeSize : Z;
  DataGasPerBlob : Z;
  OptimismBaseFeeRecipient : Address;
  OptimismL1FeeRecipient : Address
}.

(** The constants are positive [uint64] constants. *)
Record params_ok (p : ProtocolParams) : Prop := {
  TxGas_ok : 0 < TxGas p < U64.modulus;
  TxGasContractCreation_ok : 0 < TxGasContractCreation p < U64.modulus;
  TxDataZeroGas_ok : 0 < TxDataZeroGas p < U64.modulus;
  TxDataNonZeroGasFrontier_ok : 0 < TxDataNonZeroGasFrontier p < U64.modulus;
  TxDataNonZeroGasEIP2028_ok : 0 < TxDataNonZeroGasEIP2028 p < U64.modulus;
  InitCodeWordGas_ok : 0 < InitCodeWordGas p < U64.modulus;
  TxAccessListAddressGas_ok : 0 < TxAccessListAddressGas p < U64.modulus;
  TxAccessListStorageKeyGas_ok : 0 < TxAccessListStorageKeyGas p < U64.modulus
}.

(** Before EIP-3529 refunds were capped to gasUsed / 2, after it to
    gasUsed / 5. *)
Definition RefundQuotient : Z := 2.
Definition RefundQuotientEIP3529 : Z := 5.

(** The values of go-ethereum's [params/protocol_params.go]. *)
Definition protocol_params : ProtocolParams := {|
  TxGas := 21000;
  TxGasContractCreation := 53000;
  TxDataZeroGas := 4;
  TxDataNonZeroGasFrontier := 68;
  TxDataNonZeroGasEIP2028 := 16;
  InitCodeWordGas := 2;
  TxAccessListAddressGas := 2400;
  TxAccessListStorageKeyGas := 1900;
  MaxInitCodeSize := 49152;
  DataGasPerBlob := 131072;
  OptimismBaseFeeRecipient := 0x4200000000000000000000000000000000000019;
  OptimismL1FeeRecipient := 0x420000000000000000000000000000000000001A
|}.

(** ** Intrinsic gas *)

Section IntrinsicGas.

Variable params : ProtocolParams.

(** The loop of [IntrinsicGas] that counts the non-zero bytes. *)
Definition countNonZero (data : list byte) : Z :=
  fold_left (fun nz byt => if Byte.eqb byt x00 then nz else U64.add nz 1) data 0.

(** [toWordSize] returns the ceiled word size required for init code
    payment calculation. *)
Definition toWordSize (size : Z) : Z :=
  if U64.MaxUint64 - 31 <? size then U64.MaxUint64 / 32 + 1
  else U64.div (U64.add size 31) 32.

(** [IntrinsicGas] computes the intrinsic gas for a message with the given
    data. *)
Definition IntrinsicGas (data : list byte) (accessList : types.AccessList)
    (isContractCreation isHomestead isEIP2028 isEIP3860 : bool) : Z * option error :=
  let gas :=
    if isContractCreation && isHomestead then TxGasContractCreation params
    else TxGas params in
  let dataLen := U64.wrap (Z.of_nat (length data)) in
  let payload : Z * option error :=
    if 0 <? dataLen then
      let nz := countNonZero data in
      let nonZeroGas :=
        if isEIP2028 then TxDataNonZeroGasEIP2028 params
        else TxDataNonZeroGasFrontier params in
      if U64.div (U64.sub U64.MaxUint64 gas) nonZeroGas <? nz then
        (0, Some ErrGasUintOverflow)
      else
        let gas := U64.add gas (U64.mul nz nonZeroGas) in
        let z := U64.sub dataLen nz in
        if U64.div (U64.sub U64.MaxUint64 gas) (TxDataZeroGas params) <? z then
          (0, Some ErrGasUintOverflow)
        else
          let gas := U64.add gas (U64.mul z (TxDataZeroGas params)) in
          if isContractCreation && isEIP3860 then
            let lenWords := toWordSize dataLen in
            if U64.div (U64.sub U64.MaxUint64 gas) (InitCodeWordGas params) <? lenWords then
              (0, Some ErrGasUintOverflow)
            else (U64.add gas (U64.mul lenWords (InitCodeWordGas params)), None)
          else (gas, None)
    else (gas, None) in
  match payload with
  | (gas, None) =>
      match accessList with
      | [] => (gas, None)
      | _ =>
          let gas :=
            U64.add gas (U64.mul (U64.wrap (Z.of_nat (length accessList)))
                                 (TxAccessListAddressGas params)) in
          let gas :=
            U64.add gas (U64.mul (U64.wrap (types.AccessList_StorageKeys accessList))
                                 (TxAccessListStorageKeyGas params)) in
          (gas, None)
      end
  | failed => failed
  end.

End IntrinsicGas.

(** The intrinsic gas of a payload, as a sum of integers without bound. *)
Definition payloadGas (p : ProtocolParams) (data : list byte)
    (isContractCreation isHomestead isEIP2028 isEIP3860 : bool) : Z :=
  let len := Z.of_nat (length data) in
  let nz := Z.of_nat (length (List.filter (fun byt => negb (Byte.eqb byt x00)) data)) in
  (if isContractCreation && isHomestead then TxGasContractCreation p else TxGas p)
  + nz * (if isEIP2028 then TxDataNonZeroGasEIP2028 p else TxDataNonZeroGasFrontier p)
  + (len - nz) * TxDataZeroGas p
  + (if isContractCreation && isEIP3860 then (len + 31) / 32 * InitCodeWordGas p else 0).



(** ** The deposit transaction *)

(** Outcome of a call: it returns, or the goroutine panics. *)
Inductive outcome (A : Type) : Type :=
| Return (a : A)
| Panic (reason : string).
Arguments Return {A} a.
Arguments Panic {A} reason.

Module DepositTx.

Record t := {
  ChainID : option Z;
  To : option Address;
  Value : option Z;
  Data : list byte;
  From : option Address
}.

Definition rawSignatureValues (tx : t) : outcome (option Z * option Z * option Z) :=
  Panic "deposit tx does not have a signature".

Definition setSignatureValues (tx : t) (chainID v r s : option Z) : outcome unit :=
  Panic "deposit tx does not have a signature".

Definition gas (tx : t) : Z := 100000000.
Definition nonce (tx : t) : Z := 0xffffffffffffffff.
Definition gasPrice (tx : t) : Z := 0.
Definition gasFeeCap (tx : t) : Z := 0.
Definition gasTipCap (tx : t) : Z := 0.
Definition protected (tx : t) : bool := true.
Definition accessList (tx : t) : types.AccessList := [].

End DepositTx.

(** ** The collaborators: gas pool, world state, virtual machine *)

(** [ExecutionResult] includes all output after executing given evm message
    no matter the execution itself is successful or not. *)
Record ExecutionResult := {
  UsedGas : Z;
  Err : option error;
  ReturnData : list byte
}.

(** [Message] represents a message sent to a contract. The [*big.Int]
    accessors that the engine compares with [nil] are options. *)
Record Message := {
  From : Address;
  To : option Address;
  GasPrice : Z;
  GasFeeCap : option Z;
  GasTipCap : Z;
  MaxFeePerDataGas : Z;
  Gas : Z;
  DataGas : Z;
  Value : Z;
  IsSystemTx : bool;
  IsDepositTx : bool;
  Mint : option Z;
  RollupDataGas : Z;
  Nonce : Z;
  IsFake : bool;
  Data : list byte;
  AccessList : types.AccessList;
  DataHashes : list Hash
}.

(** The [uint64] accessors of a message return [uint64] values. *)
Record msg_ok (m : Message) : Prop := {
  Gas_ok : U64.in_range (Gas m);
  Nonce_ok : U64.in_range (Nonce m)
}.

Module GasPool.

(** Modelled from the spec: the block gas pool of core/gaspool.go, which is
    not among the sources. It is a counter of remaining ordinary gas and
    of remaining data gas, with a subtraction that fails when the pool is
    exhausted (gas-limit-reached for ordinary gas) and an unbounded
    addition. *)
Record t := {
  gas : Z;
  dataGas : Z
}.

Definition SubGas (amount : Z) (gp : t) : option error * t :=
  if gas gp <? amount then (Some ErrGasLimitReached, gp)
  else (None, {| gas := gas gp - amount; dataGas := dataGas gp |}).

Definition AddGas (amount : Z) (gp : t) : t :=
  {| gas := gas gp + amount; dataGas := dataGas gp |}.

Definition SubDataGas (amount : Z) (gp : t) : option error * t :=
  if dataGas gp <? amount then (Some ErrDataGasLimitReached, gp)
  else (None, {| gas := gas gp; dataGas := dataGas gp - amount |}).

Definition AddDataGas (amount : Z) (gp : t) : t :=
  {| gas := gas gp; dataGas := dataGas gp + amount |}.

End GasPool.

Module StateDB.

(** Modelled from the spec: the world state behind [vm.StateDB], which is
    not among the sources. It is a ledger with get/set balance, get/set
    nonce, get code hash and get refund counter; a snapshot is a handle to
    the world state at a point in time and reverting to it is an exact
    rollback. An account that is absent has balance 0, nonce 0 and the
    zero code hash. *)
Record t := {
  balances : gmap Z Z;
  nonces : gmap Z Z;
  codeHashes : gmap Z Z;
  refund : Z
}.

Definition GetBalance (s : t) (addr : Address) : Z :=
  default 0 (balances s !! addr).

Definition setBalance (addr : Address) (amount : Z) (s : t) : t :=
  {| balances := <[addr := amount]> (balances s);
     nonces := nonces s; codeHashes := codeHashes s; refund := refund s |}.

Definition AddBalance (addr : Address) (amount : Z) (s : t) : t :=
  setBalance addr (GetBalance s addr + amount) s.

Definition SubBalance (addr : Address) (amount : Z) (s : t) : t :=
  setBalance addr (GetBalance s addr - amount) s.

Definition GetNonce (s : t) (addr : Address) : Z :=
  default 0 (nonces s !! addr).

Definition SetNonce (addr : Address) (nonce : Z) (s : t) : t :=
  {| balances := balances s;
     nonces := <[addr := nonce]> (nonces s);
     codeHashes := codeHashes s; refund := refund s |}.

Definition GetCodeHash (s : t) (addr : Address) : Hash :=
  default 0 (codeHashes s !! addr).

Definition GetRefund (s : t) : Z := refund s.

(** The handle returned by [Snapshot] is the saved world state. *)
Definition Snapshot (s : t) : t := s.

Definition RevertToSnapshot (snap : t) (s : t) : t := snap.

End StateDB.

(** [params.Rules]: the flags the engine reads. *)
Module Rules.
Record t := {
  IsHomestead : bool;
  IsIstanbul : bool;
  IsLondon : bool;
  IsShanghai : bool;
  IsOptimismBedrock : bool
}.
End Rules.

(** [params.ChainConfig]: the rule-activation contract, consumed but not
    computed by the engine. *)
Module ChainConfig.
Record t := {
  IsLondon : Z -> bool;
  IsSharding : Z -> bool;
  Rules : Z -> bool -> Z -> Rules.t;
  Optimism : option unit
}.
End ChainConfig.

(** [vm.BlockContext] *)
Record BlockContext := {
  CanTransfer : StateDB.t -> Address -> Z -> bool;
  L1CostFunc : option (Z -> Message -> option Z);
  Coinbase : Address;
  BlockNumber : Z;
  Time : Z;
  BaseFee : option Z;
  Random : option Hash;
  ExcessDataGas : option Z
}.

(** [vm.Config]. The tracer hooks of the [Debug] flag only observe the
    transition and are left out. *)
Record VMConfig := {
  NoBaseFee : bool;
  Debug : bool
}.

(** [vm.EVM], specified only by interface. The world state is shared with
    the state transition: [Call] and [Create] are handed the live world
    state and return it with the remaining gas. *)
Record EVM := {
  Context : BlockContext;
  chainConfig : ChainConfig.t;
  Config : VMConfig;
  evmStateDB : StateDB.t;
  Call : StateDB.t -> Address -> Address -> list byte -> Z -> Z ->
         (list byte * Z * option error) * StateDB.t;
  Create : StateDB.t -> Address -> list byte -> Z -> Z ->
           (list byte * Address * Z * option error) * StateDB.t
}.

(** [StateTransition] represents a state transition: the working state of
    one call, with the contents of the gas pool and of the world state it
    mutates. *)
Record StateTransition := {
  gp : GasPool.t;
  msg : Message;
  gasRemaining : Z;
  state : StateDB.t;
  evm : EVM
}.

Definition withGp (gp' : GasPool.t) (st : StateTransition) : StateTransition :=
  {| gp := gp'; msg := msg st; gasRemaining := gasRemaining st;
     state := state st; evm := evm st |}.

Definition withGasRemaining (g : Z) (st : StateTransition) : StateTransition :=
  {| gp := gp st; msg := msg st; gasRemaining := g;
     state := state st; evm := evm st |}.

Definition withState (s : StateDB.t) (st : StateTransition) : StateTransition :=
  {| gp := gp st; msg := msg st; gasRemaining := gasRemaining st;
     state := s; evm := evm st |}.

(** [big.Int.BitLen]: the length of the absolute value in bits. *)
Definition BitLen (x : Z) : Z :=
  if x =? 0 then 0 else Z.log2 (Z.abs x) + 1.

(** [big.Int.Uint64]: the low 64 bits of the absolute value. *)
Definition Uint64 (x : Z) : Z := U64.wrap (Z.abs x).

(** Dereferencing a [*big.Int] that may be [nil]. *)
Definition deref {A : Type} (p : option A) : outcome A :=
  match p with
  | Some x => Return x
  | None => Panic "invalid memory address or nil pointer dereference"
  end.

#[global] Instance outcome_ret : MRet outcome := @Return.

#[global] Instance outcome_bind : MBind outcome :=
  fun A B k m =>
    match m with
    | Return a => k a
    | Panic r => Panic r
    end.

(** ** The state transition *)

Module core.

Section Engine.

Variable params : ProtocolParams.

(** [misc.GetDataGasPrice], the collaborator pricing function, on a
    non-nil excess data gas. *)
Variable GetDataGasPrice : Z -> Z.

(** [emptyCodeHash], the Keccak-256 hash of the empty code. *)
Variable emptyCodeHash : Hash.

(** [vm.ActivePrecompiles] and the [Prepare] hook of the world state,
    which resets the per-transaction transient state. *)
Variable ActivePrecompiles : Rules.t -> list Address.
Variable Prepare :
  Rules.t -> Address -> Address -> option Address -> list Address ->
  types.AccessList -> StateDB.t -> StateDB.t.

Implicit Type st : StateTransition.

(** [NewStateTransition] initialises and returns a new state transition
    object. *)
Definition NewStateTransition (evm : EVM) (msg : Message) (gp : GasPool.t)
    : StateTransition :=
  {| gp := gp; msg := msg; gasRemaining := 0;
     state := evmStateDB evm; evm := evm |}.

(** [to] returns the recipient of the message. *)
Definition to st : Address :=
  match To (msg st) with
  | None => 0
  | Some a => a
  end.

(** [gasUsed] returns the amount of gas used up by the state transition. *)
Definition gasUsed st : Z :=
  U64.sub (Gas (msg st)) (gasRemaining st).

Definition dataGasUsed st : Z :=
  U64.mul (U64.wrap (Z.of_nat (length (DataHashes (msg st)))))
          (DataGasPerBlob params).

(** The L1 cost of [buyGas]: the cost function of the context, when there
    is one, applied to the block number and the message. *)
Definition l1CostOf st : option Z :=
  match L1CostFunc (Context (evm st)) with
  | Some f => f (Uint64 (BlockNumber (Context (evm st)))) (msg st)
  | None => None
  end.

Definition buyGas st : option error * StateTransition :=
  let mgval := Gas (msg st) * GasPrice (msg st) in
  let l1Cost := l1CostOf st in
  let mgval :=
    match l1Cost with
    | Some c => mgval + c
    | None => mgval
    end in
  (* compute data fee for eip-4844 data blobs if any *)
  let dataFee : error + Z * Z :=
    if ChainConfig.IsSharding (chainConfig (evm st)) (Time (Context (evm st))) then
      match ExcessDataGas (Context (evm st)) with
      | None =>
          inl (Errorf "%w: sharding is active but ExcessDataGas is nil. Time: %v"
                      ErrInternalFailure)
      | Some excess => inr (GetDataGasPrice excess * dataGasUsed st, dataGasUsed st)
      end
    else inr (0, 0) in
  match dataFee with
  | inl err => (Some err, st)
  | inr (dgval, dataGasUsed) =>
      (* perform the required user balance checks *)
      let balanceRequired :=
        match GasFeeCap (msg st) with
        | None => mgval
        | Some gasFeeCap =>
            let balanceRequired := Value (msg st) + dgval in
            let maxGasFee := Gas (msg st) * gasFeeCap in
            let balanceRequired := balanceRequired + maxGasFee in
            match l1Cost with
            | Some c => balanceRequired + c
            | None => balanceRequired
            end
        end in
      if StateDB.GetBalance (state st) (From (msg st)) <? balanceRequired then
        (Some (Errorf "%w: address %v have %v want %v" ErrInsufficientFunds), st)
      else
        (* perform gas pool accounting *)
        match GasPool.SubGas (Gas (msg st)) (gp st) with
        | (Some err, gp1) => (Some err, withGp gp1 st)
        | (None, gp1) =>
            let st := withGp gp1 st in
            let st := withGasRemaining (U64.add (gasRemaining st) (Gas (msg st))) st in
            match GasPool.SubDataGas dataGasUsed (gp st) with
            | (Some err, gp2) => (Some err, withGp gp2 st)
            | (None, gp2) =>
                let st := withGp gp2 st in
                (* deduct the total gas fee (regular + data) from the
                   sender's balance *)
                let mgval := mgval + dgval in
                (None, withState (StateDB.SubBalance (From (msg st)) mgval (state st)) st)
            end
        end
  end.

(** The nonce and account checks of [preCheck], made for the messages that
    are not fake. *)
Definition checkNonceAndEOA st : option error :=
  let stNonce := StateDB.GetNonce (state st) (From (msg st)) in
  let msgNonce := Nonce (msg st) in
  if stNonce <? msgNonce then
    Some (Errorf "%w: address %v, tx: %d state: %d" ErrNonceTooHigh)
  else if msgNonce <? stNonce then
    Some (Errorf "%w: address %v, tx: %d state: %d" ErrNonceTooLow)
  else if U64.add stNonce 1 <? stNonce then
    Some (Errorf "%w: address %v, nonce: %d" ErrNonceMax)
  else
    let codeHash := StateDB.GetCodeHash (state st) (From (msg st)) in
    if negb (codeHash =? emptyCodeHash) && negb (codeHash =? 0) then
      Some (Errorf "%w: address %v, codehash: %s" ErrSenderNoEOA)
    else None.

(** The fee-market checks of [preCheck], made once London is active. *)
Definition checkFeeCaps st : outcome (option error) :=
  if ChainConfig.IsLondon (chainConfig (evm st)) (BlockNumber (Context (evm st))) then
    gasFeeCap ← deref (GasFeeCap (msg st));
    let gasTipCap := GasTipCap (msg st) in
    if negb (NoBaseFee (Config (evm st))) || (0 <? BitLen gasFeeCap) || (0 <? BitLen gasTipCap) then
      if 256 <? BitLen gasFeeCap then
        Return (Some (Errorf "%w: address %v, maxFeePerGas bit length: %d" ErrFeeCapVeryHigh))
      else if 256 <? BitLen gasTipCap then
        Return (Some (Errorf "%w: address %v, maxPriorityFeePerGas bit length: %d" ErrTipVeryHigh))
      else if gasFeeCap <? gasTipCap then
        Return (Some (Errorf "%w: address %v, maxPriorityFeePerGas: %s, maxFeePerGas: %s"
                             ErrTipAboveFeeCap))
      else
        (* This will panic if baseFee is nil, but basefee presence is
           verified as part of header validation. *)
        baseFee ← deref (BaseFee (Context (evm st)));
        if gasFeeCap <? baseFee then
          Return (Some (Errorf "%w: address %v, maxFeePerGas: %s baseFee: %s" ErrFeeCapTooLow))
        else Return None
    else Return None
  else Return None.

(** The data-gas price check of [preCheck]. The pricing function reads the
    excess data gas it is handed: a [nil] one is a nil dereference. *)
Definition checkDataGasPrice st : outcome (option error) :=
  if (0 <? dataGasUsed st)
     && ChainConfig.IsSharding (chainConfig (evm st)) (Time (Context (evm st))) then
    excess ← deref (ExcessDataGas (Context (evm st)));
    let dataGasPrice := GetDataGasPrice excess in
    if MaxFeePerDataGas (msg st) <? dataGasPrice then
      Return (Some (Errorf "%w: address %v, maxFeePerDataGas: %v dataGasPrice: %v, excessDataGas: %v"
                           ErrMaxFeePerDataGas))
    else Return None
  else Return None.

Definition preCheck st : outcome (option error * StateTransition) :=
  if IsDepositTx (msg st) then
    (* Gas is free, but no refunds! *)
    let st := withGasRemaining (U64.add (gasRemaining st) (Gas (msg st))) st in
    (* Don't touch the gas pool for system transactions *)
    if IsSystemTx (msg st) then Return (None, st)
    else
      let '(err, gp1) := GasPool.SubGas (Gas (msg st)) (gp st) in
      Return (err, withGp gp1 st)
  else
    (* Only check transactions that are not fake *)
    match (if negb (IsFake (msg st)) then checkNonceAndEOA st else None) with
    | Some err => Return (Some err, st)
    | None =>
        feeErr ← checkFeeCaps st;
        match feeErr with
        | Some err => Return (Some err, st)
        | None =>
            dataErr ← checkDataGasPrice st;
            match dataErr with
            | Some err => Return (Some err, st)
            | None => Return (buyGas st)
            end
        end
    end.

Definition refundGas (refundQuotient : Z) st : StateTransition :=
  (* Apply refund counter, capped to a refund quotient *)
  let refund := U64.div (gasUsed st) refundQuotient in
  let refund :=
    if StateDB.GetRefund (state st) <? refund then StateDB.GetRefund (state st)
    else refund in
  let st := withGasRemaining (U64.add (gasRemaining st) refund) st in
  (* Return ETH for remaining gas, exchanged at the original rate. *)
  let remaining := gasRemaining st * GasPrice (msg st) in
  let st := withState (StateDB.AddBalance (From (msg st)) remaining (state st)) st in
  (* Also return remaining gas to the block gas counter so it is
     available for the next transaction. *)
  withGp (GasPool.AddGas (gasRemaining st) (gp st)) st.

(** The gas a deposit is recorded with: all of its gas, and none for a
    system transaction. *)
Definition depositGasUsed st : Z :=
  if IsSystemTx (msg st) then 0 else Gas (msg st).

(** The call into the virtual machine of [innerTransitionDb]: a creation,
    or the nonce increment followed by the call. *)
Definition execute (contractCreation : bool) st
    : list byte * option error * StateTransition :=
  let sender := From (msg st) in
  if contractCreation then
    let '(ret, _, gasLeft, vmerr, s) :=
      Create (evm st) (state st) sender (Data (msg st)) (gasRemaining st) (Value (msg st)) in
    (ret, vmerr, withGasRemaining gasLeft (withState s st))
  else
    (* Increment the nonce for the next transaction *)
    let st :=
      withState (StateDB.SetNonce (From (msg st))
                   (U64.add (StateDB.GetNonce (state st) sender) 1) (state st)) st in
    let '(ret, gasLeft, vmerr, s) :=
      Call (evm st) (state st) sender (to st) (Data (msg st)) (gasRemaining st) (Value (msg st)) in
    (ret, vmerr, withGasRemaining gasLeft (withState s st)).

(** The refund settlement of [innerTransitionDb]: [refundGas] with the
    quotient of the rules. *)
Definition refundSettlement (rules : Rules.t) st : StateTransition :=
  if negb (Rules.IsLondon rules) then
    (* Before EIP-3529: refunds were capped to gasUsed / 2 *)
    refundGas RefundQuotient st
  else
    (* After EIP-3529: refunds are capped to gasUsed / 5 *)
    refundGas RefundQuotientEIP3529 st.

(** The fee settlement of [innerTransitionDb] and its final result. *)
Definition feeSettlement (rules : Rules.t) (ret : list byte) (vmerr : option error) st
    : outcome ((option ExecutionResult * option error) * StateTransition) :=
  effectiveTip ←
    (if Rules.IsLondon rules then
       gasFeeCap ← deref (GasFeeCap (msg st));
       baseFee ← deref (BaseFee (Context (evm st)));
       Return (Z.min (GasTipCap (msg st)) (gasFeeCap - baseFee))
     else Return (GasPrice (msg st)));
  skipFee ←
    (if NoBaseFee (Config (evm st)) then
       gasFeeCap ← deref (GasFeeCap (msg st));
       Return ((gasFeeCap =? 0) && (GasTipCap (msg st) =? 0))
     else Return false);
  let st :=
    if skipFee : bool then st
    else
      let fee := gasUsed st * effectiveTip in
      withState (StateDB.AddBalance (Coinbase (Context (evm st))) fee (state st)) st in
  st ←
    (match ChainConfig.Optimism (chainConfig (evm st)) with
     | Some _ =>
         if Rules.IsOptimismBedrock rules then
           baseFee ← deref (BaseFee (Context (evm st)));
           let st :=
             withState (StateDB.AddBalance (OptimismBaseFeeRecipient params)
                          (gasUsed st * baseFee) (state st)) st in
           l1CostFunc ← deref (L1CostFunc (Context (evm st)));
           match l1CostFunc (Uint64 (BlockNumber (Context (evm st)))) (msg st) with
           | Some cost =>
               Return (withState (StateDB.AddBalance (OptimismL1FeeRecipient params)
                                    cost (state st)) st)
           | None => Return st
           end
         else Return st
     | None => Return st
     end);
  Return ((Some {| UsedGas := gasUsed st; Err := vmerr; ReturnData := ret |}, None), st).

Definition innerTransitionDb st
    : outcome ((option ExecutionResult * option error) * StateTransition) :=
  (* Check clauses 1-3, buy gas if everything is correct *)
  '(err, st) ← preCheck st;
  match err with
  | Some err => Return ((None, Some err), st)
  | None =>
      let msg := msg st in
      let rules :=
        ChainConfig.Rules (chainConfig (evm st)) (BlockNumber (Context (evm st)))
          (bool_decide (Random (Context (evm st)) <> None)) (Time (Context (evm st))) in
      let contractCreation := bool_decide (To msg = None) in
      (* Check clauses 4-5, subtract intrinsic gas if everything is correct *)
      match IntrinsicGas params (Data msg) (AccessList msg) contractCreation
              (Rules.IsHomestead rules) (Rules.IsIstanbul rules) (Rules.IsShanghai rules) with
      | (_, Some err) => Return ((None, Some err), st)
      | (gas, None) =>
          if gasRemaining st <? gas then
            Return ((None, Some (Errorf "%w: have %d, want %d" ErrIntrinsicGas)), st)
          else
            let st := withGasRemaining (U64.sub (gasRemaining st) gas) st in
            (* Check clause 6 *)
            if (0 <? Value msg)
               && negb (CanTransfer (Context (evm st)) (state st) (From msg) (Value msg)) then
              Return ((None, Some (Errorf "%w: address %v" ErrInsufficientFundsForTransfer)), st)
            (* Check whether the init code size has been exceeded. *)
            else if Rules.IsShanghai rules && contractCreation
                    && (MaxInitCodeSize params <? Z.of_nat (length (Data msg))) then
              Return ((None, Some (Errorf "%w: code size %v limit %v" ErrMaxInitCodeSizeExceeded)), st)
            else
              let st :=
                withState (Prepare rules (From msg) (Coinbase (Context (evm st))) (To msg)
                             (ActivePrecompiles rules) (AccessList msg) (state st)) st in
              let '(ret, vmerr, st) := execute contractCreation st in
              (* if deposit: skip refunds, skip tipping coinbase *)
              if IsDepositTx msg then
                Return ((Some {| UsedGas := depositGasUsed st; Err := vmerr; ReturnData := ret |},
                         None), st)
              else feeSettlement rules ret vmerr (refundSettlement rules st)
      end
  end.

(** The mint of [TransitionDb]: the sender is credited with the amount to
    mint, when there is one. *)
Definition minted st : StateTransition :=
  match Mint (msg st) with
  | Some mint => withState (StateDB.AddBalance (From (msg st)) mint (state st)) st
  | None => st
  end.

(** [TransitionDb] will transition the state by applying the current
    message and returning the evm execution result; if any consensus issue
    is encountered, it returns the error directly with a nil evm execution
    result. *)
Definition TransitionDb st
    : outcome ((option ExecutionResult * option error) * StateTransition) :=
  let st := minted st in
  let snap := StateDB.Snapshot (state st) in
  '(result, err, st) ← innerTransitionDb st;
  (* Failed deposits must still be included. Unless we cannot produce the
     block at all due to the gas limit. *)
  match err with
  | Some e =>
      if negb (bool_decide (e = ErrGasLimitReached)) && IsDepositTx (msg st) then
        let st := withState (StateDB.RevertToSnapshot snap (state st)) st in
        (* Even though we revert the state changes, always increment the
           nonce for the next deposit transaction *)
        let st :=
          withState (StateDB.SetNonce (From (msg st))
                       (U64.add (StateDB.GetNonce (state st) (From (msg st))) 1)
                       (state st)) st in
        let result :=
          {| UsedGas := depositGasUsed st;
             Err := Some (Errorf "failed deposit: %w" e);
             ReturnData := [] |} in
        Return ((Some result, None), st)
      else Return ((result, err), st)
  | None => Return ((result, err), st)
  end.

(** [ApplyMessage] computes the new state by applying the given message
    against the old state within the environment. *)
Definition ApplyMessage (evm : EVM) (msg : Message) (gp : GasPool.t)
    : outcome ((option ExecutionResult * option error) * StateTransition) :=
  TransitionDb (NewStateTransition evm msg gp).


(** *** What the properties are stated with *)

(** The rules the engine reads from the chain configuration. *)
Definition rulesOf (evm : EVM) : Rules.t :=
  ChainConfig.Rules (chainConfig evm) (BlockNumber (Context evm))
    (bool_decide (Random (Context evm) <> None)) (Time (Context evm)).

(** The pair [innerTransitionDb] gets from [IntrinsicGas] for a message. *)
Definition intrinsicGasOf (evm : EVM) (msg : Message) : Z * option error :=
  IntrinsicGas params (Data msg) (AccessList msg) (bool_decide (To msg = None))
    (Rules.IsHomestead (rulesOf evm)) (Rules.IsIstanbul (rulesOf evm))
    (Rules.IsShanghai (rulesOf evm)).

(** The refund quotient of the rules. *)
Definition refundQuotientOf (rules : Rules.t) : Z :=
  if Rules.IsLondon rules then 5 else 2.

(** The data-gas cost [buyGas] charges: the data gas used at the current
    data-gas price when sharding is active. *)
Definition dataCostOf st : Z :=
  if ChainConfig.IsSharding (chainConfig (evm st)) (Time (Context (evm st))) then
    match ExcessDataGas (Context (evm st)) with
    | Some excess => GetDataGasPrice excess * dataGasUsed st
    | None => 0
    end
  else 0.

(** The gas purchase is all-or-nothing at [st]: a failure leaves the
    sender's balance and both counters of the gas pool as they were. *)
Definition buyGas_all_or_nothing st : Prop :=
  forall err st',
    buyGas st = (Some err, st') ->
    StateDB.GetBalance (state st') (From (msg st)) =
      StateDB.GetBalance (state st) (From (msg st)) /\
    gp st' = gp st.

(** The used gas reported for [msg] lies between the intrinsic gas and the
    gas limit. *)
Definition usedGas_between_intrinsic_and_limit
    (evm : EVM) (msg : Message) (gp : GasPool.t) : Prop :=
  forall res st',
    ApplyMessage evm msg gp = Return ((Some res, None), st') ->
    fst (intrinsicGasOf evm msg) <= UsedGas res <= Gas msg.


End Engine.

End core.

Import core.

(** The contract of the virtual machine on gas: a call or a creation that is
    handed a [uint64] amount of gas returns no more than that amount, and
    leaves a [uint64] refund counter. *)
Record vm_ok (evm : EVM) : Prop := {
  Call_gas : forall s caller addr input gas value ret gasLeft vmerr s',
    U64.in_range gas ->
    Call evm s caller addr input gas value = (ret, gasLeft, vmerr, s') ->
    0 <= gasLeft <= gas /\ U64.in_range (StateDB.GetRefund s');
  Create_gas : forall s caller code gas value ret addr gasLeft vmerr s',
    U64.in_range gas ->
    Create evm s caller code gas value = (ret, addr, gasLeft, vmerr, s') ->
    0 <= gasLeft <= gas /\ U64.in_range (StateDB.GetRefund s')
}.

(** *** Concrete instances *)

Module Fixture.

(** A data-gas price of one, no precompiles, and a [Prepare] hook that
    leaves the world state as it is. *)
Definition unitPrice (excess : Z) : Z := 1.
Definition noPrecompiles (rules : Rules.t) : list Address := [].
Definition idPrepare (rules : Rules.t) (sender coinbase : Address) (dst : option Address)
    (precompiles : list Address) (al : types.AccessList) (s : StateDB.t) : StateDB.t := s.
Definition emptyCodeHash : Hash :=
  0xc5d2460186f7233c927e7db2dcc703c0e500b653ca82273b7bfad8045d85a470.

Definition alice : Address := 1.
Definition bob : Address := 2.

Definition frontierRules : Rules.t :=
  {| Rules.IsHomestead := false; Rules.IsIstanbul := false; Rules.IsLondon := false;
     Rules.IsShanghai := false; Rules.IsOptimismBedrock := false |}.

(** A chain before London, with sharding as given. *)
Definition config (sharding : bool) : ChainConfig.t :=
  {| ChainConfig.IsLondon := fun _ => false;
     ChainConfig.IsSharding := fun _ => sharding;
     ChainConfig.Rules := fun _ _ _ => frontierRules;
     ChainConfig.Optimism := None |}.

Definition context : BlockContext :=
  {| CanTransfer := fun s addr amount => amount <=? StateDB.GetBalance s addr;
     L1CostFunc := None;
     Coinbase := 9;
     BlockNumber := 100;
     Time := 1000;
     BaseFee := None;
     Random := None;
     ExcessDataGas := Some 0 |}.

(** Alice holds ten million wei and has made no transaction. *)
Definition world : StateDB.t :=
  {| StateDB.balances := {[ alice := 10000000 ]};
     StateDB.nonces := ∅;
     StateDB.codeHashes := ∅;
     StateDB.refund := 0 |}.

(** A virtual machine whose calls spend [spent] gas (all of it when less is
    left) and leave [counter] in the refund counter. *)
Definition machine (sharding : bool) (spent counter : Z) : EVM :=
  {| Context := context;
     chainConfig := config sharding;
     Config := {| NoBaseFee := false; Debug := false |};
     evmStateDB := world;
     Call := fun s caller addr input gas value =>
       ([], Z.max 0 (gas - spent), None,
        {| StateDB.balances := StateDB.balances s; StateDB.nonces := StateDB.nonces s;
           StateDB.codeHashes := StateDB.codeHashes s; StateDB.refund := counter |});
     Create := fun s caller code gas value =>
       ([], 0, Z.max 0 (gas - spent), None,
        {| StateDB.balances := StateDB.balances s; StateDB.nonces := StateDB.nonces s;
           StateDB.codeHashes := StateDB.codeHashes s; StateDB.refund := counter |}) |}.

(** A legacy transfer from Alice to Bob with a gas limit of 100000, and
    [blobs] data hashes. *)
Definition transfer (blobs : list Hash) : Message :=
  {| From := alice; To := Some bob;
     GasPrice := 1; GasFeeCap := None; GasTipCap := 0; MaxFeePerDataGas := 1;
     Gas := 100000; DataGas := 0; Value := 0;
     IsSystemTx := false; IsDepositTx := false; Mint := None; RollupDataGas := 0;
     Nonce := 0; IsFake := false; Data := []; AccessList := []; DataHashes := blobs |}.

(** A deposit from Alice that mints 500 wei and calls Bob with more value
    than she holds. *)
Definition deposit (system : bool) : Message :=
  {| From := alice; To := Some bob;
     GasPrice := 0; GasFeeCap := Some 0; GasTipCap := 0; MaxFeePerDataGas := 0;
     Gas := 100000; DataGas := 0; Value := 20000000;
     IsSystemTx := system; IsDepositTx := true; Mint := Some 500; RollupDataGas := 0;
     Nonce := 0; IsFake := false; Data := []; AccessList := []; DataHashes := [] |}.

Definition pool : GasPool.t := {| GasPool.gas := 30000000; GasPool.dataGas := 0 |}.

(** An access list of [n] addresses without storage keys. *)
Definition noKeys : types.AccessTuple :=
  {| types.Address := bob; types.StorageKeys := [] |}.

Definition addresses (n : nat) : types.AccessList := repeat noKeys n.

(** The state an outcome returns with. *)
Definition stateOf {A : Type} (o : outcome (A * StateTransition))
    (otherwise : StateTransition) : StateTransition :=
  match o with
  | Return (_, st) => st
  | Panic _ => otherwise
  end.

(** The transfer with one data hash, on a chain with sharding and an empty
    data-gas pool: before and after [buyGas]. *)
Definition blobStart : StateTransition :=
  NewStateTransition (machine true 0 0) (transfer [7]) pool.

Definition blobFailed : StateTransition :=
  snd (buyGas protocol_params unitPrice blobStart).

(** The plain transfer, run by a machine that spends 5000 gas and leaves a
    refund counter of 15000: at the start, after [preCheck], at the refund
    settlement, and at the end. *)
Definition transferStart : StateTransition :=
  NewStateTransition (machine false 5000 15000) (transfer []) pool.

Definition transferBought : StateTransition :=
  stateOf (preCheck protocol_params unitPrice emptyCodeHash transferStart) transferStart.

Definition transferRun : StateTransition :=
  withGasRemaining 74000
    (withState {| StateDB.balances := StateDB.balances (state transferBought);
                  StateDB.nonces := {[ alice := 1 ]};
                  StateDB.codeHashes := ∅;
                  StateDB.refund := 15000 |} transferBought).

Definition transferDone : StateTransition :=
  stateOf (TransitionDb protocol_params unitPrice emptyCodeHash noPrecompiles idPrepare
             transferStart) transferStart.

(** The deposit: at the start, and when the inner pipeline has failed. *)
Definition depositStart (system : bool) : StateTransition :=
  NewStateTransition (machine false 0 0) (deposit system) pool.

Definition depositFailed (system : bool) : StateTransition :=
  stateOf (innerTransitionDb protocol_params unitPrice emptyCodeHash noPrecompiles idPrepare
             (minted (depositStart system))) (depositStart system).

Definition noTransfer : error := Errorf "%w: address %v" ErrInsufficientFundsForTransfer.

End Fixture.

(** ** The rest of the engine's files *)

(** [common.CopyBytes] returns an exact copy of the provided bytes. *)
Definition CopyBytes (b : list byte) : list byte := b.

(** [vm.ErrExecutionReverted], the error of the [REVERT] opcode. *)
Definition ErrExecutionReverted : error := VMError "execution reverted".

Module ExecResult.

(** [Unwrap] returns the internal evm error which allows us for further
    analysis outside. *)
Definition Unwrap (result : ExecutionResult) : option error := Err result.

(** [Failed] returns the indicator whether the execution is successful or
    not. *)
Definition Failed (result : ExecutionResult) : bool :=
  bool_decide (Err result <> None).

(** [Return] returns the data after execution if no error occurs. *)
Definition Return (result : ExecutionResult) : list byte :=
  match Err result with
  | Some _ => []
  | None => CopyBytes (ReturnData result)
  end.

(** [Revert] returns the concrete revert reason if the execution is aborted
    by the [REVERT] opcode. *)
Definition Revert (result : ExecutionResult) : list byte :=
  if bool_decide (Err result = Some ErrExecutionReverted)
  then CopyBytes (ReturnData result)
  else [].

End ExecResult.

Module Facts.

Section Vocabulary.

Variable params : ProtocolParams.
Variable GetDataGasPrice : Z -> Z.

Implicit Type st : StateTransition.

(** The balance [buyGas] requires of the sender: the gas cost with the L1
    cost when the message has no fee cap, and else the value, the data-gas
    cost, the gas limit at the fee cap and the L1 cost. *)
Definition balanceRequiredOf st : Z :=
  match GasFeeCap (msg st) with
  | None => Gas (msg st) * GasPrice (msg st) + default 0 (l1CostOf st)
  | Some gasFeeCap =>
      Value (msg st) + dataCostOf params GetDataGasPrice st
      + Gas (msg st) * gasFeeCap + default 0 (l1CostOf st)
  end.

(** The data gas [buyGas] takes from the pool: the data gas used when
    sharding is active. *)
Definition dataGasBoughtOf st : Z :=
  if ChainConfig.IsSharding (chainConfig (evm st)) (Time (Context (evm st)))
  then dataGasUsed params st else 0.

(** The intrinsic gas of a payload and an access list, as a sum of integers
    without bound. *)
Definition intrinsicSum (data : list byte) (al : types.AccessList)
    (isContractCreation isHomestead isEIP2028 isEIP3860 : bool) : Z :=
  payloadGas params data isContractCreation isHomestead isEIP2028 isEIP3860
  + Z.of_nat (length al) * TxAccessListAddressGas params
  + types.AccessList_StorageKeys al * TxAccessListStorageKeyGas params.

End Vocabulary.

(** The consensus errors [innerTransitionDb] raises after [preCheck]: on the
    intrinsic gas, the funds for the transfer and the size of the init
    code. *)
Definition raisedAfterPurchase (err : error) : Prop :=
  err = ErrGasUintOverflow \/
  err = Errorf "%w: have %d, want %d" ErrIntrinsicGas \/
  err = Errorf "%w: address %v" ErrInsufficientFundsForTransfer \/
  err = Errorf "%w: code size %v limit %v" ErrMaxInitCodeSizeExceeded.

End Facts.

(** *** More concrete instances *)

Module Sample.

(** Constants with a per-byte cost of [2^63] for the non-zero bytes, under
    which two bytes overflow. *)
Definition steepParams : ProtocolParams := {|
  TxGas := 21000;
  TxGasContractCreation := 53000;
  TxDataZeroGas := 4;
  TxDataNonZeroGasFrontier := 2 ^ 63;
  TxDataNonZeroGasEIP2028 := 16;
  InitCodeWordGas := 2;
  TxAccessListAddressGas := 2400;
  TxAccessListStorageKeyGas := 1900;
  MaxInitCodeSize := 49152;
  DataGasPerBlob := 131072;
  OptimismBaseFeeRecipient := 0x4200000000000000000000000000000000000019;
  OptimismL1FeeRecipient := 0x420000000000000000000000000000000000001A
|}.

Definition run :=
  ApplyMessage protocol_params Fixture.unitPrice Fixture.emptyCodeHash
    Fixture.noPrecompiles Fixture.idPrepare.

Definition check :=
  preCheck protocol_params Fixture.unitPrice Fixture.emptyCodeHash.

Definition inner :=
  innerTransitionDb protocol_params Fixture.unitPrice Fixture.emptyCodeHash
    Fixture.noPrecompiles Fixture.idPrepare.

(** A chain under London, with a base fee of 7. *)
Definition londonRules : Rules.t :=
  {| Rules.IsHomestead := true; Rules.IsIstanbul := true; Rules.IsLondon := true;
     Rules.IsShanghai := true; Rules.IsOptimismBedrock := false |}.

Definition londonConfig : ChainConfig.t :=
  {| ChainConfig.IsLondon := fun _ => true;
     ChainConfig.IsSharding := fun _ => false;
     ChainConfig.Rules := fun _ _ _ => londonRules;
     ChainConfig.Optimism := None |}.

Definition londonContext : BlockContext :=
  {| CanTransfer := fun s addr amount => amount <=? StateDB.GetBalance s addr;
     L1CostFunc := None;
     Coinbase := 9;
     BlockNumber := 100;
     Time := 1000;
     BaseFee := Some 7;
     Random := Some 1;
     ExcessDataGas := None |}.

Definition londonMachine : EVM :=
  {| Context := londonContext;
     chainConfig := londonConfig;
     Config := {| NoBaseFee := false; Debug := false |};
     evmStateDB := Fixture.world;
     Call := Call (Fixture.machine false 0 0);
     Create := Create (Fixture.machine false 0 0) |}.

(** A dynamic-fee transfer of 5 wei, with the gas limit, the nonce and the
    data hashes as given. *)
Definition dynamicTransfer (gasLimit nonce : Z) (blobs : list Hash) : Message :=
  {| From := Fixture.alice; To := Some Fixture.bob;
     GasPrice := 9; GasFeeCap := Some 10; GasTipCap := 2; MaxFeePerDataGas := 1;
     Gas := gasLimit; DataGas := 0; Value := 5;
     IsSystemTx := false; IsDepositTx := false; Mint := None; RollupDataGas := 0;
     Nonce := nonce; IsFake := false; Data := []; AccessList := []; DataHashes := blobs |}.

(** A pool with data gas for one blob. *)
Definition blobPool : GasPool.t := {| GasPool.gas := 30000000; GasPool.dataGas := 200000 |}.

(** The dynamic-fee transfer under London: at the start and after
    [preCheck]. *)
Definition dynamicStart : StateTransition :=
  NewStateTransition londonMachine (dynamicTransfer 100000 0 []) Fixture.pool.

Definition dynamicBought : StateTransition :=
  Fixture.stateOf (check dynamicStart) dynamicStart.

(** The same transfer with a nonce of 5, which the sender has not
    reached. *)
Definition earlyStart : StateTransition :=
  NewStateTransition londonMachine (dynamicTransfer 100000 5 []) Fixture.pool.

(** The same transfer with a gas limit below the intrinsic gas: after
    [preCheck] and after the inner pipeline. *)
Definition underfundedStart : StateTransition :=
  NewStateTransition londonMachine (dynamicTransfer 20000 0 []) Fixture.pool.

Definition underfundedBought : StateTransition :=
  Fixture.stateOf (check underfundedStart) underfundedStart.

Definition underfundedFailed : StateTransition :=
  Fixture.stateOf (inner underfundedStart) underfundedStart.

(** The transfer with one data hash on a chain with sharding and a pool with
    data gas: at the start, after [preCheck] and at the end. *)
Definition blobStart : StateTransition :=
  NewStateTransition (Fixture.machine true 0 0) (Fixture.transfer [7]) blobPool.

Definition blobBought : StateTransition :=
  Fixture.stateOf (check blobStart) blobStart.

Definition blobDone : StateTransition :=
  Fixture.stateOf (run (Fixture.machine true 0 0) (Fixture.transfer [7]) blobPool) blobStart.

(** The deposits of the fixture, at the end. *)
Definition depositDone (system : bool) : StateTransition :=
  Fixture.stateOf (run (Fixture.machine false 0 0) (Fixture.deposit system) Fixture.pool)
    (Fixture.depositStart system).





(** The transfer with one data hash on a rollup with sharding, whose cost
    function charges an L1 cost of 11 wei: at the start and after
    [preCheck]. *)
Definition rollupContext : BlockContext :=
  {| CanTransfer := CanTransfer Fixture.context;
     L1CostFunc := Some (fun blockNumber msg => Some 11);
     Coinbase := 9;
     BlockNumber := 100;
     Time := 1000;
     BaseFee := None;
     Random := None;
     ExcessDataGas := Some 0 |}.

Definition rollupMachine : EVM :=
  {| Context := rollupContext;
     chainConfig := Fixture.config true;
     Config := {| NoBaseFee := false; Debug := false |};
     evmStateDB := Fixture.world;
     Call := Call (Fixture.machine true 0 0);
     Create := Create (Fixture.machine true 0 0) |}.

Definition rollupStart : StateTransition :=
  NewStateTransition rollupMachine (Fixture.transfer [7]) blobPool.

Definition rollupBought : StateTransition :=
  Fixture.stateOf (check rollupStart) rollupStart.

End Sample.

(** ** KZG commitments of blobs (package kzg) *)

Module bls.

(** Package [bls] of go-kzg, specified only by interface: the scalar field
    [Fr], the groups [G1] and [G2] with their operations, the linear
    combination of points and the pairing check. [ZeroFr] and [ZeroG1] are
    the zero values of the Go types; [RandomFr n] is the scalar that the
    call of [bls.RandomFr] returns after [n] earlier calls. *)
Record t := {
  Fr : Type;
  G1Point : Type;
  G2Point : Type;
  ZeroFr : Fr;
  ZeroG1 : G1Point;
  GenG1 : G1Point;
  GenG2 : G2Point;
  AddModFr : Fr -> Fr -> Fr;
  MulModFr : Fr -> Fr -> Fr;
  AddG1 : G1Point -> G1Point -> G1Point;
  SubG1 : G1Point -> G1Point -> G1Point;
  MulG1 : G1Point -> Fr -> G1Point;
  EqualG1 : G1Point -> G1Point -> bool;
  MulG2 : G2Point -> Fr -> G2Point;
  SubG2 : G2Point -> G2Point -> G2Point;
  LinCombG1 : list G1Point -> list Fr -> G1Point;
  PairingsVerify : G1Point -> G2Point -> G1Point -> G2Point -> bool;
  RandomFr : nat -> Fr
}.

End bls.

Module kzg.

(** An element of a slice or of an array: indexing out of range panics. *)
Definition index {A : Type} (l : list A) (i : nat) : outcome A :=
  match l !! i with
  | Some x => Return x
  | None => Panic "index out of range"
  end.

(** The built-in [copy(dst, src)]: the elements of [src] over the start of
    [dst], as many as both hold. *)
Definition copy {A : Type} (dst src : list A) : list A :=
  take (length dst) src ++ drop (length src) dst.

Section Kzg.

Variable B : bls.t.

(** [params.FieldElementsPerBlob], and the trusted setup that [init] loads:
    the KZG CRS for G2 and the KZG CRS for commitment computation. *)
Variable FieldElementsPerBlob : nat.
Variable kzgSetupG2 : list (bls.G2Point B).
Variable kzgSetupLagrange : list (bls.G1Point B).

(** [BlobToKzg] converts a polynomial in evaluation form to a KZG
    commitment. *)
Definition BlobToKzg (eval : list (bls.Fr B)) : bls.G1Point B :=
  bls.LinCombG1 B kzgSetupLagrange eval.

(** [VerifyKzgProof] verifies a KZG proof. *)
Definition VerifyKzgProof (commitment : bls.G1Point B) (x y : bls.Fr B)
    (proof : bls.G1Point B) : outcome bool :=
  (* Verify the pairing equation *)
  let xG2 := bls.MulG2 B (bls.GenG2 B) x in
  s ← index kzgSetupG2 1;
  let sMinuxX := bls.SubG2 B s xG2 in
  let yG1 := bls.MulG1 B (bls.GenG1 B) y in
  let commitmentMinusY := bls.SubG1 B commitment yG1 in
  Return (bls.PairingsVerify B commitmentMinusY (bls.GenG2 B) proof sMinuxX).

(** [BlobsBatch]; the mutex is held through each method and is left out.
    [aggregateBlob] is an array of [FieldElementsPerBlob] scalars. *)
Record BlobsBatch := {
  init : bool;
  aggregateCommitment : bls.G1Point B;
  aggregateBlob : list (bls.Fr B)
}.

(** The zero value of [BlobsBatch]. *)
Definition emptyBatch : BlobsBatch :=
  {| init := false;
     aggregateCommitment := bls.ZeroG1 B;
     aggregateBlob := replicate FieldElementsPerBlob (bls.ZeroFr B) |}.

(** The loop of [join] over the field elements, from index [i] for [n]
    iterations. *)
Fixpoint joinLoop (blob : list (bls.Fr B)) (randomScalar : bls.Fr B) (i n : nat)
    (aggregate : list (bls.Fr B)) : outcome (list (bls.Fr B)) :=
  match n with
  | O => Return aggregate
  | S n' =>
      b ← index blob i;
      let tmpFr := bls.MulModFr B b randomScalar in
      a ← index aggregate i;
      joinLoop blob randomScalar (S i) n' (<[i := bls.AddModFr B a tmpFr]> aggregate)
  end.

(** [join] multiplies the input with a random scalar and adds it to the
    aggregate. The state is the batch with the number of scalars drawn. *)
Definition join (commitment : bls.G1Point B) (blob : list (bls.Fr B))
    (s : BlobsBatch * nat) : outcome (BlobsBatch * nat) :=
  let '(batch, draws) := s in
  let randomScalar := bls.RandomFr B draws in
  let tmpG1 := bls.MulG1 B commitment randomScalar in
  let aggregateCommitment := bls.AddG1 B (aggregateCommitment batch) tmpG1 in
  blob' ← joinLoop blob randomScalar 0 FieldElementsPerBlob (aggregateBlob batch);
  Return ({| init := init batch;
             aggregateCommitment := aggregateCommitment;
             aggregateBlob := blob' |}, S draws).

(** The loop of [Join]: [join] on each commitment and the blob of the same
    index. *)
Fixpoint joinEach (commitments : list (bls.G1Point B)) (blobs : list (list (bls.Fr B)))
    (s : BlobsBatch * nat) : outcome (BlobsBatch * nat) :=
  match commitments with
  | [] => Return s
  | commit :: commitments' =>
      match blobs with
      | blob :: blobs' => s ← join commit blob s; joinEach commitments' blobs' s
      | [] => Panic "index out of range"
      end
  end.

Definition Join (commitments : list (bls.G1Point B)) (blobs : list (list (bls.Fr B)))
    (s : BlobsBatch * nat) : outcome (option string * (BlobsBatch * nat)) :=
  let '(batch, draws) := s in
  if negb (length commitments =? length blobs)%nat then
    Return (Some "expected commitments len %d to equal blobs len %d"%string, s)
  else
    match commitments, blobs with
    | commit :: commitments', blob :: blobs' =>
        if negb (init batch) then
          let batch :=
            {| init := true;
               aggregateCommitment := commit;
               aggregateBlob := copy (aggregateBlob batch) blob |} in
          s ← joinEach commitments' blobs' (batch, draws);
          Return (None, s)
        else
          s ← joinEach commitments blobs (batch, draws);
          Return (None, s)
    | _, _ =>
        s ← joinEach commitments blobs (batch, draws);
        Return (None, s)
    end.

Definition Verify (batch : BlobsBatch) : option string :=
  if negb (init batch) then None (* empty batch *)
  else
    (* Compute both MSMs and check equality *)
    let lResult := bls.LinCombG1 B kzgSetupLagrange (aggregateBlob batch) in
    if negb (bls.EqualG1 B lResult (aggregateCommitment batch)) then
      Some "BlobsBatch failed to Verify"%string
    else None.

(** The inner loop of [VerifyBlobs]: the sum over the blobs of the scalar
    times the field element [c] of the blob. *)
Fixpoint columnSum (rList : list (bls.Fr B)) (blobs : list (list (bls.Fr B))) (c i : nat)
    (n : nat) (sum : bls.Fr B) : outcome (bls.Fr B) :=
  match n with
  | O => Return sum
  | S n' =>
      r ← index rList i;
      blob ← index blobs i;
      b ← index blob c;
      let tmp := bls.MulModFr B r b in
      columnSum rList blobs c (S i) n' (bls.AddModFr B sum tmp)
  end.

(** The outer loop of [VerifyBlobs], which builds the left-side MSM: the
    scalars and the points, from index [c] for [n] iterations. *)
Fixpoint leftMSM (rList : list (bls.Fr B)) (blobs : list (list (bls.Fr B))) (c n : nat)
    (lPoints : list (bls.G1Point B)) (lScalars : list (bls.Fr B))
    : outcome (list (bls.G1Point B) * list (bls.Fr B)) :=
  match n with
  | O => Return (lPoints, lScalars)
  | S n' =>
      sum ← columnSum rList blobs c 0 (length blobs) (bls.ZeroFr B);
      p ← index kzgSetupLagrange c;
      leftMSM rList blobs (S c) n' (lPoints ++ [p]) (lScalars ++ [sum])
  end.

(** The loop that builds the right-side MSM. *)
Fixpoint rightMSM (rList : list (bls.Fr B)) (commitments : list (bls.G1Point B)) (i : nat)
    (rPoints : list (bls.G1Point B)) (rScalars : list (bls.Fr B))
    : outcome (list (bls.G1Point B) * list (bls.Fr B)) :=
  match commitments with
  | [] => Return (rPoints, rScalars)
  | commitment :: commitments' =>
      r ← index rList i;
      rightMSM rList commitments' (S i) (rPoints ++ [commitment]) (rScalars ++ [r])
  end.

(** [VerifyBlobs] verifies that the list of commitments maps to the list of
    blobs, with [draws] scalars drawn before. *)
Definition VerifyBlobs (commitments : list (bls.G1Point B)) (blobs : list (list (bls.Fr B)))
    (draws : nat) : outcome (option string * nat) :=
  (* Generate list of random scalars for lincomb *)
  let rList := map (fun i => bls.RandomFr B (draws + i)) (seq 0 (length blobs)) in
  let draws := (draws + length blobs)%nat in
  '(lPoints, lScalars) ← leftMSM rList blobs 0 FieldElementsPerBlob [] [];
  '(rPoints, rScalars) ← rightMSM rList commitments 0 [] [];
  (* Compute both MSMs and check equality *)
  let lResult := bls.LinCombG1 B lPoints lScalars in
  let rResult := bls.LinCombG1 B rPoints rScalars in
  if negb (bls.EqualG1 B lResult rResult) then
    Return (Some "VerifyBlobs failed"%string, draws)
  else Return (None, draws).

End Kzg.

(** The linear combination of points: the sum of the points times their
    scalars, from the neutral point [O]. *)
Fixpoint linComb (B : bls.t) (O : bls.G1Point B) (points : list (bls.G1Point B))
    (scalars : list (bls.Fr B)) : bls.G1Point B :=
  match points, scalars with
  | p :: points', s :: scalars' =>
      bls.AddG1 B (bls.MulG1 B p s) (linComb B O points' scalars')
  | _, _ => O
  end.

(** What the properties assume of package [bls]: [G1] is a commutative group
    under [AddG1] with neutral point [O], on which the scalars of [Fr] act
    through [MulG1]; the zero value of [Fr] is the zero scalar; [LinCombG1]
    is the linear combination of as many points as scalars; [EqualG1] holds
    of equal points. *)
Record laws (B : bls.t) (O : bls.G1Point B) : Prop := {
  AddG1_assoc : forall a b c,
    bls.AddG1 B a (bls.AddG1 B b c) = bls.AddG1 B (bls.AddG1 B a b) c;
  AddG1_comm : forall a b, bls.AddG1 B a b = bls.AddG1 B b a;
  AddG1_O : forall a, bls.AddG1 B O a = a;
  MulG1_add : forall p a b,
    bls.MulG1 B p (bls.AddModFr B a b) = bls.AddG1 B (bls.MulG1 B p a) (bls.MulG1 B p b);
  MulG1_mul : forall p a b,
    bls.MulG1 B p (bls.MulModFr B a b) = bls.MulG1 B (bls.MulG1 B p a) b;
  MulG1_sum : forall p q r,
    bls.MulG1 B (bls.AddG1 B p q) r = bls.AddG1 B (bls.MulG1 B p r) (bls.MulG1 B q r);
  MulG1_O : forall r, bls.MulG1 B O r = O;
  MulG1_zero : forall p, bls.MulG1 B p (bls.ZeroFr B) = O;
  MulModFr_comm : forall a b, bls.MulModFr B a b = bls.MulModFr B b a;
  LinCombG1_sum : forall points scalars,
    length points = length scalars ->
    bls.LinCombG1 B points scalars = linComb B O points scalars;
  EqualG1_refl : forall a, bls.EqualG1 B a a = true
}.

(** A batch is consistent with the setup when, once initialised, its
    aggregate blob has the size of a blob and commits to its aggregate
    commitment. *)
Definition consistent (B : bls.t) (FieldElementsPerBlob : nat)
    (kzgSetupLagrange : list (bls.G1Point B)) (batch : BlobsBatch B) : Prop :=
  length (aggregateBlob B batch) = FieldElementsPerBlob /\
  (init B batch = true ->
   BlobToKzg B kzgSetupLagrange (aggregateBlob B batch) = aggregateCommitment B batch).

(** The scalar the loop of [join] leaves at an index: the aggregate plus the
    field element of the blob times the random scalar. *)
Definition joined (B : bls.t) (r a b : bls.Fr B) : bls.Fr B :=
  bls.AddModFr B a (bls.MulModFr B b r).

(** The pairs of a blob of full size and its commitment. *)
Definition honest (B : bls.t) (FieldElementsPerBlob : nat)
    (kzgSetupLagrange : list (bls.G1Point B))
    (commitments : list (bls.G1Point B)) (blobs : list (list (bls.Fr B))) : Prop :=
  Forall2 (fun commit blob =>
             commit = BlobToKzg B kzgSetupLagrange blob /\
             length blob = FieldElementsPerBlob)
          commitments blobs.

(** The pairs that [Join] gives to [join], of the pairs it is given: all of
    them, but for the pair that initialises the batch. *)
Definition joins (B : bls.t) (batch : BlobsBatch B) (pairs : nat) : nat :=
  if init B batch then pairs else Nat.pred pairs.

(** The field elements of index [c] of the blobs, and the sum that the inner
    loop of [VerifyBlobs] makes of them with the scalars. *)
Definition column (B : bls.t) (c : nat) (blobs : list (list (bls.Fr B))) : list (bls.Fr B) :=
  map (fun blob => default (bls.ZeroFr B) (blob !! c)) blobs.

Fixpoint dot (B : bls.t) (rs xs : list (bls.Fr B)) (sum : bls.Fr B) : bls.Fr B :=
  match rs, xs with
  | r :: rs', x :: xs' => dot B rs' xs' (bls.AddModFr B sum (bls.MulModFr B r x))
  | _, _ => sum
  end.

(** The integers as scalars and as points, with 0 as zero values. *)
Definition integers : bls.t := {|
  bls.Fr := Z;
  bls.G1Point := Z;
  bls.G2Point := Z;
  bls.ZeroFr := 0;
  bls.ZeroG1 := 0;
  bls.GenG1 := 1;
  bls.GenG2 := 1;
  bls.AddModFr := Z.add;
  bls.MulModFr := Z.mul;
  bls.AddG1 := Z.add;
  bls.SubG1 := Z.sub;
  bls.MulG1 := Z.mul;
  bls.EqualG1 := Z.eqb;
  bls.MulG2 := Z.mul;
  bls.SubG2 := Z.sub;
  bls.LinCombG1 := fun points scalars => fold_right Z.add 0 (zip_with Z.mul points scalars);
  bls.PairingsVerify := fun a b c d => (a * b =? c * d);
  bls.RandomFr := fun n => Z.of_nat n + 2
|}.

End kzg.

(** Two blobs of two field elements with their commitments, over the
    integers, and a third commitment without a blob. *)
Module KzgSample.

Definition setup : list Z := [3; 5].
Definition blobs : list (list Z) := [[1; 2]; [4; 1]].
Definition commitments : list Z := [13; 17].
Definition shortBlobs : list (list Z) := [[1]; [4; 1]].
Definition shortTail : list (list Z) := [[1; 2]; [4]].
Definition batch : kzg.BlobsBatch kzg.integers := kzg.emptyBatch kzg.integers 2.

End KzgSample.

(** * Properties *)

(** ** Properties of the deposit transaction *)

(** C9. Whatever the deposit transaction and the arguments, neither
    [rawSignatureValues] nor [setSignatureValues] returns a value: both
    panic with the message that a deposit has no signature. *)
Theorem deposit_signature_accessors_panic :
  forall (tx : DepositTx.t) (chainID v r s : option Z),
    DepositTx.rawSignatureValues tx = Panic "deposit tx does not have a signature" /\
    DepositTx.setSignatureValues tx chainID v r s
      = Panic "deposit tx does not have a signature" /\
    (forall vrs, DepositTx.rawSignatureValues tx <> Return vrs) /\
    (forall u, DepositTx.setSignatureValues tx chainID v r s <> Return u).
Proof.
  intros tx chainID v r s.
  repeat split; unfold DepositTx.rawSignatureValues, DepositTx.setSignatureValues;
    intros; discriminate.
Qed.

(** ** Properties of the intrinsic gas *)

Lemma StorageKeys_addresses (n : nat) :
  types.AccessList_StorageKeys (Fixture.addresses n) = 0.
Proof.
  unfold types.AccessList_StorageKeys, Fixture.addresses.
  generalize 0. induction n as [|n IH]; intros acc; simpl.
  - reflexivity.
  - rewrite Z.add_0_r. apply IH.
Qed.

Lemma length_addresses (n : nat) : length (Fixture.addresses n) = n.
Proof. apply repeat_length. Qed.

(** With an empty payload and [S m] addresses without keys, the two
    access-list additions are made on [uint64] without any check. *)
Lemma IntrinsicGas_addresses (p : ProtocolParams) (m : nat) :
  IntrinsicGas p [] (Fixture.addresses (S m)) false false false false =
    (U64.add (U64.add (TxGas p)
                (U64.mul (U64.wrap (Z.of_nat (S m))) (TxAccessListAddressGas p)))
       (U64.mul (U64.wrap 0) (TxAccessListStorageKeyGas p)), None).
Proof.
  unfold IntrinsicGas.
  rewrite StorageKeys_addresses, length_addresses.
  reflexivity.
Qed.

Lemma addresses_count (n : Z) :
  0 < n -> exists m, Z.to_nat n = S m /\ Z.of_nat (S m) = n.
Proof.
  intros Hn. exists (Z.to_nat (n - 1)). split; lia.
Qed.

(** The additions for the access list are made without a check, and it is
    the size of the memory that keeps them from wrapping
    ([IntrinsicGas_never_wraps] below). On lists alone, with the protocol
    constants, an empty payload and all flags off, an access list of
    7686143364045647 addresses, above [maxAlloc], costs
    21000 + 7686143364045647 * 2400 gas, which is above [2^64], and the
    function of the model gives 22184, the sum modulo [2^64]. *)
Lemma IntrinsicGas_access_list_wraps :
  IntrinsicGas protocol_params [] (Fixture.addresses (Z.to_nat 7686143364045647))
    false false false false = (22184, None).
Proof.
  destruct (addresses_count 7686143364045647) as [m [-> Hm]]; [lia|].
  rewrite IntrinsicGas_addresses, Hm.
  reflexivity.
Qed.

(** ** Properties of the collaborators *)

Lemma U64_wrap_id (z : Z) : U64.in_range z -> U64.wrap z = z.
Proof. unfold U64.in_range, U64.wrap. intros H. apply Z.mod_small. exact H. Qed.

Lemma U64_wrap_range (z : Z) : U64.in_range (U64.wrap z).
Proof.
  unfold U64.in_range, U64.wrap. apply Z.mod_pos_bound. reflexivity.
Qed.

Lemma GetBalance_setBalance (s : StateDB.t) (a b : Address) (x : Z) :
  StateDB.GetBalance (StateDB.setBalance a x s) b =
    if decide (b = a) then x else StateDB.GetBalance s b.
Proof.
  unfold StateDB.GetBalance, StateDB.setBalance; simpl.
  destruct (decide (b = a)) as [->|Hne].
  - now rewrite lookup_insert_eq.
  - rewrite lookup_insert_ne by congruence. reflexivity.
Qed.

Lemma GetBalance_AddBalance (s : StateDB.t) (a b : Address) (x : Z) :
  StateDB.GetBalance (StateDB.AddBalance a x s) b =
    StateDB.GetBalance s b + (if decide (b = a) then x else 0).
Proof.
  unfold StateDB.AddBalance. rewrite GetBalance_setBalance.
  destruct (decide (b = a)) as [->|Hne]; lia.
Qed.

Lemma GetBalance_SubBalance (s : StateDB.t) (a b : Address) (x : Z) :
  StateDB.GetBalance (StateDB.SubBalance a x s) b =
    StateDB.GetBalance s b - (if decide (b = a) then x else 0).
Proof.
  unfold StateDB.SubBalance. rewrite GetBalance_setBalance.
  destruct (decide (b = a)) as [->|Hne]; lia.
Qed.


Lemma GetBalance_SetNonce (s : StateDB.t) (a b : Address) (n : Z) :
  StateDB.GetBalance (StateDB.SetNonce a n s) b = StateDB.GetBalance s b.
Proof. reflexivity. Qed.

Lemma GetNonce_AddBalance (s : StateDB.t) (a b : Address) (x : Z) :
  StateDB.GetNonce (StateDB.AddBalance a x s) b = StateDB.GetNonce s b.
Proof. reflexivity. Qed.

Lemma SubGas_inv (amount : Z) (gp gp' : GasPool.t) (r : option error) :
  GasPool.SubGas amount gp = (r, gp') ->
  (r = Some ErrGasLimitReached /\ gp' = gp /\ GasPool.gas gp < amount) \/
  (r = None /\ amount <= GasPool.gas gp /\
   GasPool.gas gp' = GasPool.gas gp - amount /\ GasPool.dataGas gp' = GasPool.dataGas gp).
Proof.
  unfold GasPool.SubGas. destruct (Z.ltb_spec (GasPool.gas gp) amount); intros [= <- <-].
  - left. auto.
  - right. simpl. auto.
Qed.

Lemma SubDataGas_inv (amount : Z) (gp gp' : GasPool.t) (r : option error) :
  GasPool.SubDataGas amount gp = (r, gp') ->
  (r = Some ErrDataGasLimitReached /\ gp' = gp /\ GasPool.dataGas gp < amount) \/
  (r = None /\ amount <= GasPool.dataGas gp /\
   GasPool.gas gp' = GasPool.gas gp /\ GasPool.dataGas gp' = GasPool.dataGas gp - amount).
Proof.
  unfold GasPool.SubDataGas. destruct (Z.ltb_spec (GasPool.dataGas gp) amount); intros [= <- <-].
  - left. auto.
  - right. simpl. auto.
Qed.

(** *** The payload steps of [IntrinsicGas] *)

(** The number of non-zero bytes of a payload. *)
Lemma countNonZero_from (data : list byte) (acc : Z) :
  0 <= acc -> acc + Z.of_nat (length data) < U64.modulus ->
  fold_left (fun nz byt => if Byte.eqb byt x00 then nz else U64.add nz 1) data acc =
    acc + Z.of_nat (length (List.filter (fun byt => negb (Byte.eqb byt x00)) data)).
Proof.
  revert acc. induction data as [|b data IH]; intros acc Hacc Hlen; simpl in *.
  - lia.
  - destruct (Byte.eqb b x00); simpl.
    + rewrite IH by lia. reflexivity.
    + unfold U64.add. rewrite U64_wrap_id by (unfold U64.in_range; lia).
      rewrite IH by lia. lia.
Qed.

Lemma countNonZero_exact (data : list byte) :
  Z.of_nat (length data) < U64.modulus ->
  countNonZero data =
    Z.of_nat (length (List.filter (fun byt => negb (Byte.eqb byt x00)) data)).
Proof.
  intros H. unfold countNonZero. rewrite countNonZero_from by lia. lia.
Qed.

Lemma countNonZero_bounds (data : list byte) :
  Z.of_nat (length data) < U64.modulus ->
  0 <= countNonZero data <= Z.of_nat (length data).
Proof.
  intros H. rewrite countNonZero_exact by exact H.
  pose proof (List.filter_length_le (fun byt => negb (Byte.eqb byt x00)) data). lia.
Qed.

(** The guard of an addition: the quotient is below the factor exactly when
    the sum is above [math.MaxUint64]. *)
Lemma overflow_guard (gas cost n : Z) :
  0 < cost -> 0 <= gas <= U64.MaxUint64 -> 0 <= n ->
  (U64.div (U64.sub U64.MaxUint64 gas) cost <? n) = (U64.MaxUint64 <? gas + n * cost).
Proof.
  intros Hc Hg Hn. unfold U64.div, U64.sub.
  rewrite U64_wrap_id by (unfold U64.in_range, U64.MaxUint64 in *; lia).
  destruct (Z.ltb_spec ((U64.MaxUint64 - gas) / cost) n) as [H|H];
    destruct (Z.ltb_spec U64.MaxUint64 (gas + n * cost)) as [H'|H']; try reflexivity.
  - exfalso. assert (n <= (U64.MaxUint64 - gas) / cost); [|lia].
    apply Z.div_le_lower_bound; lia.
  - exfalso. assert ((U64.MaxUint64 - gas) / cost < n); [|lia].
    apply Z.div_lt_upper_bound; lia.
Qed.

Lemma guarded_add (gas cost n : Z) :
  0 <= gas -> 0 <= cost -> 0 <= n -> gas + n * cost <= U64.MaxUint64 ->
  U64.add gas (U64.mul n cost) = gas + n * cost.
Proof.
  intros Hg Hc Hn H. unfold U64.add, U64.mul, U64.MaxUint64 in *.
  assert (0 <= n * cost) by lia.
  rewrite (U64_wrap_id (n * cost)) by (unfold U64.in_range; lia).
  apply U64_wrap_id. unfold U64.in_range. lia.
Qed.

Lemma toWordSize_exact (size : Z) :
  U64.in_range size -> toWordSize size = (size + 31) / 32.
Proof.
  unfold toWordSize, U64.in_range, U64.MaxUint64, U64.div, U64.add, U64.modulus.
  intros H. destruct (Z.ltb_spec (2 ^ 64 - 1 - 31) size).
  - change (2 ^ 64) with 18446744073709551616 in *.
    Z.div_mod_to_equations. lia.
  - rewrite U64_wrap_id by (unfold U64.in_range, U64.modulus; lia). reflexivity.
Qed.

Ltac case_leb Hfit Hover :=
  match goal with
  | |- context [?a <=? ?b] => destruct (Z.leb_spec a b) as [Hfit|Hover]
  end.

(** Without an access list every addition of [IntrinsicGas] is guarded: the
    result is the sum when it fits in a [uint64], and the overflow error
    when it does not. *)
Lemma IntrinsicGas_payload_guarded (p : ProtocolParams) (data : list byte)
    (creation homestead eip2028 eip3860 : bool) :
  params_ok p -> Z.of_nat (length data) < U64.modulus ->
  IntrinsicGas p data [] creation homestead eip2028 eip3860 =
    if payloadGas p data creation homestead eip2028 eip3860 <=? U64.MaxUint64
    then (payloadGas p data creation homestead eip2028 eip3860, None)
    else (0, Some ErrGasUintOverflow).
Proof.
  intros Hp Hlen. unfold IntrinsicGas, payloadGas.
  pose proof (countNonZero_bounds data Hlen) as Hnz.
  rewrite <- (countNonZero_exact data Hlen).
  set (nz := countNonZero data) in *.
  set (len := Z.of_nat (length data)) in *.
  set (base := if creation && homestead then TxGasContractCreation p else TxGas p).
  set (nzGas := if eip2028 then TxDataNonZeroGasEIP2028 p else TxDataNonZeroGasFrontier p).
  assert (Hbase : 0 < base < U64.modulus).
  { subst base. destruct (creation && homestead);
      [apply (TxGasContractCreation_ok p Hp)|apply (TxGas_ok p Hp)]. }
  assert (HnzGas : 0 < nzGas < U64.modulus).
  { subst nzGas. destruct eip2028;
      [apply (TxDataNonZeroGasEIP2028_ok p Hp)|apply (TxDataNonZeroGasFrontier_ok p Hp)]. }
  pose proof (TxDataZeroGas_ok p Hp) as Hz.
  pose proof (InitCodeWordGas_ok p Hp) as Hw.
  assert (Hlen0 : 0 <= len) by (subst len; lia).
  rewrite (U64_wrap_id len) by (unfold U64.in_range; lia).
  assert (Hwords : 0 <= (len + 31) / 32) by (apply Z.div_pos; lia).
  assert (Hmax : U64.MaxUint64 = U64.modulus - 1) by reflexivity.
  destruct (Z.ltb_spec 0 len) as [Hpos|Hzero].
  2:{ assert (len = 0) by lia. assert (nz = 0) by lia.
      replace ((len + 31) / 32) with 0 by (subst len; replace (Z.of_nat (length data)) with 0 by lia; reflexivity).
      destruct (Z.leb_spec (base + nz * nzGas + (len - nz) * TxDataZeroGas p +
                            (if creation && eip3860 then 0 * InitCodeWordGas p else 0))
                           U64.MaxUint64) as [Hfit|Hover].
      - f_equal. destruct (creation && eip3860); nia.
      - exfalso. destruct (creation && eip3860); nia. }
  rewrite overflow_guard by lia.
  destruct (Z.ltb_spec U64.MaxUint64 (base + nz * nzGas)) as [Ho1|Hf1].
  { case_leb Hfit Hover; [|reflexivity].
    exfalso. destruct (creation && eip3860); nia. }
  rewrite guarded_add by lia.
  assert (Hsub : U64.sub len nz = len - nz).
  { apply U64_wrap_id. unfold U64.in_range. lia. }
  rewrite Hsub, overflow_guard by lia.
  destruct (Z.ltb_spec U64.MaxUint64 (base + nz * nzGas + (len - nz) * TxDataZeroGas p))
    as [Ho2|Hf2].
  { case_leb Hfit Hover; [|reflexivity].
    exfalso. destruct (creation && eip3860); nia. }
  rewrite guarded_add by nia.
  destruct (creation && eip3860).
  - rewrite toWordSize_exact by (unfold U64.in_range; lia).
    rewrite overflow_guard by nia.
    destruct (Z.ltb_spec U64.MaxUint64
                (base + nz * nzGas + (len - nz) * TxDataZeroGas p +
                 (len + 31) / 32 * InitCodeWordGas p)) as [Ho3|Hf3].
    + case_leb Hfit Hover; [lia|reflexivity].
    + rewrite guarded_add by nia.
      case_leb Hfit Hover; [reflexivity|lia].
  - case_leb Hfit Hover; [f_equal; lia|lia].
Qed.

(** Appending a byte does not lower the unbounded sum. *)
Lemma payloadGas_app (p : ProtocolParams) (data : list byte) (b : byte)
    (creation homestead eip2028 eip3860 : bool) :
  params_ok p ->
  payloadGas p data creation homestead eip2028 eip3860 <=
  payloadGas p (data ++ [b]) creation homestead eip2028 eip3860.
Proof.
  intros Hp. unfold payloadGas.
  rewrite List.filter_app, !List.length_app. simpl.
  pose proof (TxDataZeroGas_ok p Hp) as Hz.
  pose proof (InitCodeWordGas_ok p Hp) as Hw.
  pose proof (TxDataNonZeroGasEIP2028_ok p Hp).
  pose proof (TxDataNonZeroGasFrontier_ok p Hp).
  set (len := Z.of_nat (length data)).
  set (nz := Z.of_nat (length (List.filter (fun byt => negb (Byte.eqb byt x00)) data))).
  set (nzGas := if eip2028 then TxDataNonZeroGasEIP2028 p else TxDataNonZeroGasFrontier p).
  assert (0 < nzGas) by (subst nzGas; destruct eip2028; lia).
  assert (Hwords : (len + 31) / 32 <= (len + 1 + 31) / 32).
  { apply Z.div_le_mono; lia. }
  assert (Hw' : (len + 31) / 32 * InitCodeWordGas p <=
                (len + 1 + 31) / 32 * InitCodeWordGas p) by nia.
  replace (Z.of_nat (length data + 1)) with (len + 1) by (subst len; lia).
  destruct (Byte.eqb b x00); simpl.
  - replace (Z.of_nat (length (List.filter (fun byt => negb (Byte.eqb byt x00)) data) + 0))
      with nz by (subst nz; lia).
    destruct (creation && eip3860); lia.
  - replace (Z.of_nat (length (List.filter (fun byt => negb (Byte.eqb byt x00)) data) + 1))
      with (nz + 1) by (subst nz; lia).
    destruct (creation && eip3860); nia.
Qed.

(** Without an access list, [IntrinsicGas] is monotonic in the payload:
    when it returns a value before and after a byte is appended, the second
    value is not below the first. *)
Lemma IntrinsicGas_payload_monotone (p : ProtocolParams) (data : list byte) (b : byte)
    (creation homestead eip2028 eip3860 : bool) (g g' : Z) :
  params_ok p -> Z.of_nat (length (data ++ [b])) < U64.modulus ->
  IntrinsicGas p data [] creation homestead eip2028 eip3860 = (g, None) ->
  IntrinsicGas p (data ++ [b]) [] creation homestead eip2028 eip3860 = (g', None) ->
  g <= g'.
Proof.
  intros Hp Hlen. rewrite length_app in Hlen. simpl in Hlen.
  rewrite !IntrinsicGas_payload_guarded; try exact Hp; try (rewrite ?length_app; simpl; lia).
  pose proof (payloadGas_app p data b creation homestead eip2028 eip3860 Hp).
  repeat match goal with
         | |- context [?a <=? ?b] => destruct (Z.leb_spec a b)
         end; intros [= <-] [= <-]; lia.
Qed.

(** ** Properties of the state transition *)

Section Properties.

Variable params : ProtocolParams.
Variable GetDataGasPrice : Z -> Z.
Variable emptyCodeHash : Hash.
Variable ActivePrecompiles : Rules.t -> list Address.
Variable Prepare :
  Rules.t -> Address -> Address -> option Address -> list Address ->
  types.AccessList -> StateDB.t -> StateDB.t.

Local Abbreviation buyGas := (buyGas params GetDataGasPrice).
Local Abbreviation dataGasUsed := (dataGasUsed params).
Local Abbreviation dataCostOf := (dataCostOf params GetDataGasPrice).
Local Abbreviation preCheck := (preCheck params GetDataGasPrice emptyCodeHash).
Local Abbreviation innerTransitionDb :=
  (innerTransitionDb params GetDataGasPrice emptyCodeHash ActivePrecompiles Prepare).
Local Abbreviation TransitionDb :=
  (TransitionDb params GetDataGasPrice emptyCodeHash ActivePrecompiles Prepare).
Local Abbreviation ApplyMessage :=
  (ApplyMessage params GetDataGasPrice emptyCodeHash ActivePrecompiles Prepare).

Implicit Type st : StateTransition.

(** *** Gas purchase *)

(** What [buyGas] does, by the way it returns. A failure before the pool
    accounting, or of [SubGas], changes nothing; a failure of [SubDataGas]
    leaves the gas limit subtracted from the gas pool and added to the
    remaining gas; a success has made both subtractions and the debit. *)
Lemma buyGas_inv st (r : option error) st' :
  buyGas st = (r, st') ->
  msg st' = msg st /\ evm st' = evm st /\
  match r with
  | Some err =>
      state st' = state st /\
      GasPool.dataGas (gp st') = GasPool.dataGas (gp st) /\
      ((gp st' = gp st /\ gasRemaining st' = gasRemaining st) \/
       (err = ErrDataGasLimitReached /\
        Gas (msg st) <= GasPool.gas (gp st) /\
        GasPool.gas (gp st') = GasPool.gas (gp st) - Gas (msg st) /\
        gasRemaining st' = U64.add (gasRemaining st) (Gas (msg st))))
  | None =>
      Gas (msg st) <= GasPool.gas (gp st) /\
      GasPool.gas (gp st') = GasPool.gas (gp st) - Gas (msg st) /\
      GasPool.dataGas (gp st') =
        GasPool.dataGas (gp st) -
        (if ChainConfig.IsSharding (chainConfig (evm st)) (Time (Context (evm st)))
         then dataGasUsed st else 0) /\
      gasRemaining st' = U64.add (gasRemaining st) (Gas (msg st)) /\
      state st' =
        StateDB.SubBalance (From (msg st))
          (Gas (msg st) * GasPrice (msg st) + dataCostOf st + default 0 (l1CostOf st))
          (state st)
  end.
Proof.
  unfold core.buyGas, core.dataCostOf. intros H.
  destruct (ChainConfig.IsSharding _ _); [destruct (ExcessDataGas _)|].
  all: repeat match type of H with
       | context [if ?c then _ else _] => destruct c eqn:?
       | context [GasPool.SubGas ?a ?g] =>
           let E := fresh "E" in
           destruct (GasPool.SubGas a g) as [[?|] ?] eqn:E;
           apply SubGas_inv in E; destruct E as [(?&?&?)|(?&?&?&?)]; try discriminate
       | context [GasPool.SubDataGas ?a ?g] =>
           let E := fresh "E" in
           destruct (GasPool.SubDataGas a g) as [[?|] ?] eqn:E;
           apply SubDataGas_inv in E; destruct E as [(?&?&?)|(?&?&?&?)]; try discriminate
       end.
  all: simplify_eq/=.
  all: repeat split; try lia; auto.
  all: try (right; repeat split; auto; lia).
  all: try (destruct (l1CostOf st); simpl; f_equal; lia).
Qed.

(** The remaining gas and the gas pool of a successful purchase that starts
    with no gas left over. *)
Lemma preCheck_inv st (r : option error) st' :
  preCheck st = Return (r, st') ->
  if IsDepositTx (msg st) then
    msg st' = msg st /\ evm st' = evm st /\ state st' = state st /\
    gasRemaining st' = U64.add (gasRemaining st) (Gas (msg st)) /\
    GasPool.dataGas (gp st') = GasPool.dataGas (gp st) /\
    match r with
    | Some err => err = ErrGasLimitReached /\ IsSystemTx (msg st) = false /\ gp st' = gp st
    | None =>
        if IsSystemTx (msg st) then gp st' = gp st
        else Gas (msg st) <= GasPool.gas (gp st) /\
             GasPool.gas (gp st') = GasPool.gas (gp st) - Gas (msg st)
    end
  else
    (exists err, r = Some err /\ st' = st) \/ buyGas st = (r, st').
Proof.
  unfold core.preCheck. intros H.
  destruct (IsDepositTx (msg st)); simpl in H.
  - destruct (IsSystemTx (msg st)).
    + simplify_eq/=. auto 10.
    + destruct (GasPool.SubGas _ _) as [r1 gp1] eqn:E. simplify_eq/=.
      apply SubGas_inv in E. destruct E as [(?&?&?)|(?&?&?&?)]; subst; auto 10.
  - destruct (if negb (IsFake (msg st)) then _ else _).
    { simplify_eq/=. eauto. }
    destruct (checkFeeCaps st) as [[e|]|]; simpl in H; try discriminate.
    { simplify_eq/=. eauto. }
    destruct (checkDataGasPrice _ _ st) as [[e|]|]; simpl in H; try discriminate.
    { simplify_eq/=. eauto. }
    simplify_eq/=. auto.
Qed.

(** C1 (amended). When [buyGas] fails, the world state, and with it the
    sender's balance, is as it was, and so is the data-gas pool; the gas pool
    is as it was too, unless it is the data-gas subtraction that failed: the
    gas limit then stays subtracted from the gas pool. When [buyGas]
    succeeds, both subtractions have been made and the sender is debited. *)
Theorem buyGas_failure_effects st (r : option error) st' :
  buyGas st = (r, st') ->
  match r with
  | Some err =>
      state st' = state st /\
      StateDB.GetBalance (state st') (From (msg st)) =
        StateDB.GetBalance (state st) (From (msg st)) /\
      GasPool.dataGas (gp st') = GasPool.dataGas (gp st) /\
      (gp st' = gp st \/
       (err = ErrDataGasLimitReached /\
        GasPool.gas (gp st') = GasPool.gas (gp st) - Gas (msg st)))
  | None =>
      GasPool.gas (gp st') = GasPool.gas (gp st) - Gas (msg st) /\
      GasPool.dataGas (gp st') =
        GasPool.dataGas (gp st) -
        (if ChainConfig.IsSharding (chainConfig (evm st)) (Time (Context (evm st)))
         then dataGasUsed st else 0) /\
      StateDB.GetBalance (state st') (From (msg st)) =
        StateDB.GetBalance (state st) (From (msg st)) -
        (Gas (msg st) * GasPrice (msg st) + dataCostOf st + default 0 (l1CostOf st))
  end.
Proof.
  intros H. apply buyGas_inv in H as (_ & _ & H).
  destruct r as [err|].
  - destruct H as (Hs & Hd & Hg). rewrite Hs. repeat split; auto.
    destruct Hg as [[? _]|(? & _ & ? & _)]; auto.
  - destruct H as (_ & Hg & Hd & _ & Hs). rewrite Hs, GetBalance_SubBalance.
    rewrite decide_True by reflexivity. auto.
Qed.

(** C5. When [preCheck] succeeds on a message that is not a deposit, the
    sender's balance has gone down by exactly the gas limit times the gas
    price, plus, when sharding is active, the data-gas price of the block
    times the data gas used (the [uint64] product of the number of data
    hashes and the data gas per blob), plus the L1 cost when the context has
    a cost function and it returns one; no other balance has changed. *)
Theorem preCheck_debits_sender st st' :
  IsDepositTx (msg st) = false ->
  preCheck st = Return (None, st') ->
  let gasCost := Gas (msg st) * GasPrice (msg st) in
  let dataCost :=
    if ChainConfig.IsSharding (chainConfig (evm st)) (Time (Context (evm st))) then
      match ExcessDataGas (Context (evm st)) with
      | Some excess =>
          GetDataGasPrice excess *
          U64.mul (U64.wrap (Z.of_nat (length (DataHashes (msg st)))))
                  (DataGasPerBlob params)
      | None => 0
      end
    else 0 in
  let l1Cost :=
    match L1CostFunc (Context (evm st)) with
    | Some l1CostFunc =>
        default 0 (l1CostFunc (Uint64 (BlockNumber (Context (evm st)))) (msg st))
    | None => 0
    end in
  StateDB.GetBalance (state st') (From (msg st)) =
    StateDB.GetBalance (state st) (From (msg st)) - (gasCost + dataCost + l1Cost) /\
  (forall a, a <> From (msg st) ->
     StateDB.GetBalance (state st') a = StateDB.GetBalance (state st) a).
Proof.
  intros Hdep H. apply preCheck_inv in H. rewrite Hdep in H.
  destruct H as [(err & ? & _)|H]; [discriminate|].
  apply buyGas_inv in H as (_ & _ & _ & _ & _ & _ & Hs).
  cbv zeta. rewrite Hs. split; [|intros a Ha]; rewrite GetBalance_SubBalance.
  - rewrite decide_True by reflexivity.
    unfold core.dataCostOf, core.dataGasUsed, core.l1CostOf.
    destruct (L1CostFunc (Context (evm st))); reflexivity.
  - rewrite decide_False by exact Ha. lia.
Qed.

(** *** Refund settlement *)

Lemma gasUsed_exact st :
  U64.in_range (Gas (msg st)) -> 0 <= gasRemaining st <= Gas (msg st) ->
  gasUsed st = Gas (msg st) - gasRemaining st.
Proof.
  unfold gasUsed, U64.sub. intros HG Hr. apply U64_wrap_id.
  unfold U64.in_range in *. lia.
Qed.

Lemma refundGas_inv (q : Z) st :
  let refund := Z.min (U64.div (gasUsed st) q) (StateDB.GetRefund (state st)) in
  let st' := refundGas q st in
  msg st' = msg st /\ evm st' = evm st /\
  gasRemaining st' = U64.add (gasRemaining st) refund /\
  state st' =
    StateDB.AddBalance (From (msg st)) (gasRemaining st' * GasPrice (msg st)) (state st) /\
  gp st' = GasPool.AddGas (gasRemaining st') (gp st).
Proof.
  unfold refundGas; simpl.
  replace (if StateDB.GetRefund (state st) <? U64.div (gasUsed st) q
           then StateDB.GetRefund (state st) else U64.div (gasUsed st) q)
    with (Z.min (U64.div (gasUsed st) q) (StateDB.GetRefund (state st))).
  - repeat split.
  - destruct (Z.ltb_spec (StateDB.GetRefund (state st)) (U64.div (gasUsed st) q)); lia.
Qed.

Lemma refundSettlement_quotient (rules : Rules.t) st :
  refundSettlement rules st = refundGas (refundQuotientOf rules) st.
Proof.
  unfold refundSettlement, refundQuotientOf. now destruct (Rules.IsLondon rules).
Qed.

Lemma refund_no_wrap (used q counter left limit : Z) :
  (q = 2 \/ q = 5) -> 0 <= counter -> 0 <= left <= limit ->
  used = limit - left ->
  0 <= Z.min (used / q) counter <= used.
Proof.
  intros Hq Hc Hl ->.
  assert (0 <= (limit - left) / q <= limit - left).
  { split; [apply Z.div_pos; lia|]. apply Z.div_le_upper_bound; nia. }
  lia.
Qed.

(** The refund settlement without wrap-around: the remaining gas is at most
    the gas limit and the refund at most the used gas. *)
Lemma refundSettlement_exact (rules : Rules.t) st :
  U64.in_range (Gas (msg st)) ->
  0 <= gasRemaining st <= Gas (msg st) ->
  0 <= StateDB.GetRefund (state st) ->
  let refund :=
    Z.min (gasUsed st / refundQuotientOf rules) (StateDB.GetRefund (state st)) in
  let st' := refundSettlement rules st in
  gasRemaining st' = gasRemaining st + refund /\
  (forall a,
     StateDB.GetBalance (state st') a =
       StateDB.GetBalance (state st) a +
       (if decide (a = From (msg st)) then gasRemaining st' * GasPrice (msg st) else 0)) /\
  GasPool.gas (gp st') = GasPool.gas (gp st) + gasRemaining st' /\
  GasPool.dataGas (gp st') = GasPool.dataGas (gp st).
Proof.
  intros HG Hr Hc refund st'. subst st'. rewrite refundSettlement_quotient.
  destruct (refundGas_inv (refundQuotientOf rules) st) as (_ & _ & Hrem & Hs & Hgp).
  unfold U64.div in Hrem. fold refund in Hrem. rewrite Hs, Hgp, Hrem.
  assert (Hq : refundQuotientOf rules = 2 \/ refundQuotientOf rules = 5).
  { unfold refundQuotientOf. destruct (Rules.IsLondon rules); auto. }
  pose proof (refund_no_wrap _ _ _ _ _ Hq Hc Hr (gasUsed_exact st HG Hr)) as Hb.
  fold refund in Hb. rewrite (gasUsed_exact st HG Hr) in Hb.
  assert (Hadd : U64.add (gasRemaining st) refund = gasRemaining st + refund).
  { apply U64_wrap_id. unfold U64.in_range in *. lia. }
  rewrite Hadd. repeat split; auto.
  intros a. apply GetBalance_AddBalance.
Qed.

(** C7. At the refund settlement of a message, the refund added to the
    remaining gas is the smaller of the used gas divided by the refund
    quotient, 5 under London and 2 before it, and of the refund counter of
    the world state; the sender is credited with the remaining gas times the
    gas price of the message, and the remaining gas is added to the gas
    pool. *)
Theorem refundSettlement_spec (rules : Rules.t) st :
  U64.in_range (Gas (msg st)) ->
  0 <= gasRemaining st <= Gas (msg st) ->
  0 <= StateDB.GetRefund (state st) ->
  let refund :=
    Z.min (gasUsed st / refundQuotientOf rules) (StateDB.GetRefund (state st)) in
  let st' := refundSettlement rules st in
  gasRemaining st' = gasRemaining st + refund /\
  (forall a,
     StateDB.GetBalance (state st') a =
       StateDB.GetBalance (state st) a +
       (if decide (a = From (msg st)) then gasRemaining st' * GasPrice (msg st) else 0)) /\
  GasPool.gas (gp st') = GasPool.gas (gp st) + gasRemaining st' /\
  GasPool.dataGas (gp st') = GasPool.dataGas (gp st).
Proof. exact (refundSettlement_exact rules st). Qed.

(** *** The inner pipeline *)

Lemma preCheck_frame st (r : option error) st' :
  preCheck st = Return (r, st') -> msg st' = msg st /\ evm st' = evm st.
Proof.
  intros H. apply preCheck_inv in H. destruct (IsDepositTx (msg st)).
  - destruct H as (? & ? & _). auto.
  - destruct H as [(err & _ & ->)|H]; [auto|].
    apply buyGas_inv in H as (? & ? & _). auto.
Qed.

Lemma execute_inv (contractCreation : bool) st (ret : list byte) (vmerr : option error) st' :
  execute contractCreation st = (ret, vmerr, st') ->
  msg st' = msg st /\ evm st' = evm st /\ gp st' = gp st /\
  (vm_ok (evm st) -> U64.in_range (gasRemaining st) ->
   0 <= gasRemaining st' <= gasRemaining st /\
   U64.in_range (StateDB.GetRefund (state st'))).
Proof.
  unfold execute. intros H. destruct contractCreation.
  - destruct (Create _ _ _ _ _ _) as [[[[ret1 addr] gasLeft] vmerr1] s] eqn:E.
    simplify_eq/=. do 3 (split; [reflexivity|]).
    intros Hvm Hr. eapply (Create_gas _ Hvm) in E; [apply E|exact Hr].
  - destruct (Call _ _ _ _ _ _ _) as [[[ret1 gasLeft] vmerr1] s] eqn:E.
    simplify_eq/=. do 3 (split; [reflexivity|]).
    intros Hvm Hr. eapply (Call_gas _ Hvm) in E; [apply E|exact Hr].
Qed.

Lemma feeSettlement_inv (rules : Rules.t) (ret : list byte) (vmerr : option error) st r st' :
  feeSettlement params rules ret vmerr st = Return (r, st') ->
  msg st' = msg st /\ evm st' = evm st /\ gp st' = gp st /\
  gasRemaining st' = gasRemaining st /\
  r = (Some {| UsedGas := gasUsed st; Err := vmerr; ReturnData := ret |}, None).
Proof.
  unfold feeSettlement. intros H.
  repeat (simpl in H;
          match type of H with
          | context [deref ?x] => destruct x; simpl in H
          | context [if ?c then _ else _] => destruct c
          | context [match ?x with Some _ => _ | None => _ end] => destruct x
          | Panic _ = Return _ => discriminate
          end).
  all: simplify_eq/=; auto.
Qed.

Lemma IntrinsicGas_nonneg (p : ProtocolParams) (data : list byte) (al : types.AccessList)
    (creation homestead eip2028 eip3860 : bool) (g : Z) :
  params_ok p ->
  IntrinsicGas p data al creation homestead eip2028 eip3860 = (g, None) ->
  0 <= g.
Proof.
  intros Hp. unfold IntrinsicGas, U64.add.
  pose proof (TxGas_ok p Hp). pose proof (TxGasContractCreation_ok p Hp).
  repeat match goal with
         | |- context [if ?c then _ else _] => destruct c
         | |- context [match ?l with [] => _ | _ :: _ => _ end] => destruct l
         end.
  all: intros [= <-]; try lia; apply U64_wrap_range.
Qed.

Lemma innerTransitionDb_frame st r st' :
  innerTransitionDb st = Return (r, st') -> msg st' = msg st /\ evm st' = evm st.
Proof.
  unfold core.innerTransitionDb. intros H.
  destruct (preCheck st) as [[r1 st1]|] eqn:E; simpl in H; [|discriminate].
  apply preCheck_frame in E as [Hm He]. rewrite <- Hm, <- He.
  destruct r1; [simplify_eq/=; auto|].
  destruct (IntrinsicGas _ _ _ _ _ _ _) as [g [e|]]; [simplify_eq/=; auto|].
  repeat match type of H with
         | (if ?c then _ else _) = _ => destruct c; [simplify_eq/=; auto|]
         end.
  destruct (execute _ _) as [[ret vmerr] st2] eqn:Ex.
  apply execute_inv in Ex as (Hm2 & He2 & _). simpl in Hm2, He2.
  destruct (IsDepositTx (msg st1)); [simplify_eq/=; auto|].
  apply feeSettlement_inv in H as (Hm3 & He3 & _).
  rewrite refundSettlement_quotient in Hm3, He3.
  destruct (refundGas_inv (refundQuotientOf
    (ChainConfig.Rules (chainConfig (evm st1)) (BlockNumber (Context (evm st1)))
       (bool_decide (Random (Context (evm st1)) ≠ None)) (Time (Context (evm st1))))) st2)
    as (Hm4 & He4 & _).
  split; congruence.
Qed.

(** A deposit that fails in the inner pipeline has failed before the world
    state was touched. *)
Lemma innerTransitionDb_deposit_failure st r (e : error) st' :
  IsDepositTx (msg st) = true ->
  innerTransitionDb st = Return ((r, Some e), st') ->
  state st' = state st.
Proof.
  unfold core.innerTransitionDb. intros Hdep H.
  destruct (preCheck st) as [[r1 st1]|] eqn:E; simpl in H; [|discriminate].
  pose proof (preCheck_frame _ _ _ E) as [Hm He].
  apply preCheck_inv in E. rewrite Hdep in E. destruct E as (_ & _ & Hs & _).
  rewrite <- Hs.
  destruct r1; [simplify_eq/=; auto|].
  destruct (IntrinsicGas _ _ _ _ _ _ _) as [g [e1|]]; [simplify_eq/=; auto|].
  repeat match type of H with
         | (if ?c then _ else _) = _ => destruct c; [simplify_eq/=; auto|]
         end.
  destruct (execute _ _) as [[ret vmerr] st2] eqn:Ex.
  rewrite Hm, Hdep in H. discriminate.
Qed.

(** *** The deposit path of [TransitionDb] *)

Lemma minted_frame st :
  msg (minted st) = msg st /\ evm (minted st) = evm st /\
  gp (minted st) = gp st /\ gasRemaining (minted st) = gasRemaining st.
Proof. unfold minted. destruct (Mint (msg st)); auto. Qed.

Lemma minted_balance st (m : Z) (a : Address) :
  Mint (msg st) = Some m ->
  StateDB.GetBalance (state (minted st)) a =
    StateDB.GetBalance (state st) a + (if decide (a = From (msg st)) then m else 0).
Proof.
  unfold minted. intros ->. simpl. apply GetBalance_AddBalance.
Qed.


(** [TransitionDb] on the result of the inner pipeline. *)
Lemma TransitionDb_unfold st r (err : option error) st1 :
  innerTransitionDb (minted st) = Return ((r, err), st1) ->
  TransitionDb st =
    match err with
    | Some e =>
        if negb (bool_decide (e = ErrGasLimitReached)) && IsDepositTx (msg st) then
          Return
            ((Some {| UsedGas := if IsSystemTx (msg st) then 0 else Gas (msg st);
                      Err := Some (Errorf "failed deposit: %w" e);
                      ReturnData := [] |}, None),
             withState
               (StateDB.SetNonce (From (msg st))
                  (U64.add (StateDB.GetNonce (state (minted st)) (From (msg st))) 1)
                  (state (minted st))) st1)
        else Return ((r, err), st1)
    | None => Return ((r, err), st1)
    end.
Proof.
  intros H. unfold core.TransitionDb. rewrite H. simpl.
  apply innerTransitionDb_frame in H as [Hm _].
  destruct (minted_frame st) as (Hm' & _). rewrite Hm' in Hm.
  unfold depositGasUsed, StateDB.RevertToSnapshot, StateDB.Snapshot. simpl.
  rewrite Hm. reflexivity.
Qed.



(** C6. With an amount to mint, the sender is credited before the snapshot
    is taken ([minted_balance]); when the deposit then fails in the inner
    pipeline, whatever the error, the world state [TransitionDb] leaves has
    every balance as it was, but for the mint credited to the sender. *)
Theorem mint_survives_failed_deposit st (m : Z) r (e : error) st1 :
  Mint (msg st) = Some m ->
  IsDepositTx (msg st) = true ->
  innerTransitionDb (minted st) = Return ((r, Some e), st1) ->
  StateDB.GetBalance (StateDB.Snapshot (state (minted st))) (From (msg st)) =
    StateDB.GetBalance (state st) (From (msg st)) + m /\
  exists res st2,
    TransitionDb st = Return (res, st2) /\
    forall a,
      StateDB.GetBalance (state st2) a =
        StateDB.GetBalance (state st) a + (if decide (a = From (msg st)) then m else 0).
Proof.
  intros Hmint Hdep H. split.
  { unfold StateDB.Snapshot. rewrite (minted_balance _ _ _ Hmint).
    rewrite decide_True by reflexivity. reflexivity. }
  rewrite (TransitionDb_unfold _ _ _ _ H), Hdep, andb_true_r.
  destruct (minted_frame st) as (Hm & _).
  assert (Hdep' : IsDepositTx (msg (minted st)) = true) by (rewrite Hm; exact Hdep).
  destruct (bool_decide (e = ErrGasLimitReached)); simpl.
  - do 2 eexists. split; [reflexivity|]. intros a.
    rewrite (innerTransitionDb_deposit_failure _ _ _ _ Hdep' H).
    apply minted_balance. exact Hmint.
  - do 2 eexists. split; [reflexivity|]. intros a. simpl.
    rewrite GetBalance_SetNonce. apply minted_balance. exact Hmint.
Qed.

(** *** Gas accounting of a whole transition *)

(** The gas of a message that is not a deposit and goes through the inner
    pipeline without a consensus error: [gasLeft] is what the virtual machine
    returns and [counter] the refund counter it leaves. *)
Lemma innerTransitionDb_gas st r st' :
  params_ok params -> msg_ok (msg st) -> vm_ok (evm st) ->
  gasRemaining st = 0 ->
  IsDepositTx (msg st) = false ->
  innerTransitionDb st = Return ((r, None), st') ->
  exists res intrinsic gasLeft counter,
    r = Some res /\
    intrinsicGasOf params (evm st) (msg st) = (intrinsic, None) /\
    0 <= intrinsic /\ 0 <= gasLeft /\ gasLeft + intrinsic <= Gas (msg st) /\
    0 <= counter /\
    UsedGas res =
      Gas (msg st) - gasLeft -
      Z.min ((Gas (msg st) - gasLeft) / refundQuotientOf (rulesOf (evm st))) counter /\
    GasPool.gas (gp st') = GasPool.gas (gp st) - UsedGas res.
Proof.
  intros Hp [HG _] Hvm H0 Hdep H. unfold core.innerTransitionDb in H.
  destruct (preCheck st) as [[r1 st1]|] eqn:E; simpl in H; [|discriminate].
  apply preCheck_inv in E. rewrite Hdep in E.
  destruct E as [(err & -> & ->)|E]; [discriminate|].
  apply buyGas_inv in E as (Hm & He & E).
  destruct r1 as [err|]; [discriminate|].
  destruct E as (_ & Hpool & _ & Hrem & _).
  rewrite Hm, He in H. fold (rulesOf (evm st)) in H.
  fold (intrinsicGasOf params (evm st) (msg st)) in H.
  destruct (intrinsicGasOf params (evm st) (msg st)) as [g [e|]] eqn:Hg; [discriminate|].
  pose proof (IntrinsicGas_nonneg _ _ _ _ _ _ _ _ Hp Hg) as Hg0.
  assert (Hrem1 : gasRemaining st1 = Gas (msg st)).
  { rewrite Hrem, H0. unfold U64.add. apply U64_wrap_id. exact HG. }
  rewrite Hrem1 in H.
  destruct (Z.ltb_spec (Gas (msg st)) g) as [|Hle]; [discriminate|].
  repeat match type of H with
         | (if ?c then _ else _) = _ => destruct c; [discriminate|]
         end.
  destruct (execute _ _) as [[ret vmerr] st2] eqn:Ex.
  apply execute_inv in Ex as (Hm2 & He2 & Hgp2 & Hgas). simpl in Hm2, He2, Hgp2, Hgas.
  assert (Hsub : U64.sub (Gas (msg st)) g = Gas (msg st) - g).
  { apply U64_wrap_id. unfold U64.in_range in *. lia. }
  rewrite Hsub in Hgas.
  destruct Hgas as [Hleft Hcounter].
  { rewrite He. exact Hvm. }
  { unfold U64.in_range in *. lia. }
  rewrite Hdep in H.
  apply feeSettlement_inv in H as (_ & _ & Hgp3 & Hrem3 & Hres).
  injection Hres as ->.
  rewrite Hm in Hm2.
  assert (HG2 : U64.in_range (Gas (msg st2))) by (rewrite Hm2; exact HG).
  assert (Hr2 : 0 <= gasRemaining st2 <= Gas (msg st2)) by (rewrite Hm2; lia).
  destruct (refundSettlement_exact (rulesOf (evm st)) st2 HG2 Hr2 (proj1 Hcounter))
    as (Hrem4 & _ & Hgp4 & _).
  rewrite (gasUsed_exact st2 HG2 Hr2), Hm2 in Hrem4.
  pose proof (refund_no_wrap (Gas (msg st) - gasRemaining st2)
                (refundQuotientOf (rulesOf (evm st))) (StateDB.GetRefund (state st2))
                (gasRemaining st2) (Gas (msg st))) as Hb.
  destruct Hb as [Hb1 Hb2]; [|exact (proj1 Hcounter)|lia|reflexivity|].
  { unfold refundQuotientOf. destruct (Rules.IsLondon _); auto. }
  destruct (refundGas_inv (refundQuotientOf (rulesOf (evm st))) st2) as (Hm5 & _).
  rewrite <- refundSettlement_quotient in Hm5.
  exists {| UsedGas := gasUsed (refundSettlement (rulesOf (evm st)) st2);
            Err := vmerr; ReturnData := ret |}, g, (gasRemaining st2),
         (StateDB.GetRefund (state st2)).
  assert (Hused : gasUsed (refundSettlement (rulesOf (evm st)) st2) =
                  Gas (msg st) - gasRemaining st2 -
                  Z.min ((Gas (msg st) - gasRemaining st2) /
                         refundQuotientOf (rulesOf (evm st)))
                        (StateDB.GetRefund (state st2))).
  { rewrite gasUsed_exact; rewrite Hm5, Hm2; [|exact HG|]; rewrite Hrem4; lia. }
  simpl. rewrite Hused, Hgp3, Hgp4, Hgp2, Hpool, Hrem4.
  repeat split; auto; try lia.
Qed.

Lemma TransitionDb_nondeposit st :
  IsDepositTx (msg st) = false ->
  TransitionDb st = innerTransitionDb (minted st).
Proof.
  intros Hdep.
  destruct (innerTransitionDb (minted st)) as [[[r err] st1]|reason] eqn:H.
  - rewrite (TransitionDb_unfold _ _ _ _ H), Hdep.
    destruct err; [rewrite andb_false_r|]; reflexivity.
  - unfold core.TransitionDb. rewrite H. reflexivity.
Qed.

Lemma ApplyMessage_gas (evm : EVM) (msg : Message) (gp0 : GasPool.t) r st' :
  params_ok params -> msg_ok msg -> vm_ok evm ->
  IsDepositTx msg = false ->
  ApplyMessage evm msg gp0 = Return ((r, None), st') ->
  exists res intrinsic gasLeft counter,
    r = Some res /\
    intrinsicGasOf params evm msg = (intrinsic, None) /\
    0 <= intrinsic /\ 0 <= gasLeft /\ gasLeft + intrinsic <= Gas msg /\
    0 <= counter /\
    UsedGas res =
      Gas msg - gasLeft -
      Z.min ((Gas msg - gasLeft) / refundQuotientOf (rulesOf evm)) counter /\
    GasPool.gas (gp st') = GasPool.gas gp0 - UsedGas res.
Proof.
  intros Hp Hmsg Hvm Hdep H. unfold core.ApplyMessage in H.
  rewrite TransitionDb_nondeposit in H by exact Hdep.
  destruct (minted_frame (NewStateTransition evm msg gp0)) as (Hm & He & Hgp & Hrem).
  apply innerTransitionDb_gas in H.
  - rewrite Hm, He, Hgp in H. exact H.
  - exact Hp.
  - rewrite Hm. exact Hmsg.
  - rewrite He. exact Hvm.
  - rewrite Hrem. reflexivity.
  - rewrite Hm. exact Hdep.
Qed.

Lemma refund_share (used q intrinsic : Z) :
  (q = 2 \/ q = 5) -> 0 <= intrinsic <= used ->
  intrinsic - intrinsic / q <= used - used / q.
Proof.
  intros [-> | ->] H; Z.div_mod_to_equations; lia.
Qed.

(** C3 (amended). For a message that is not a deposit and whose transition
    completes without a consensus error, the used gas of the result is at
    most the gas limit; the gas used before the refund, which is the used gas
    of the result plus a refund of at most that gas divided by the refund
    quotient, is at least the intrinsic gas; hence the used gas of the result
    is at least the intrinsic gas less its share by the refund quotient. *)
Theorem usedGas_bounds (evm : EVM) (msg : Message) (gp0 : GasPool.t) r st' :
  params_ok params -> msg_ok msg -> vm_ok evm ->
  IsDepositTx msg = false ->
  ApplyMessage evm msg gp0 = Return ((r, None), st') ->
  exists res intrinsic refund,
    r = Some res /\
    intrinsicGasOf params evm msg = (intrinsic, None) /\
    UsedGas res <= Gas msg /\
    0 <= refund <= (UsedGas res + refund) / refundQuotientOf (rulesOf evm) /\
    intrinsic <= UsedGas res + refund <= Gas msg /\
    intrinsic - intrinsic / refundQuotientOf (rulesOf evm) <= UsedGas res.
Proof.
  intros Hp Hmsg Hvm Hdep H.
  destruct (ApplyMessage_gas _ _ _ _ _ Hp Hmsg Hvm Hdep H)
    as (res & intrinsic & gasLeft & counter & -> & Hi & Hi0 & Hl0 & Hl & Hc & Hu & _).
  assert (Hq : refundQuotientOf (rulesOf evm) = 2 \/ refundQuotientOf (rulesOf evm) = 5).
  { unfold refundQuotientOf. destruct (Rules.IsLondon _); auto. }
  assert (Hleft : 0 <= gasLeft <= Gas msg) by lia.
  assert (Hused : 0 <= intrinsic <= Gas msg - gasLeft) by lia.
  pose proof (refund_no_wrap (Gas msg - gasLeft) _ counter gasLeft (Gas msg) Hq Hc
                Hleft eq_refl) as Hb.
  pose proof (refund_share (Gas msg - gasLeft) _ intrinsic Hq Hused) as Hs.
  set (refund := Z.min ((Gas msg - gasLeft) / refundQuotientOf (rulesOf evm)) counter) in *.
  exists res, intrinsic, refund.
  replace (UsedGas res + refund) with (Gas msg - gasLeft) by lia.
  repeat split; auto; try lia.
Qed.

(** C10. For a message that is not a deposit and whose transition completes
    without a consensus error, the gas counter of the block gas pool has gone
    down by exactly the used gas of the result. *)
Theorem gas_pool_conservation (evm : EVM) (msg : Message) (gp0 : GasPool.t) r st' :
  params_ok params -> msg_ok msg -> vm_ok evm ->
  IsDepositTx msg = false ->
  ApplyMessage evm msg gp0 = Return ((r, None), st') ->
  exists res,
    r = Some res /\
    GasPool.gas gp0 - GasPool.gas (gp st') = UsedGas res.
Proof.
  intros Hp Hmsg Hvm Hdep H.
  destruct (ApplyMessage_gas _ _ _ _ _ Hp Hmsg Hvm Hdep H)
    as (res & _ & _ & _ & -> & _ & _ & _ & _ & _ & _ & Hpool).
  exists res. split; [reflexivity|lia].
Qed.

End Properties.

(** ** The properties on the concrete instances *)

Lemma protocol_params_ok : params_ok protocol_params.
Proof. constructor; simpl; unfold U64.modulus; lia. Qed.

Lemma transfer_ok (blobs : list Hash) : msg_ok (Fixture.transfer blobs).
Proof. constructor; unfold U64.in_range, U64.modulus; simpl; lia. Qed.

Lemma machine_ok (sharding : bool) (spent counter : Z) :
  0 <= spent -> U64.in_range counter -> vm_ok (Fixture.machine sharding spent counter).
Proof.
  intros Hs Hc. constructor; simpl; intros; simplify_eq/=; unfold U64.in_range in *;
    (split; [lia|exact Hc]).
Qed.

(** The hypothesis of [IntrinsicGas_monotone] below on the sizes is needed:
    on lists alone, with the protocol constants, an empty payload and all
    flags off, an access list of 7686143364045637 addresses, above
    [maxAlloc], costs 18446744073709549800 gas, and with one more address
    the function of the model gives 584. *)
Lemma IntrinsicGas_not_monotone_in_access_list :
  IntrinsicGas protocol_params [] (Fixture.addresses (Z.to_nat 7686143364045637))
    false false false false = (18446744073709549800, None) /\
  IntrinsicGas protocol_params []
    (Fixture.noKeys :: Fixture.addresses (Z.to_nat 7686143364045637))
    false false false false = (584, None).
Proof.
  destruct (addresses_count 7686143364045637) as [m [Hn Hm]]; [lia|].
  rewrite Hn. split.
  - rewrite IntrinsicGas_addresses, Hm. reflexivity.
  - change (Fixture.noKeys :: Fixture.addresses (S m)) with (Fixture.addresses (S (S m))).
    rewrite IntrinsicGas_addresses, (Nat2Z.inj_succ (S m)), Hm. reflexivity.
Qed.

(** C1, as stated, fails: the transfer with one data hash buys its gas from
    a pool without data gas; [buyGas] fails and the gas pool has lost the
    gas limit. *)
Lemma buyGas_not_all_or_nothing :
  ~ buyGas_all_or_nothing protocol_params Fixture.unitPrice Fixture.blobStart.
Proof.
  intros H.
  destruct (H ErrDataGasLimitReached Fixture.blobFailed) as [_ Hgp].
  - vm_compute. reflexivity.
  - vm_compute in Hgp. discriminate.
Qed.

Lemma buyGas_failure_effects_witness :
  buyGas protocol_params Fixture.unitPrice Fixture.blobStart =
    (Some ErrDataGasLimitReached, Fixture.blobFailed) /\
  state Fixture.blobFailed = state Fixture.blobStart /\
  GasPool.gas (gp Fixture.blobFailed) = GasPool.gas (gp Fixture.blobStart) - 100000.
Proof.
  assert (H : buyGas protocol_params Fixture.unitPrice Fixture.blobStart =
              (Some ErrDataGasLimitReached, Fixture.blobFailed))
    by (vm_compute; reflexivity).
  split; [exact H|].
  destruct (buyGas_failure_effects _ _ _ _ _ H) as (Hs & _ & _ & [Hsame | [_ Hgas]]).
  - vm_compute in Hsame. discriminate.
  - split; [exact Hs|exact Hgas].
Defined.

(** C3, as stated, fails: the machine spends 5000 gas on a transfer of
    intrinsic gas 21000 and leaves a refund counter of 15000; half of the
    26000 gas used is refunded and the used gas of the result is 13000. *)
Lemma usedGas_below_intrinsic :
  IsDepositTx (Fixture.transfer []) = false /\
  vm_ok (Fixture.machine false 5000 15000) /\
  ~ usedGas_between_intrinsic_and_limit protocol_params Fixture.unitPrice
      Fixture.emptyCodeHash Fixture.noPrecompiles Fixture.idPrepare
      (Fixture.machine false 5000 15000) (Fixture.transfer []) Fixture.pool.
Proof.
  split; [reflexivity|]. split.
  { apply machine_ok; unfold U64.in_range, U64.modulus; lia. }
  intros H.
  destruct (H {| UsedGas := 13000; Err := None; ReturnData := [] |} Fixture.transferDone)
    as [Hlow _].
  - vm_compute. reflexivity.
  - vm_compute in Hlow. apply Hlow. reflexivity.
Qed.

Lemma usedGas_bounds_witness :
  exists res,
    UsedGas res = 13000 /\
    ApplyMessage protocol_params Fixture.unitPrice Fixture.emptyCodeHash
      Fixture.noPrecompiles Fixture.idPrepare
      (Fixture.machine false 5000 15000) (Fixture.transfer []) Fixture.pool =
    Return ((Some res, None), Fixture.transferDone).
Proof.
  assert (H : ApplyMessage protocol_params Fixture.unitPrice Fixture.emptyCodeHash
                Fixture.noPrecompiles Fixture.idPrepare
                (Fixture.machine false 5000 15000) (Fixture.transfer []) Fixture.pool =
              Return ((Some {| UsedGas := 13000; Err := None; ReturnData := [] |}, None),
                      Fixture.transferDone))
    by (vm_compute; reflexivity).
  destruct (usedGas_bounds protocol_params Fixture.unitPrice Fixture.emptyCodeHash
              Fixture.noPrecompiles Fixture.idPrepare _ _ _ _ _
              protocol_params_ok (transfer_ok [])
              (machine_ok false 5000 15000 ltac:(lia)
                 ltac:(unfold U64.in_range, U64.modulus; lia))
              eq_refl H) as (res & _ & _ & Hres & _).
  exists res. injection Hres as <-. split; [reflexivity|exact H].
Defined.

Lemma gas_pool_conservation_witness :
  GasPool.gas Fixture.pool - GasPool.gas (gp Fixture.transferDone) = 13000.
Proof.
  assert (H : ApplyMessage protocol_params Fixture.unitPrice Fixture.emptyCodeHash
                Fixture.noPrecompiles Fixture.idPrepare
                (Fixture.machine false 5000 15000) (Fixture.transfer []) Fixture.pool =
              Return ((Some {| UsedGas := 13000; Err := None; ReturnData := [] |}, None),
                      Fixture.transferDone))
    by (vm_compute; reflexivity).
  destruct (gas_pool_conservation protocol_params Fixture.unitPrice Fixture.emptyCodeHash
              Fixture.noPrecompiles Fixture.idPrepare _ _ _ _ _
              protocol_params_ok (transfer_ok [])
              (machine_ok false 5000 15000 ltac:(lia)
                 ltac:(unfold U64.in_range, U64.modulus; lia))
              eq_refl H) as (res & Hres & Hpool).
  injection Hres as <-. exact Hpool.
Defined.

Lemma preCheck_debits_sender_witness :
  preCheck protocol_params Fixture.unitPrice Fixture.emptyCodeHash Sample.rollupStart =
    Return (None, Sample.rollupBought) /\
  StateDB.GetBalance (state Sample.rollupBought) Fixture.alice =
    10000000 - (100000 + 131072 + 11).
Proof.
  assert (H : preCheck protocol_params Fixture.unitPrice Fixture.emptyCodeHash
                Sample.rollupStart = Return (None, Sample.rollupBought))
    by (vm_compute; reflexivity).
  split; [exact H|].
  destruct (preCheck_debits_sender protocol_params Fixture.unitPrice Fixture.emptyCodeHash
              Sample.rollupStart Sample.rollupBought eq_refl H) as [Hb _].
  etransitivity; [exact Hb|]. vm_compute. reflexivity.
Defined.

Lemma refundSettlement_spec_witness :
  gasRemaining (refundSettlement Fixture.frontierRules Fixture.transferRun) = 74000 + 13000.
Proof.
  destruct (refundSettlement_spec Fixture.frontierRules Fixture.transferRun) as (Hrem & _).
  - vm_compute. split; [discriminate|reflexivity].
  - vm_compute. split; discriminate.
  - vm_compute. discriminate.
  - rewrite Hrem. vm_compute. reflexivity.
Defined.



Lemma mint_survives_failed_deposit_witness :
  exists res st2,
    TransitionDb protocol_params Fixture.unitPrice Fixture.emptyCodeHash
      Fixture.noPrecompiles Fixture.idPrepare (Fixture.depositStart true) =
      Return (res, st2) /\
    StateDB.GetBalance (state st2) Fixture.alice = 10000000 + 500.
Proof.
  assert (H : innerTransitionDb protocol_params Fixture.unitPrice Fixture.emptyCodeHash
                Fixture.noPrecompiles Fixture.idPrepare (minted (Fixture.depositStart true)) =
              Return ((None, Some Fixture.noTransfer), Fixture.depositFailed true))
    by (vm_compute; reflexivity).
  destruct (mint_survives_failed_deposit protocol_params Fixture.unitPrice
              Fixture.emptyCodeHash Fixture.noPrecompiles Fixture.idPrepare
              (Fixture.depositStart true) 500 None Fixture.noTransfer
              (Fixture.depositFailed true) eq_refl eq_refl H)
    as (_ & res & st2 & Hrun & Hbal).
  exists res, st2. split; [exact Hrun|]. rewrite Hbal. vm_compute. reflexivity.
Defined.

(** * Further properties *)

(** ** The intrinsic gas, continued *)

(** X1. On every [uint64] size, [toWordSize] is the number of 32-byte words
    that cover the size, rounded up; it is computed without wrap-around, up
    to [math.MaxUint64] included. *)
Theorem toWordSize_ceiling (size : Z) :
  U64.in_range size ->
  toWordSize size = (size + 31) / 32 /\
  size <= 32 * toWordSize size < size + 32 /\
  U64.in_range (toWordSize size).
Proof.
  intros H. rewrite toWordSize_exact by exact H.
  unfold U64.in_range, U64.modulus in *.
  change (2 ^ 64) with 18446744073709551616 in *.
  split; [reflexivity|]. Z.div_mod_to_equations. lia.
Qed.

Lemma toWordSize_ceiling_witness :
  toWordSize U64.MaxUint64 = 576460752303423488.
Proof.
  destruct (toWordSize_ceiling U64.MaxUint64) as [H _].
  - vm_compute. split; [discriminate|reflexivity].
  - rewrite H. vm_compute. reflexivity.
Defined.

Lemma StorageKeys_from (al : types.AccessList) (acc : Z) :
  fold_left (fun sum tuple => sum + Z.of_nat (length (types.StorageKeys tuple))) al acc =
    acc + types.AccessList_StorageKeys al.
Proof.
  unfold types.AccessList_StorageKeys. revert acc.
  induction al as [|t al IH]; intros acc; simpl.
  - lia.
  - rewrite IH, (IH (0 + _)). lia.
Qed.

Lemma StorageKeys_cons (t : types.AccessTuple) (al : types.AccessList) :
  types.AccessList_StorageKeys (t :: al) =
    Z.of_nat (length (types.StorageKeys t)) + types.AccessList_StorageKeys al.
Proof.
  unfold types.AccessList_StorageKeys at 1. simpl. rewrite StorageKeys_from. lia.
Qed.

Lemma StorageKeys_nonneg (al : types.AccessList) :
  0 <= types.AccessList_StorageKeys al.
Proof.
  induction al as [|t al IH].
  - reflexivity.
  - rewrite StorageKeys_cons. lia.
Qed.

(** [IntrinsicGas] is the payload part followed by the two additions for a
    non-empty access list. *)
Lemma IntrinsicGas_split (p : ProtocolParams) (data : list byte) (al : types.AccessList)
    (creation homestead eip2028 eip3860 : bool) :
  IntrinsicGas p data al creation homestead eip2028 eip3860 =
    match IntrinsicGas p data [] creation homestead eip2028 eip3860 with
    | (gas, None) =>
        match al with
        | [] => (gas, None)
        | _ =>
            (U64.add
               (U64.add gas (U64.mul (U64.wrap (Z.of_nat (length al)))
                                     (TxAccessListAddressGas p)))
               (U64.mul (U64.wrap (types.AccessList_StorageKeys al))
                        (TxAccessListStorageKeyGas p)), None)
        end
    | failed => failed
    end.
Proof.
  unfold IntrinsicGas.
  repeat match goal with
         | |- context [if ?c then _ else _] => destruct c
         end; reflexivity.
Qed.

(** A sum that fits in a [uint64] is returned as it is. *)
Lemma IntrinsicGas_fits (p : ProtocolParams) (data : list byte) (al : types.AccessList)
    (creation homestead eip2028 eip3860 : bool) :
  params_ok p -> Z.of_nat (length data) < U64.modulus ->
  Facts.intrinsicSum p data al creation homestead eip2028 eip3860 <= U64.MaxUint64 ->
  IntrinsicGas p data al creation homestead eip2028 eip3860 =
    (payloadGas p data creation homestead eip2028 eip3860
     + Z.of_nat (length al) * TxAccessListAddressGas p
     + types.AccessList_StorageKeys al * TxAccessListStorageKeyGas p, None).
Proof.
  intros Hp Hlen Hfit. unfold Facts.intrinsicSum in Hfit.
  pose proof (StorageKeys_nonneg al) as Hk.
  pose proof (TxAccessListAddressGas_ok p Hp) as Ha.
  pose proof (TxAccessListStorageKeyGas_ok p Hp) as Hs.
  assert (Hn : 0 <= Z.of_nat (length al)) by lia.
  assert (Hpay : 0 <= payloadGas p data creation homestead eip2028 eip3860).
  { pose proof (IntrinsicGas_payload_guarded p data creation homestead eip2028 eip3860
                  Hp Hlen) as Hg.
    destruct (Z.leb_spec (payloadGas p data creation homestead eip2028 eip3860)
                U64.MaxUint64) as [_|Hover].
    - apply (IntrinsicGas_nonneg p data [] creation homestead eip2028 eip3860 _ Hp Hg).
    - unfold U64.MaxUint64, U64.modulus in *. lia. }
  assert (H1 : 0 <= Z.of_nat (length al) * TxAccessListAddressGas p) by lia.
  assert (H2 : 0 <= types.AccessList_StorageKeys al * TxAccessListStorageKeyGas p) by lia.
  rewrite IntrinsicGas_split, IntrinsicGas_payload_guarded by assumption.
  destruct (Z.leb_spec (payloadGas p data creation homestead eip2028 eip3860)
              U64.MaxUint64) as [Hfit0|Hover]; [|lia].
  destruct al as [|t al'].
  { simpl. f_equal. unfold types.AccessList_StorageKeys. simpl. lia. }
  cbv beta iota. remember (t :: al') as al eqn:Hal. clear Hal.
  assert (Hmax : U64.MaxUint64 = U64.modulus - 1) by reflexivity.
  rewrite (U64_wrap_id (Z.of_nat (length al))) by (unfold U64.in_range; nia).
  rewrite (U64_wrap_id (types.AccessList_StorageKeys al)) by (unfold U64.in_range; nia).
  rewrite (guarded_add (payloadGas p data creation homestead eip2028 eip3860)
             (TxAccessListAddressGas p) (Z.of_nat (length al))) by lia.
  rewrite guarded_add by lia.
  reflexivity.
Qed.

(** X2. When the sum of the base cost, the payload costs, the init-code word
    cost and the access-list costs fits in a [uint64], [IntrinsicGas] returns
    that sum and no error: beyond the payload, an access list of N addresses
    and M storage keys costs N address costs and M key costs. *)
Theorem IntrinsicGas_exact (p : ProtocolParams) (data : list byte) (al : types.AccessList)
    (creation homestead eip2028 eip3860 : bool) :
  params_ok p -> Z.of_nat (length data) < U64.modulus ->
  Facts.intrinsicSum p data al creation homestead eip2028 eip3860 <= U64.MaxUint64 ->
  IntrinsicGas p data al creation homestead eip2028 eip3860 =
    (payloadGas p data creation homestead eip2028 eip3860
     + Z.of_nat (length al) * TxAccessListAddressGas p
     + types.AccessList_StorageKeys al * TxAccessListStorageKeyGas p, None).
Proof.
  exact (IntrinsicGas_fits p data al creation homestead eip2028 eip3860).
Qed.

Lemma IntrinsicGas_exact_witness :
  IntrinsicGas protocol_params [x00; x01]
    [{| types.Address := 7; types.StorageKeys := [1; 2] |}; Fixture.noKeys]
    false true true false = (21000 + 4 + 16 + 2 * 2400 + 2 * 1900, None).
Proof.
  rewrite (IntrinsicGas_exact protocol_params).
  - vm_compute. reflexivity.
  - apply protocol_params_ok.
  - vm_compute. reflexivity.
  - vm_compute. discriminate.
Defined.

(** X3. Without an access list every addition of [IntrinsicGas] is guarded:
    the result is the unbounded sum of the base cost, the payload costs and
    the init-code word cost when that sum fits in a [uint64], and the
    overflow error, with a gas of 0, when it does not. *)
Theorem IntrinsicGas_payload_overflow (p : ProtocolParams) (data : list byte)
    (creation homestead eip2028 eip3860 : bool) :
  params_ok p -> Z.of_nat (length data) < U64.modulus ->
  IntrinsicGas p data [] creation homestead eip2028 eip3860 =
    if payloadGas p data creation homestead eip2028 eip3860 <=? U64.MaxUint64
    then (payloadGas p data creation homestead eip2028 eip3860, None)
    else (0, Some ErrGasUintOverflow).
Proof.
  exact (IntrinsicGas_payload_guarded p data creation homestead eip2028 eip3860).
Qed.

Lemma IntrinsicGas_payload_overflow_witness :
  IntrinsicGas Sample.steepParams [x01; x01] [] false false false false =
    (0, Some ErrGasUintOverflow).
Proof.
  rewrite (IntrinsicGas_payload_overflow Sample.steepParams).
  - vm_compute. reflexivity.
  - constructor; vm_compute; split; reflexivity.
  - vm_compute. reflexivity.
Defined.

(** X4. Without an access list, appending a byte to the payload never lowers
    the gas [IntrinsicGas] returns, when it returns a gas before and after. *)
Theorem IntrinsicGas_append_byte (p : ProtocolParams) (data : list byte) (b : byte)
    (creation homestead eip2028 eip3860 : bool) (g g' : Z) :
  params_ok p -> Z.of_nat (length (data ++ [b])) < U64.modulus ->
  IntrinsicGas p data [] creation homestead eip2028 eip3860 = (g, None) ->
  IntrinsicGas p (data ++ [b]) [] creation homestead eip2028 eip3860 = (g', None) ->
  g <= g'.
Proof.
  exact (IntrinsicGas_payload_monotone p data b creation homestead eip2028 eip3860 g g').
Qed.

Lemma IntrinsicGas_append_byte_witness : 53000 + 16 + 2 <= 53000 + 16 + 4 + 2.
Proof.
  apply (IntrinsicGas_append_byte protocol_params [x01] x00 true true true true).
  - apply protocol_params_ok.
  - vm_compute. reflexivity.
  - vm_compute. reflexivity.
  - vm_compute. reflexivity.
Defined.

(** ** The intrinsic gas of an input that a process can hold *)









(** ** The execution result *)

(** X5. The return data comes out through [Return] only when the execution
    has not failed and through [Revert] only when the error is the one of the
    [REVERT] opcode: the two are never both non-empty, and a result that has
    not failed gives all of its return data to [Return]. *)
Theorem Return_Revert_exclusive (result : ExecutionResult) :
  (ExecResult.Return result = [] \/ ExecResult.Revert result = []) /\
  (ExecResult.Failed result = false ->
   ExecResult.Return result = ReturnData result /\ ExecResult.Revert result = []) /\
  (ExecResult.Failed result = true -> ExecResult.Return result = []) /\
  (ExecResult.Revert result <> [] ->
   ExecResult.Unwrap result = Some ErrExecutionReverted).
Proof.
  unfold ExecResult.Return, ExecResult.Revert, ExecResult.Failed, ExecResult.Unwrap,
    CopyBytes.
  destruct (Err result) as [e|] eqn:He.
  - rewrite (bool_decide_eq_true_2 (Some e <> None)) by done.
    split; [left; reflexivity|]. split; [discriminate|]. split; [reflexivity|].
    destruct (decide (Some e = Some ErrExecutionReverted)) as [Heq|Hne].
    + intros _. exact Heq.
    + rewrite bool_decide_eq_false_2 by exact Hne. congruence.
  - rewrite (bool_decide_eq_false_2 (None <> None)) by (intros H; apply H; reflexivity).
    rewrite (bool_decide_eq_false_2 (None = Some ErrExecutionReverted)) by done.
    split; [right; reflexivity|]. split; [split; reflexivity|].
    split; [discriminate|congruence].
Qed.

(** ** The preflight checks and the gas purchase, continued *)

Section EngineFacts.

Variable params : ProtocolParams.
Variable GetDataGasPrice : Z -> Z.
Variable emptyCodeHash : Hash.
Variable ActivePrecompiles : Rules.t -> list Address.
Variable Prepare :
  Rules.t -> Address -> Address -> option Address -> list Address ->
  types.AccessList -> StateDB.t -> StateDB.t.

Local Abbreviation buyGas := (buyGas params GetDataGasPrice).
Local Abbreviation dataGasUsed := (dataGasUsed params).
Local Abbreviation dataCostOf := (dataCostOf params GetDataGasPrice).
Local Abbreviation balanceRequiredOf := (Facts.balanceRequiredOf params GetDataGasPrice).
Local Abbreviation dataGasBoughtOf := (Facts.dataGasBoughtOf params).
Local Abbreviation checkDataGasPrice := (checkDataGasPrice params GetDataGasPrice).
Local Abbreviation preCheck := (preCheck params GetDataGasPrice emptyCodeHash).
Local Abbreviation innerTransitionDb :=
  (innerTransitionDb params GetDataGasPrice emptyCodeHash ActivePrecompiles Prepare).
Local Abbreviation TransitionDb :=
  (TransitionDb params GetDataGasPrice emptyCodeHash ActivePrecompiles Prepare).
Local Abbreviation ApplyMessage :=
  (ApplyMessage params GetDataGasPrice emptyCodeHash ActivePrecompiles Prepare).

Implicit Type st : StateTransition.

(** [buyGas] succeeds exactly when its four checks pass. *)
Lemma buyGas_succeeds st :
  fst (buyGas st) = None <->
  (ChainConfig.IsSharding (chainConfig (evm st)) (Time (Context (evm st))) = true ->
   ExcessDataGas (Context (evm st)) <> None) /\
  balanceRequiredOf st <= StateDB.GetBalance (state st) (From (msg st)) /\
  Gas (msg st) <= GasPool.gas (gp st) /\
  dataGasBoughtOf st <= GasPool.dataGas (gp st).
Proof.
  unfold core.buyGas, Facts.balanceRequiredOf, Facts.dataGasBoughtOf, core.dataCostOf,
    GasPool.SubGas, GasPool.SubDataGas.
  destruct (ChainConfig.IsSharding _ _); [destruct (ExcessDataGas _)|];
    destruct (GasFeeCap (msg st)); destruct (l1CostOf st); simpl;
    repeat match goal with
           | |- context [?a <? ?b] => destruct (Z.ltb_spec a b); simpl
           end;
    split; try discriminate; try (intros _; repeat split; try done; lia);
    try (intros (Hx & ? & ? & ?); try reflexivity; try lia; exfalso; now apply Hx).
Qed.

(** X7. [buyGas] succeeds exactly when the excess data gas is there if
    sharding is active, the sender holds the balance required, the gas pool
    holds the gas limit and the data-gas pool holds the data gas used; the
    balance required is the gas cost with the L1 cost for a message without
    fee cap, and the value, the data-gas cost, the gas limit at the fee cap
    and the L1 cost for a message with one. *)
Theorem buyGas_success_iff st :
  fst (buyGas st) = None <->
  (ChainConfig.IsSharding (chainConfig (evm st)) (Time (Context (evm st))) = true ->
   ExcessDataGas (Context (evm st)) <> None) /\
  balanceRequiredOf st <= StateDB.GetBalance (state st) (From (msg st)) /\
  Gas (msg st) <= GasPool.gas (gp st) /\
  dataGasBoughtOf st <= GasPool.dataGas (gp st).
Proof. exact (buyGas_succeeds st). Qed.

(** X8. A purchase leaves the sender able to pay the value: after a
    successful [buyGas] on a message with a fee cap that is not below its gas
    price, the sender holds at least the value of the message; on a message
    without fee cap and without data-gas cost, the sender's balance is not
    negative. *)
Theorem buyGas_leaves_value st st' :
  msg_ok (msg st) ->
  match GasFeeCap (msg st) with
  | Some gasFeeCap => GasPrice (msg st) <= gasFeeCap
  | None => dataCostOf st = 0
  end ->
  buyGas st = (None, st') ->
  match GasFeeCap (msg st) with
  | Some _ => Value (msg st)
  | None => 0
  end <= StateDB.GetBalance (state st') (From (msg st)).
Proof.
  intros [[HG _] _] Hcap H.
  pose proof (proj1 (buyGas_succeeds st) (f_equal fst H)) as (_ & Hbal & _).
  apply buyGas_inv in H as (_ & _ & _ & _ & _ & _ & Hs).
  rewrite Hs, GetBalance_SubBalance, decide_True by reflexivity.
  unfold Facts.balanceRequiredOf in Hbal.
  destruct (GasFeeCap (msg st)) as [cap|]; [nia|lia].
Qed.

(** *** What a failure leaves, what a success has checked *)

(** X9. A [preCheck] that fails has not touched the world state: no
    balance, nonce or code hash has changed, for a deposit as for any other
    message. *)
Theorem preCheck_failure_keeps_state st (err : error) st' :
  preCheck st = Return (Some err, st') ->
  state st' = state st /\ msg st' = msg st /\ evm st' = evm st.
Proof.
  intros H. pose proof (preCheck_frame _ _ _ _ _ _ H) as [Hm He].
  apply preCheck_inv in H. destruct (IsDepositTx (msg st)).
  - destruct H as (_ & _ & Hs & _). auto.
  - destruct H as [(err' & _ & ->)|H]; [auto|].
    apply buyGas_inv in H as (_ & _ & Hs & _). auto.
Qed.

Lemma checkNonceAndEOA_inv st :
  U64.in_range (Nonce (msg st)) ->
  checkNonceAndEOA emptyCodeHash st = None ->
  StateDB.GetNonce (state st) (From (msg st)) = Nonce (msg st) /\
  Nonce (msg st) < U64.MaxUint64 /\
  (StateDB.GetCodeHash (state st) (From (msg st)) = emptyCodeHash \/
   StateDB.GetCodeHash (state st) (From (msg st)) = 0).
Proof.
  unfold checkNonceAndEOA, U64.in_range, U64.add, U64.wrap, U64.MaxUint64. intros Hr.
  destruct (Z.ltb_spec (StateDB.GetNonce (state st) (From (msg st))) (Nonce (msg st)));
    [discriminate|].
  destruct (Z.ltb_spec (Nonce (msg st)) (StateDB.GetNonce (state st) (From (msg st))));
    [discriminate|].
  assert (Heq : StateDB.GetNonce (state st) (From (msg st)) = Nonce (msg st)) by lia.
  rewrite Heq.
  destruct (Z.ltb_spec ((Nonce (msg st) + 1) mod U64.modulus) (Nonce (msg st)));
    [discriminate|].
  destruct (Z.eqb_spec (StateDB.GetCodeHash (state st) (From (msg st))) emptyCodeHash);
    destruct (Z.eqb_spec (StateDB.GetCodeHash (state st) (From (msg st))) 0);
    simpl; try discriminate; intros _.
  all: split; [reflexivity|]; split; auto.
  all: destruct (Z.eq_dec (Nonce (msg st)) (U64.modulus - 1)) as [Hmax|Hmax]; [|lia].
  all: exfalso; rewrite Hmax in *;
       replace (U64.modulus - 1 + 1) with (1 * U64.modulus) in * by lia;
       rewrite Z.mod_mul in * by (unfold U64.modulus; lia);
       unfold U64.modulus in *; lia.
Qed.

(** Which checks [preCheck] has gone through when it succeeds on a message
    that is not a deposit. *)
Lemma preCheck_success_checks st st' :
  IsDepositTx (msg st) = false ->
  preCheck st = Return (None, st') ->
  (IsFake (msg st) = false -> checkNonceAndEOA emptyCodeHash st = None) /\
  checkFeeCaps st = Return None /\
  checkDataGasPrice st = Return None /\
  buyGas st = (None, st').
Proof.
  unfold core.preCheck. intros -> H.
  destruct (IsFake (msg st)); simpl in H.
  - destruct (checkFeeCaps st) as [[e|]|]; simpl in H; try discriminate.
    destruct (checkDataGasPrice st) as [[e|]|]; simpl in H; try discriminate.
    simplify_eq/=. repeat split; auto. discriminate.
  - destruct (checkNonceAndEOA emptyCodeHash st); [discriminate|].
    destruct (checkFeeCaps st) as [[e|]|]; simpl in H; try discriminate.
    destruct (checkDataGasPrice st) as [[e|]|]; simpl in H; try discriminate.
    simplify_eq/=. repeat split; auto.
Qed.

(** X10. When [preCheck] succeeds on a message that is neither a deposit nor
    fake, the nonce of the sender in the world state is the nonce of the
    message and is below [math.MaxUint64], and the code hash of the sender is
    the empty-code hash or the zero hash. *)
Theorem preCheck_success_nonce st st' :
  msg_ok (msg st) ->
  IsDepositTx (msg st) = false -> IsFake (msg st) = false ->
  preCheck st = Return (None, st') ->
  StateDB.GetNonce (state st) (From (msg st)) = Nonce (msg st) /\
  Nonce (msg st) < U64.MaxUint64 /\
  (StateDB.GetCodeHash (state st) (From (msg st)) = emptyCodeHash \/
   StateDB.GetCodeHash (state st) (From (msg st)) = 0).
Proof.
  intros [_ Hn] Hdep Hfake H.
  apply (preCheck_success_checks _ _ Hdep) in H as (Hc & _).
  apply checkNonceAndEOA_inv; auto.
Qed.

(** X11. On a message that is neither a deposit nor fake, a nonce of the
    world state below the nonce of the message is rejected as too high, one
    above it as too low, and an equal one that is [math.MaxUint64] as the
    maximum nonce; the state transition is returned as it was. *)
Theorem preCheck_nonce_errors st :
  IsDepositTx (msg st) = false -> IsFake (msg st) = false ->
  let stNonce := StateDB.GetNonce (state st) (From (msg st)) in
  let msgNonce := Nonce (msg st) in
  (stNonce < msgNonce ->
   preCheck st =
     Return (Some (Errorf "%w: address %v, tx: %d state: %d" ErrNonceTooHigh), st)) /\
  (msgNonce < stNonce ->
   preCheck st =
     Return (Some (Errorf "%w: address %v, tx: %d state: %d" ErrNonceTooLow), st)) /\
  (stNonce = msgNonce -> stNonce = U64.MaxUint64 ->
   preCheck st = Return (Some (Errorf "%w: address %v, nonce: %d" ErrNonceMax), st)).
Proof.
  intros Hdep Hfake stNonce msgNonce. subst stNonce msgNonce.
  unfold core.preCheck, checkNonceAndEOA. rewrite Hdep, Hfake. simpl.
  split; [|split].
  - intros H. destruct (Z.ltb_spec (StateDB.GetNonce (state st) (From (msg st)))
                          (Nonce (msg st))); [reflexivity|lia].
  - intros H. destruct (Z.ltb_spec (StateDB.GetNonce (state st) (From (msg st)))
                          (Nonce (msg st))); [lia|].
    destruct (Z.ltb_spec (Nonce (msg st))
                (StateDB.GetNonce (state st) (From (msg st)))); [reflexivity|lia].
  - intros Heq Hmax. rewrite <- Heq, Hmax, Z.ltb_irrefl. reflexivity.
Qed.

(** X12. When [preCheck] succeeds under London on a message that is not a
    deposit, with the base fee enforced, the message has a fee cap and the
    block a base fee, the fee cap and the tip cap are at most 256 bits long,
    the tip cap is at most the fee cap and the fee cap is at least the base
    fee. *)
Theorem preCheck_success_fee_caps st st' :
  IsDepositTx (msg st) = false ->
  ChainConfig.IsLondon (chainConfig (evm st)) (BlockNumber (Context (evm st))) = true ->
  NoBaseFee (Config (evm st)) = false ->
  preCheck st = Return (None, st') ->
  exists gasFeeCap baseFee,
    GasFeeCap (msg st) = Some gasFeeCap /\
    BaseFee (Context (evm st)) = Some baseFee /\
    BitLen gasFeeCap <= 256 /\ BitLen (GasTipCap (msg st)) <= 256 /\
    GasTipCap (msg st) <= gasFeeCap /\ baseFee <= gasFeeCap.
Proof.
  intros Hdep HL HN H.
  apply (preCheck_success_checks _ _ Hdep) in H as (_ & Hfee & _).
  unfold checkFeeCaps in Hfee. rewrite HL, HN in Hfee.
  destruct (GasFeeCap (msg st)) as [cap|]; simpl in Hfee; [|discriminate].
  destruct (Z.ltb_spec 256 (BitLen cap)); [discriminate|].
  destruct (Z.ltb_spec 256 (BitLen (GasTipCap (msg st)))); [discriminate|].
  destruct (Z.ltb_spec cap (GasTipCap (msg st))); [discriminate|].
  destruct (BaseFee (Context (evm st))) as [base|]; simpl in Hfee; [|discriminate].
  destruct (Z.ltb_spec cap base); [discriminate|].
  exists cap, base. auto 10.
Qed.

(** X13. When [preCheck] succeeds on a message that is not a deposit and
    uses data gas while sharding is active, the excess data gas is there and
    the data-gas price derived from it is at most the maximum fee per data
    gas of the message. *)
Theorem preCheck_success_data_price st st' :
  IsDepositTx (msg st) = false ->
  ChainConfig.IsSharding (chainConfig (evm st)) (Time (Context (evm st))) = true ->
  0 < dataGasUsed st ->
  preCheck st = Return (None, st') ->
  exists excess,
    ExcessDataGas (Context (evm st)) = Some excess /\
    GetDataGasPrice excess <= MaxFeePerDataGas (msg st).
Proof.
  intros Hdep HS Hused H.
  apply (preCheck_success_checks _ _ Hdep) in H as (_ & _ & Hdata & _).
  unfold core.checkDataGasPrice in Hdata. rewrite HS in Hdata.
  destruct (Z.ltb_spec 0 (dataGasUsed st)); [|lia]. simpl in Hdata.
  destruct (ExcessDataGas (Context (evm st))) as [excess|]; simpl in Hdata; [|discriminate].
  destruct (Z.ltb_spec (MaxFeePerDataGas (msg st)) (GetDataGasPrice excess));
    [discriminate|].
  exists excess. auto.
Qed.

(** *** The inner pipeline, by the way it returns *)

Lemma IntrinsicGas_error (p : ProtocolParams) (data : list byte) (al : types.AccessList)
    (creation homestead eip2028 eip3860 : bool) (g : Z) (err : error) :
  IntrinsicGas p data al creation homestead eip2028 eip3860 = (g, Some err) ->
  err = ErrGasUintOverflow /\ g = 0.
Proof.
  unfold IntrinsicGas.
  repeat match goal with
         | |- context [if ?c then _ else _] => destruct c
         | |- context [match ?l with [] => _ | _ :: _ => _ end] => destruct l
         end.
  all: intros [= <- <-] || intros [= ]; auto.
Qed.

Lemma innerTransitionDb_cases st r (e : option error) st' :
  innerTransitionDb st = Return ((r, e), st') ->
  exists r1 st1,
    preCheck st = Return (r1, st1) /\
    match r1 with
    | Some err => r = None /\ e = Some err /\ st' = st1
    | None =>
        match e with
        | Some err =>
            r = None /\ state st' = state st1 /\ gp st' = gp st1 /\
            Facts.raisedAfterPurchase err
        | None =>
            exists res,
              r = Some res /\
              GasPool.dataGas (gp st') = GasPool.dataGas (gp st1) /\
              (IsDepositTx (msg st) = true ->
               gp st' = gp st1 /\ UsedGas res = depositGasUsed st)
        end
    end.
Proof.
  unfold core.innerTransitionDb, Facts.raisedAfterPurchase. intros H.
  destruct (preCheck st) as [[r1 st1]|] eqn:E; simpl in H; [|discriminate].
  exists r1, st1. split; [reflexivity|].
  apply preCheck_frame in E as [Hm He].
  destruct r1 as [err|]; [simplify_eq/=; auto|].
  destruct (IntrinsicGas _ _ _ _ _ _ _) as [g [e1|]] eqn:Hg.
  { apply IntrinsicGas_error in Hg as [-> _]. simplify_eq/=. auto 10. }
  repeat match type of H with
         | (if ?c then _ else _) = _ => destruct c; [simplify_eq/=; auto 10|]
         end.
  destruct (execute _ _) as [[ret vmerr] st2] eqn:Ex.
  apply execute_inv in Ex as (Hm2 & He2 & Hgp2 & _). simpl in Hm2, He2, Hgp2.
  destruct (IsDepositTx (msg st1)) eqn:Hdep.
  - simplify_eq/=. eexists. split; [reflexivity|]. rewrite Hgp2.
    split; [reflexivity|]. intros _. split; [reflexivity|].
    unfold depositGasUsed. rewrite Hm2, Hm. reflexivity.
  - apply feeSettlement_inv in H as (_ & _ & Hgp3 & _ & Hres).
    simplify_eq/=. eexists. split; [reflexivity|].
    rewrite Hgp3, refundSettlement_quotient.
    destruct (refundGas_inv (refundQuotientOf
      (ChainConfig.Rules (chainConfig (evm st1)) (BlockNumber (Context (evm st1)))
         (bool_decide (Random (Context (evm st1)) ≠ None)) (Time (Context (evm st1))))) st2)
      as (_ & _ & _ & _ & Hgp4).
    rewrite Hgp4, Hgp2. split; [reflexivity|]. rewrite <- Hm, Hdep. discriminate.
Qed.

(** Only a message that is not a deposit can make the inner pipeline
    panic. *)
Lemma innerTransitionDb_panic st (reason : string) :
  innerTransitionDb st = Panic reason -> IsDepositTx (msg st) = false.
Proof.
  unfold core.innerTransitionDb. intros H.
  destruct (IsDepositTx (msg st)) eqn:Hdep; [exfalso|reflexivity].
  destruct (preCheck st) as [[r1 st1]|] eqn:E; simpl in H.
  - apply preCheck_frame in E as [Hm He].
    destruct r1 as [err|]; [discriminate|].
    destruct (IntrinsicGas _ _ _ _ _ _ _) as [g [e1|]]; [discriminate|].
    repeat match type of H with
           | (if ?c then _ else _) = _ => destruct c; [discriminate|]
           end.
    destruct (execute _ _) as [[ret vmerr] st2].
    rewrite Hm, Hdep in H. discriminate.
  - unfold core.preCheck in E. rewrite Hdep in E.
    destruct (IsSystemTx _); [discriminate|].
    destruct (GasPool.SubGas _ _); discriminate.
Qed.

Lemma innerTransitionDb_deposit_returns st :
  IsDepositTx (msg st) = true ->
  exists x, innerTransitionDb st = Return x.
Proof.
  intros Hdep. destruct (innerTransitionDb st) as [x|reason] eqn:H; [eauto|].
  apply innerTransitionDb_panic in H. congruence.
Qed.

Lemma raisedAfterPurchase_not_gas_limit (err : error) :
  Facts.raisedAfterPurchase err -> err <> ErrGasLimitReached.
Proof. intros [->|[->|[->| ->]]]; discriminate. Qed.

Lemma preCheck_deposit_gas_limit st (err : error) st' :
  IsDepositTx (msg st) = true ->
  preCheck st = Return (Some err, st') ->
  GasPool.gas (gp st) < Gas (msg st).
Proof.
  unfold core.preCheck. intros -> H. simpl in H.
  destruct (IsSystemTx (msg st)); [discriminate|].
  destruct (GasPool.SubGas _ _) as [r gp1] eqn:E. simplify_eq/=.
  apply SubGas_inv in E as [(_ & _ & Hlt)|(? & _)]; [exact Hlt|discriminate].
Qed.

(** What [ApplyMessage] returns on a deposit. *)
Lemma ApplyMessage_deposit (evm : EVM) (m : Message) (gp0 : GasPool.t) :
  IsDepositTx m = true ->
  exists r e st',
    ApplyMessage evm m gp0 = Return ((r, e), st') /\
    ((e = Some ErrGasLimitReached /\ r = None /\ IsSystemTx m = false /\
      GasPool.gas gp0 < Gas m /\ gp st' = gp0) \/
     (e = None /\
      (IsSystemTx m = false -> Gas m <= GasPool.gas gp0) /\
      exists res,
        r = Some res /\
        UsedGas res = (if IsSystemTx m then 0 else Gas m) /\
        GasPool.gas gp0 - GasPool.gas (gp st') = UsedGas res /\
        GasPool.dataGas (gp st') = GasPool.dataGas gp0)).
Proof.
  intros Hdep. unfold core.ApplyMessage.
  remember (NewStateTransition evm m gp0) as st0 eqn:Hst0.
  assert (Hmsg0 : msg st0 = m) by (subst st0; reflexivity).
  assert (Hgp0 : gp st0 = gp0) by (subst st0; reflexivity).
  clear Hst0.
  destruct (minted_frame st0) as (Hm & He & Hgp & Hrem).
  rewrite Hmsg0 in Hm. rewrite Hgp0 in Hgp.
  assert (Hdep' : IsDepositTx (msg (minted st0)) = true) by (rewrite Hm; exact Hdep).
  destruct (innerTransitionDb_deposit_returns _ Hdep') as [[[r e] st1] H].
  rewrite (TransitionDb_unfold _ _ _ _ _ _ _ _ _ H).
  pose proof (innerTransitionDb_cases _ _ _ _ H) as (r1 & stp & Hpre & Hcases).
  pose proof Hpre as Hpre0.
  apply preCheck_inv in Hpre. rewrite Hdep' in Hpre.
  destruct Hpre as (_ & _ & _ & _ & Hdata & Hpre).
  rewrite ?Hm, ?Hgp in Hpre. rewrite ?Hm, ?Hgp in Hdata. rewrite Hmsg0, Hdep.
  destruct r1 as [err|].
  - destruct Hcases as (-> & -> & ->). destruct Hpre as (-> & Hsys & Hgpp).
    rewrite bool_decide_eq_true_2 by reflexivity. simpl.
    do 3 eexists. split; [reflexivity|]. left.
    assert (Hlow : GasPool.gas gp0 < Gas m).
    { pose proof (preCheck_deposit_gas_limit _ _ _ Hdep' Hpre0) as Hlt.
      rewrite Hm, Hgp in Hlt. exact Hlt. }
    rewrite Hgpp. auto.
  - assert (Hpool : (IsSystemTx m = false -> Gas m <= GasPool.gas gp0) /\
                    GasPool.gas gp0 - GasPool.gas (gp stp) =
                      (if IsSystemTx m then 0 else Gas m)).
    { destruct (IsSystemTx m); [rewrite Hpre; split; [discriminate|lia]|].
      destruct Hpre as [Hle Hg]. split; [auto|lia]. }
    destruct Hpool as [Hle Hpool].
    destruct e as [err|].
    + destruct Hcases as (-> & _ & Hgp1 & Hraised).
      rewrite bool_decide_eq_false_2 by (apply raisedAfterPurchase_not_gas_limit, Hraised).
      simpl. do 3 eexists. split; [reflexivity|]. right.
      split; [reflexivity|]. split; [exact Hle|].
      eexists. split; [reflexivity|]. simpl. rewrite Hgp1, Hdata.
      split; [reflexivity|]. split; [|reflexivity].
      rewrite Hpool. reflexivity.
    + destruct Hcases as (res & -> & Hd & Hdeposit).
      destruct (Hdeposit Hdep') as [Hgp1 Hused].
      do 3 eexists. split; [reflexivity|]. right.
      split; [reflexivity|]. split; [exact Hle|].
      exists res. split; [reflexivity|].
      unfold depositGasUsed in Hused. rewrite Hm in Hused.
      rewrite Hused, Hgp1, Hdata. split; [reflexivity|]. split; [|reflexivity].
      exact Hpool.
Qed.

(** *** Deposits *)

(** X14. A deposit is never rejected but for the gas limit of the block:
    [ApplyMessage] returns without a panic, and the only consensus error it
    returns is gas-limit-reached, exactly when the deposit is not a system
    transaction and the gas pool holds less than its gas limit; the gas pool
    is then as it was. *)
Theorem deposit_never_rejected (evm : EVM) (m : Message) (gp0 : GasPool.t) :
  IsDepositTx m = true ->
  exists r e st',
    ApplyMessage evm m gp0 = Return ((r, e), st') /\
    (e = None \/ e = Some ErrGasLimitReached) /\
    (e = Some ErrGasLimitReached <->
     IsSystemTx m = false /\ GasPool.gas gp0 < Gas m) /\
    (e = Some ErrGasLimitReached -> r = None /\ gp st' = gp0).
Proof.
  intros Hdep.
  destruct (ApplyMessage_deposit evm m gp0 Hdep) as (r & e & st' & H & Hcases).
  exists r, e, st'. split; [exact H|].
  destruct Hcases as [(-> & -> & Hsys & Hlow & Hgp)|(-> & Hle & _)].
  - split; [auto|]. split; [tauto|auto].
  - split; [auto|]. split; [|discriminate].
    split; [discriminate|]. intros [Hsys Hlow]. specialize (Hle Hsys). lia.
Qed.

(** X15. The used gas recorded for a deposit matches the gas pool: when
    [ApplyMessage] returns no consensus error on a deposit, its execution
    having failed or not, the used gas of the result is the gas limit of the
    message and the gas pool has gone down by it, and for a system
    transaction the used gas is 0 and the gas pool is untouched; the data-gas
    pool is as it was. *)
Theorem deposit_gas_matches_pool (evm : EVM) (m : Message) (gp0 : GasPool.t) r st' :
  IsDepositTx m = true ->
  ApplyMessage evm m gp0 = Return ((r, None), st') ->
  exists res,
    r = Some res /\
    UsedGas res = (if IsSystemTx m then 0 else Gas m) /\
    GasPool.gas gp0 - GasPool.gas (gp st') = UsedGas res /\
    GasPool.dataGas (gp st') = GasPool.dataGas gp0.
Proof.
  intros Hdep H.
  destruct (ApplyMessage_deposit evm m gp0 Hdep) as (r' & e' & st'' & H' & Hcases).
  rewrite H in H'. injection H' as <- <- <-.
  destruct Hcases as [(Habs & _)|(_ & _ & Hres)]; [discriminate|exact Hres].
Qed.

(** *** Every message *)

Lemma ApplyMessage_nondeposit (evm : EVM) (m : Message) (gp0 : GasPool.t) :
  IsDepositTx m = false ->
  ApplyMessage evm m gp0 = innerTransitionDb (minted (NewStateTransition evm m gp0)).
Proof.
  intros Hdep. unfold core.ApplyMessage. apply TransitionDb_nondeposit. exact Hdep.
Qed.

(** X16. [ApplyMessage] returns a result or a consensus error, never both
    and never neither: without a consensus error there is an execution
    result, and with one the execution result is nil. *)
Theorem result_or_consensus_error (evm : EVM) (m : Message) (gp0 : GasPool.t) r e st' :
  ApplyMessage evm m gp0 = Return ((r, e), st') ->
  match e with
  | None => exists res, r = Some res
  | Some _ => r = None
  end.
Proof.
  intros H. destruct (IsDepositTx m) eqn:Hdep.
  - destruct (ApplyMessage_deposit evm m gp0 Hdep) as (r' & e' & st'' & H' & Hcases).
    rewrite H in H'. injection H' as <- <- <-.
    destruct Hcases as [(-> & -> & _)|(-> & _ & res & -> & _)]; eauto.
  - rewrite (ApplyMessage_nondeposit _ _ _ Hdep) in H.
    apply innerTransitionDb_cases in H as (r1 & st1 & _ & Hcases).
    destruct r1 as [err|].
    + destruct Hcases as (-> & -> & _). reflexivity.
    + destruct e as [err|].
      * destruct Hcases as (-> & _). reflexivity.
      * destruct Hcases as (res & -> & _). eauto.
Qed.

(** X17. A consensus error raised after the purchase leaves the purchase in
    place: when [preCheck] has succeeded on a message that is not a deposit
    and [innerTransitionDb] then fails, on the intrinsic gas, the funds for
    the transfer or the size of the init code, the state transition it
    returns has the sender debited and the gas pool reduced as [preCheck]
    left them. *)
Theorem failure_after_purchase st st1 r (err : error) st' :
  IsDepositTx (msg st) = false ->
  preCheck st = Return (None, st1) ->
  innerTransitionDb st = Return ((r, Some err), st') ->
  r = None /\
  Facts.raisedAfterPurchase err /\
  GasPool.gas (gp st') = GasPool.gas (gp st) - Gas (msg st) /\
  StateDB.GetBalance (state st') (From (msg st)) =
    StateDB.GetBalance (state st) (From (msg st)) -
    (Gas (msg st) * GasPrice (msg st) + dataCostOf st + default 0 (l1CostOf st)).
Proof.
  intros Hdep Hpre H.
  apply innerTransitionDb_cases in H as (r1 & st1' & Hpre' & Hcases).
  rewrite Hpre in Hpre'. injection Hpre' as <- <-.
  destruct Hcases as (-> & Hs & Hgp & Hraised).
  apply preCheck_inv in Hpre. rewrite Hdep in Hpre.
  destruct Hpre as [(? & ? & _)|Hbuy]; [discriminate|].
  apply buyGas_inv in Hbuy as (_ & _ & _ & Hpool & _ & _ & Hstate).
  rewrite Hs, Hgp, Hpool, Hstate, GetBalance_SubBalance, decide_True by reflexivity.
  auto.
Qed.

(** X18. Data gas is bought and never given back: for a message that is
    not a deposit and whose transition completes without a consensus error,
    the data-gas counter of the pool has gone down by exactly the data gas
    used, and by nothing when sharding is not active. *)
Theorem data_gas_pool_conservation (evm : EVM) (m : Message) (gp0 : GasPool.t) r st' :
  IsDepositTx m = false ->
  ApplyMessage evm m gp0 = Return ((r, None), st') ->
  GasPool.dataGas gp0 - GasPool.dataGas (gp st') =
    dataGasBoughtOf (NewStateTransition evm m gp0).
Proof.
  intros Hdep H. rewrite (ApplyMessage_nondeposit _ _ _ Hdep) in H.
  apply innerTransitionDb_cases in H as (r1 & st1 & Hpre & Hcases).
  destruct (minted_frame (NewStateTransition evm m gp0)) as (Hm & He & Hgp & _).
  pose proof Hpre as Hpre'. apply preCheck_inv in Hpre'.
  rewrite Hm in Hpre'. simpl in Hpre'. rewrite Hdep in Hpre'.
  destruct Hpre' as [(err & -> & _)|Hbuy].
  { destruct Hcases as (_ & ? & _). discriminate. }
  destruct r1 as [err|].
  { destruct Hcases as (_ & ? & _). discriminate. }
  destruct Hcases as (res & _ & Hd & _).
  apply buyGas_inv in Hbuy as (_ & _ & _ & _ & Hdata & _).
  rewrite Hd, Hdata, Hgp, He. unfold Facts.dataGasBoughtOf, core.dataGasUsed.
  rewrite Hm. simpl. lia.
Qed.

(** *** Fee settlement *)

Lemma feeSettlement_frontier (rules : Rules.t) (ret : list byte) (vmerr : option error) st :
  Rules.IsLondon rules = false ->
  Rules.IsOptimismBedrock rules = false ->
  NoBaseFee (Config (evm st)) = false ->
  feeSettlement params rules ret vmerr st =
    Return ((Some {| UsedGas := gasUsed st; Err := vmerr; ReturnData := ret |}, None),
            withState (StateDB.AddBalance (Coinbase (Context (evm st)))
                         (gasUsed st * GasPrice (msg st)) (state st)) st).
Proof.
  intros HL HO HN. unfold feeSettlement. rewrite HL, HN. simpl. rewrite HO.
  destruct (ChainConfig.Optimism _); reflexivity.
Qed.

(** X19. Before London, with the base fee enforced and no rollup surcharge,
    the settlement gives back what was bought: the sender is refunded the
    remaining gas and the coinbase is paid the used gas, both at the gas
    price of the message, so that the two credits add up to the gas limit
    times the gas price; the used gas of the result is the gas limit less the
    remaining gas. *)
Theorem settlement_conserves_purchase (rules : Rules.t) (ret : list byte)
    (vmerr : option error) st :
  U64.in_range (Gas (msg st)) ->
  0 <= gasRemaining st <= Gas (msg st) ->
  0 <= StateDB.GetRefund (state st) ->
  Rules.IsLondon rules = false ->
  Rules.IsOptimismBedrock rules = false ->
  NoBaseFee (Config (evm st)) = false ->
  exists st' remaining,
    feeSettlement params rules ret vmerr (refundSettlement rules st) =
      Return ((Some {| UsedGas := Gas (msg st) - remaining; Err := vmerr;
                       ReturnData := ret |}, None), st') /\
    gasRemaining st <= remaining <= Gas (msg st) /\
    gasRemaining st' = remaining /\
    (forall a,
       StateDB.GetBalance (state st') a =
         StateDB.GetBalance (state st) a
         + (if decide (a = From (msg st)) then remaining * GasPrice (msg st) else 0)
         + (if decide (a = Coinbase (Context (evm st)))
            then (Gas (msg st) - remaining) * GasPrice (msg st) else 0)) /\
    remaining * GasPrice (msg st) + (Gas (msg st) - remaining) * GasPrice (msg st) =
      Gas (msg st) * GasPrice (msg st).
Proof.
  intros HG Hr Hc HL HO HN.
  destruct (refundSettlement_exact rules st HG Hr Hc) as (Hrem & Hbal & _).
  assert (Hq : refundQuotientOf rules = 2 \/ refundQuotientOf rules = 5).
  { unfold refundQuotientOf. destruct (Rules.IsLondon rules); auto. }
  pose proof (refund_no_wrap _ _ _ _ _ Hq Hc Hr (gasUsed_exact st HG Hr)) as Hb.
  rewrite (gasUsed_exact st HG Hr) in Hb, Hrem.
  assert (Hframe : msg (refundSettlement rules st) = msg st /\
                   evm (refundSettlement rules st) = evm st).
  { rewrite refundSettlement_quotient.
    destruct (refundGas_inv (refundQuotientOf rules) st) as (Hm & He & _). auto. }
  destruct Hframe as [Hm He].
  remember (refundSettlement rules st) as st1 eqn:Hst1. clear Hst1.
  assert (Hr1 : 0 <= gasRemaining st1 <= Gas (msg st1)) by (rewrite Hm; lia).
  assert (HG1 : U64.in_range (Gas (msg st1))) by (rewrite Hm; exact HG).
  rewrite feeSettlement_frontier by (rewrite ?He; assumption).
  rewrite (gasUsed_exact st1 HG1 Hr1), Hm, He.
  exists (withState (StateDB.AddBalance (Coinbase (Context (evm st)))
                       ((Gas (msg st) - gasRemaining st1) * GasPrice (msg st))
                       (state st1)) st1), (gasRemaining st1).
  split; [reflexivity|]. split; [lia|]. split; [reflexivity|]. split; [|ring].
  intros a. simpl. rewrite GetBalance_AddBalance, Hbal. reflexivity.
Qed.

End EngineFacts.

(** ** The further properties on the concrete instances *)

Lemma dynamicTransfer_ok (nonce : Z) (blobs : list Hash) :
  U64.in_range nonce -> msg_ok (Sample.dynamicTransfer 100000 nonce blobs).
Proof.
  intros Hn. constructor; [|exact Hn].
  unfold U64.in_range, U64.modulus. simpl. lia.
Qed.

Lemma buyGas_leaves_value_witness :
  5 <= StateDB.GetBalance (state Sample.dynamicBought) Fixture.alice.
Proof.
  apply (buyGas_leaves_value protocol_params Fixture.unitPrice Sample.dynamicStart
           Sample.dynamicBought).
  - apply dynamicTransfer_ok. vm_compute. split; [discriminate|reflexivity].
  - vm_compute. discriminate.
  - vm_compute. reflexivity.
Defined.

Lemma preCheck_failure_keeps_state_witness :
  state Fixture.blobFailed = state Fixture.blobStart.
Proof.
  apply (preCheck_failure_keeps_state protocol_params Fixture.unitPrice
           Fixture.emptyCodeHash Fixture.blobStart ErrDataGasLimitReached
           Fixture.blobFailed).
  vm_compute. reflexivity.
Defined.

Lemma preCheck_success_nonce_witness :
  StateDB.GetNonce (state Sample.dynamicStart) Fixture.alice = 0.
Proof.
  apply (preCheck_success_nonce protocol_params Fixture.unitPrice Fixture.emptyCodeHash
           Sample.dynamicStart Sample.dynamicBought).
  - apply dynamicTransfer_ok. vm_compute. split; [discriminate|reflexivity].
  - reflexivity.
  - reflexivity.
  - vm_compute. reflexivity.
Defined.

Lemma preCheck_nonce_errors_witness :
  Sample.check Sample.earlyStart =
    Return (Some (Errorf "%w: address %v, tx: %d state: %d" ErrNonceTooHigh),
            Sample.earlyStart).
Proof.
  apply (preCheck_nonce_errors protocol_params Fixture.unitPrice Fixture.emptyCodeHash
           Sample.earlyStart eq_refl eq_refl).
  vm_compute. reflexivity.
Defined.

Lemma preCheck_success_fee_caps_witness :
  exists gasFeeCap baseFee,
    GasFeeCap (msg Sample.dynamicStart) = Some gasFeeCap /\
    BaseFee (Context (evm Sample.dynamicStart)) = Some baseFee /\
    baseFee <= gasFeeCap.
Proof.
  destruct (preCheck_success_fee_caps protocol_params Fixture.unitPrice
              Fixture.emptyCodeHash Sample.dynamicStart Sample.dynamicBought)
    as (cap & base & Hcap & Hbase & _ & _ & _ & Hle).
  - reflexivity.
  - reflexivity.
  - reflexivity.
  - vm_compute. reflexivity.
  - exists cap, base. auto.
Defined.

Lemma preCheck_success_data_price_witness :
  exists excess,
    ExcessDataGas (Context (evm Sample.blobStart)) = Some excess /\
    Fixture.unitPrice excess <= 1.
Proof.
  apply (preCheck_success_data_price protocol_params Fixture.unitPrice
           Fixture.emptyCodeHash Sample.blobStart Sample.blobBought).
  - reflexivity.
  - reflexivity.
  - vm_compute. reflexivity.
  - vm_compute. reflexivity.
Defined.

Lemma deposit_never_rejected_witness :
  exists r e st',
    Sample.run (Fixture.machine false 0 0) (Fixture.deposit false) Fixture.pool =
      Return ((r, e), st') /\
    (e = None \/ e = Some ErrGasLimitReached).
Proof.
  destruct (deposit_never_rejected protocol_params Fixture.unitPrice
              Fixture.emptyCodeHash Fixture.noPrecompiles Fixture.idPrepare
              (Fixture.machine false 0 0) (Fixture.deposit false) Fixture.pool eq_refl)
    as (r & e & st' & H & He & _).
  exists r, e, st'. split; [exact H|exact He].
Defined.

Lemma deposit_gas_matches_pool_witness :
  GasPool.gas (gp (Sample.depositDone true)) = GasPool.gas Fixture.pool /\
  GasPool.gas Fixture.pool - GasPool.gas (gp (Sample.depositDone false)) = 100000.
Proof.
  split.
  - destruct (deposit_gas_matches_pool protocol_params Fixture.unitPrice
                Fixture.emptyCodeHash Fixture.noPrecompiles Fixture.idPrepare
                (Fixture.machine false 0 0) (Fixture.deposit true) Fixture.pool
                (Some {| UsedGas := 0;
                         Err := Some (Errorf "failed deposit: %w" Fixture.noTransfer);
                         ReturnData := [] |})
                (Sample.depositDone true) eq_refl)
      as (res & _ & Hused & Hpool & _).
    + vm_compute. reflexivity.
    + simpl in Hused. lia.
  - destruct (deposit_gas_matches_pool protocol_params Fixture.unitPrice
                Fixture.emptyCodeHash Fixture.noPrecompiles Fixture.idPrepare
                (Fixture.machine false 0 0) (Fixture.deposit false) Fixture.pool
                (Some {| UsedGas := 100000;
                         Err := Some (Errorf "failed deposit: %w" Fixture.noTransfer);
                         ReturnData := [] |})
                (Sample.depositDone false) eq_refl)
      as (res & _ & Hused & Hpool & _).
    + vm_compute. reflexivity.
    + simpl in Hused. lia.
Defined.

Lemma result_or_consensus_error_witness :
  exists res, Some {| UsedGas := 13000; Err := None; ReturnData := [] |} = Some res.
Proof.
  apply (result_or_consensus_error protocol_params Fixture.unitPrice
           Fixture.emptyCodeHash Fixture.noPrecompiles Fixture.idPrepare
           (Fixture.machine false 5000 15000) (Fixture.transfer []) Fixture.pool
           _ None Fixture.transferDone).
  vm_compute. reflexivity.
Defined.

Lemma failure_after_purchase_witness :
  GasPool.gas (gp Sample.underfundedFailed) = 30000000 - 20000 /\
  StateDB.GetBalance (state Sample.underfundedFailed) Fixture.alice =
    10000000 - 20000 * 9.
Proof.
  destruct (failure_after_purchase protocol_params Fixture.unitPrice
              Fixture.emptyCodeHash Fixture.noPrecompiles Fixture.idPrepare
              Sample.underfundedStart Sample.underfundedBought None
              (Errorf "%w: have %d, want %d" ErrIntrinsicGas) Sample.underfundedFailed)
    as (_ & _ & Hpool & Hbal).
  - reflexivity.
  - vm_compute. reflexivity.
  - vm_compute. reflexivity.
  - split.
    + etransitivity; [exact Hpool|]. vm_compute. reflexivity.
    + etransitivity; [exact Hbal|]. vm_compute. reflexivity.
Defined.

Lemma data_gas_pool_conservation_witness :
  GasPool.dataGas Sample.blobPool - GasPool.dataGas (gp Sample.blobDone) = 131072.
Proof.
  etransitivity.
  - apply (data_gas_pool_conservation protocol_params Fixture.unitPrice
             Fixture.emptyCodeHash Fixture.noPrecompiles Fixture.idPrepare
             (Fixture.machine true 0 0) (Fixture.transfer [7]) Sample.blobPool
             (Some {| UsedGas := 21000; Err := None; ReturnData := [] |})
             Sample.blobDone eq_refl).
    vm_compute. reflexivity.
  - vm_compute. reflexivity.
Defined.

Lemma settlement_conserves_purchase_witness :
  exists st' remaining,
    feeSettlement protocol_params Fixture.frontierRules [] None
      (refundSettlement Fixture.frontierRules Fixture.transferRun) =
      Return ((Some {| UsedGas := 100000 - remaining; Err := None; ReturnData := [] |},
               None), st') /\
    74000 <= remaining <= 100000.
Proof.
  destruct (settlement_conserves_purchase protocol_params Fixture.frontierRules [] None
              Fixture.transferRun) as (st' & remaining & Hrun & Hrem & _).
  - vm_compute. split; [discriminate|reflexivity].
  - vm_compute. split; discriminate.
  - vm_compute. discriminate.
  - reflexivity.
  - reflexivity.
  - reflexivity.
  - exists st', remaining. split; [exact Hrun|exact Hrem].
Defined.

(** * The KZG commitments of blobs *)

(** ** The batch of blobs *)

Lemma copy_same_length {A : Type} (dst src : list A) :
  length src = length dst -> kzg.copy dst src = src.
Proof.
  intros H. unfold kzg.copy. rewrite <- H, take_ge, drop_ge by lia.
  apply app_nil_r.
Qed.

Lemma length_copy {A : Type} (dst src : list A) :
  length (kzg.copy dst src) = length dst.
Proof.
  unfold kzg.copy. rewrite length_app, length_take, length_drop. lia.
Qed.

Section KzgLoops.

Variable B : bls.t.
Variable FieldElementsPerBlob : nat.
Variable kzgSetupLagrange : list (bls.G1Point B).

Local Abbreviation joined := (kzg.joined B).
Local Abbreviation column := (kzg.column B).
Local Abbreviation dot := (kzg.dot B).
Local Abbreviation full :=
  (fun blob : list (bls.Fr B) => (FieldElementsPerBlob <= length blob)%nat).
Local Abbreviation short :=
  (fun blob : list (bls.Fr B) => (length blob < FieldElementsPerBlob)%nat).

Lemma joinLoop_full (blob : list (bls.Fr B)) (r : bls.Fr B) (n i : nat)
    (aggregate : list (bls.Fr B)) :
  (i + n)%nat = length aggregate -> length blob = length aggregate ->
  kzg.joinLoop B blob r i n aggregate =
    Return (take i aggregate ++ zip_with (joined r) (drop i aggregate) (drop i blob)).
Proof.
  revert i aggregate. induction n as [|n IH]; intros i aggregate Hi Hlen; simpl.
  - rewrite take_ge, drop_ge by lia. rewrite app_nil_r. reflexivity.
  - destruct (lookup_lt_is_Some_2 blob i) as [b Hb]; [lia|].
    destruct (lookup_lt_is_Some_2 aggregate i) as [a Ha]; [lia|].
    unfold kzg.index. rewrite Hb, Ha. simpl.
    rewrite IH by (rewrite ?length_insert; lia).
    rewrite (drop_S aggregate a i Ha), (drop_S blob b i Hb). simpl.
    rewrite (take_S_r (<[i:=_]> aggregate) i (bls.AddModFr B a (bls.MulModFr B b r)))
      by (apply list_lookup_insert_eq; lia).
    rewrite take_insert_ge by lia. rewrite drop_insert_lt by lia.
    rewrite <- app_assoc. reflexivity.
Qed.

Lemma joinLoop_length (blob : list (bls.Fr B)) (r : bls.Fr B) (n i : nat) :
  forall aggregate aggregate' : list (bls.Fr B),
    kzg.joinLoop B blob r i n aggregate = Return aggregate' ->
    length aggregate' = length aggregate.
Proof.
  revert i. induction n as [|n IH]; intros i aggregate aggregate' H; simpl in H.
  - now inversion H.
  - unfold kzg.index in H.
    destruct (blob !! i); simpl in H; [|discriminate].
    destruct (aggregate !! i); simpl in H; [|discriminate].
    apply IH in H. rewrite length_insert in H. exact H.
Qed.

Lemma joinLoop_short (blob : list (bls.Fr B)) (r : bls.Fr B) (n i : nat) :
  forall aggregate : list (bls.Fr B),
    (i <= length blob < i + n)%nat -> (i + n)%nat = length aggregate ->
    kzg.joinLoop B blob r i n aggregate = Panic "index out of range".
Proof.
  revert i. induction n as [|n IH]; intros i aggregate Hb Ha; simpl; [lia|].
  unfold kzg.index. destruct (blob !! i) as [b|] eqn:Hbi; simpl; [|reflexivity].
  apply lookup_lt_Some in Hbi.
  destruct (lookup_lt_is_Some_2 aggregate i) as [a Hai]; [lia|].
  rewrite Hai. simpl. apply IH; rewrite ?length_insert; lia.
Qed.

Lemma joinLoop_returns (blob : list (bls.Fr B)) (r : bls.Fr B) (n i : nat) :
  forall aggregate : list (bls.Fr B),
    (i + n <= length blob)%nat -> (i + n <= length aggregate)%nat ->
    exists aggregate', kzg.joinLoop B blob r i n aggregate = Return aggregate'.
Proof.
  revert i. induction n as [|n IH]; intros i aggregate Hb Ha; simpl; [eauto|].
  destruct (lookup_lt_is_Some_2 blob i) as [b Hbi]; [lia|].
  destruct (lookup_lt_is_Some_2 aggregate i) as [a Hai]; [lia|].
  unfold kzg.index. rewrite Hbi, Hai. simpl. apply IH; rewrite ?length_insert; lia.
Qed.

Lemma join_returns (commit : bls.G1Point B) (blob : list (bls.Fr B))
    (batch : kzg.BlobsBatch B) (draws : nat) :
  length (kzg.aggregateBlob B batch) = FieldElementsPerBlob -> full blob ->
  exists batch',
    kzg.join B FieldElementsPerBlob commit blob (batch, draws) = Return (batch', S draws) /\
    length (kzg.aggregateBlob B batch') = FieldElementsPerBlob /\
    kzg.init B batch' = kzg.init B batch.
Proof.
  intros Ha Hb. cbv beta in Hb. unfold kzg.join.
  destruct (joinLoop_returns blob (bls.RandomFr B draws) FieldElementsPerBlob 0
              (kzg.aggregateBlob B batch)) as [agg Hagg]; [simpl; lia..|].
  rewrite Hagg. simpl. eexists. split; [reflexivity|]. simpl. split; [|reflexivity].
  apply joinLoop_length in Hagg. lia.
Qed.

Lemma join_short (commit : bls.G1Point B) (blob : list (bls.Fr B))
    (batch : kzg.BlobsBatch B) (draws : nat) :
  length (kzg.aggregateBlob B batch) = FieldElementsPerBlob -> short blob ->
  kzg.join B FieldElementsPerBlob commit blob (batch, draws) = Panic "index out of range".
Proof.
  intros Ha Hb. cbv beta in Hb. unfold kzg.join. rewrite joinLoop_short by (simpl; lia). reflexivity.
Qed.

Lemma join_length (commit : bls.G1Point B) (blob : list (bls.Fr B))
    (batch batch' : kzg.BlobsBatch B) (draws draws' : nat) :
  kzg.join B FieldElementsPerBlob commit blob (batch, draws) = Return (batch', draws') ->
  length (kzg.aggregateBlob B batch') = length (kzg.aggregateBlob B batch).
Proof.
  unfold kzg.join.
  destruct (kzg.joinLoop B blob _ 0 FieldElementsPerBlob _) as [agg|] eqn:Hagg;
    simpl; [|discriminate].
  intros H. inversion H; subst. simpl. eapply joinLoop_length. exact Hagg.
Qed.

Lemma joinEach_returns (commitments : list (bls.G1Point B)) :
  forall (blobs : list (list (bls.Fr B))) (batch : kzg.BlobsBatch B) (draws : nat),
    length commitments = length blobs -> Forall full blobs ->
    length (kzg.aggregateBlob B batch) = FieldElementsPerBlob ->
    exists batch',
      kzg.joinEach B FieldElementsPerBlob commitments blobs (batch, draws) =
        Return (batch', (draws + length commitments)%nat) /\
      kzg.init B batch' = kzg.init B batch.
Proof.
  induction commitments as [|commit commitments IH];
    intros [|blob blobs] batch draws Hlen Hall Ha; simpl in Hlen; try discriminate.
  - exists batch. simpl. rewrite Nat.add_0_r. auto.
  - pose proof (Forall_inv Hall) as Hblob. pose proof (Forall_inv_tail Hall) as Hall'.
    cbn [kzg.joinEach].
    destruct (join_returns commit blob batch draws Ha Hblob) as (b1 & -> & Ha1 & Hi1).
    cbn [mbind outcome_bind].
    destruct (IH blobs b1 (S draws)) as (b2 & -> & Hi2); [lia|assumption..|].
    exists b2. cbn [length]. split; [f_equal; f_equal; lia|congruence].
Qed.

Lemma joinEach_short (commitments : list (bls.G1Point B)) :
  forall (blobs : list (list (bls.Fr B))) (batch : kzg.BlobsBatch B) (draws : nat),
    length commitments = length blobs -> Exists short blobs ->
    length (kzg.aggregateBlob B batch) = FieldElementsPerBlob ->
    kzg.joinEach B FieldElementsPerBlob commitments blobs (batch, draws) =
      Panic "index out of range".
Proof.
  induction commitments as [|commit commitments IH];
    intros [|blob blobs] batch draws Hlen Hex Ha; simpl in Hlen; try discriminate.
  - inversion Hex.
  - cbn [kzg.joinEach].
    destruct (decide (length blob < FieldElementsPerBlob)%nat) as [Hs|Hs].
    + rewrite join_short by assumption. reflexivity.
    + apply Exists_cons in Hex as [Hs'|Hex']; [contradiction|].
      destruct (kzg.join B FieldElementsPerBlob commit blob (batch, draws))
        as [[b1 d1]|reason] eqn:Hj.
      * cbn [mbind outcome_bind]. apply IH; [lia|assumption|].
        apply join_length in Hj. lia.
      * exfalso. unfold kzg.join in Hj.
        destruct (joinLoop_returns blob (bls.RandomFr B draws) FieldElementsPerBlob 0
                    (kzg.aggregateBlob B batch)) as [agg Hagg]; [simpl; lia..|].
        rewrite Hagg in Hj. discriminate.
Qed.

(** X22. A blob of fewer than [FieldElementsPerBlob] field elements that
    [Join] hands to [join] is not reported as an error: [Join] panics on the
    index. *)
Theorem Join_short_blob (commitments : list (bls.G1Point B))
    (blobs : list (list (bls.Fr B))) (batch : kzg.BlobsBatch B) (draws : nat) :
  length commitments = length blobs ->
  length (kzg.aggregateBlob B batch) = FieldElementsPerBlob ->
  Exists short (if kzg.init B batch then blobs else tail blobs) ->
  kzg.Join B FieldElementsPerBlob commitments blobs (batch, draws) =
    Panic "index out of range".
Proof.
  intros Hlen Ha Hex. unfold kzg.Join. rewrite Hlen, Nat.eqb_refl. simpl.
  destruct commitments as [|commit commitments], blobs as [|blob blobs];
    try discriminate.
  - destruct (kzg.init B batch); inversion Hex.
  - destruct (kzg.init B batch); cbn [negb].
    + rewrite joinEach_short by assumption. reflexivity.
    + rewrite joinEach_short;
        [reflexivity|simpl in Hlen; lia|exact Hex|simpl; rewrite length_copy; exact Ha].
Qed.

(** X21. [Join] checks no blob size and needs none of the pair that
    initialises a batch: given as many commitments as blobs, each blob it
    hands to [join] holding at least [FieldElementsPerBlob] field elements,
    it returns no error and does not panic, the batch is initialised as soon
    as a pair was given, and one scalar is drawn for each pair but the one
    that initialises the batch. *)
Theorem Join_returns (commitments : list (bls.G1Point B))
    (blobs : list (list (bls.Fr B))) (batch : kzg.BlobsBatch B) (draws : nat) :
  length commitments = length blobs ->
  length (kzg.aggregateBlob B batch) = FieldElementsPerBlob ->
  Forall full (if kzg.init B batch then blobs else tail blobs) ->
  exists batch',
    kzg.Join B FieldElementsPerBlob commitments blobs (batch, draws) =
      Return (None, (batch', (draws + kzg.joins B batch (length commitments))%nat)) /\
    kzg.init B batch' = kzg.init B batch || negb (bool_decide (commitments = [])).
Proof.
  intros Hlen Ha Hall. unfold kzg.Join, kzg.joins.
  rewrite Hlen, Nat.eqb_refl. simpl.
  destruct commitments as [|commit commitments], blobs as [|blob blobs];
    try discriminate.
  - simpl. exists batch. rewrite orb_false_r. destruct (kzg.init B batch); simpl;
      rewrite Nat.add_0_r; auto.
  - destruct (kzg.init B batch) eqn:Hinit; simpl.
    + destruct (joinEach_returns (commit :: commitments) (blob :: blobs) batch draws)
        as (b1 & H1 & Hi1); [assumption..|].
      simpl in H1. rewrite H1. simpl. simpl in Hlen. rewrite <- Hlen.
      exists b1. split; [reflexivity|congruence].
    + match goal with |- context [kzg.joinEach _ _ _ _ (?b, _)] => set (b0 := b) end.
      destruct (joinEach_returns commitments blobs b0 draws) as (b1 & H1 & Hi1);
        [simpl in Hlen; lia|assumption|subst b0; simpl; rewrite length_copy; exact Ha|].
      rewrite H1. simpl. simpl in Hlen.
      replace (length blobs) with (length commitments) by lia.
      exists b1. split; [reflexivity|exact Hi1].
Qed.

(** X20. [Join] returns an error exactly when the number of commitments
    differs from the number of blobs: it then returns an error with the
    batch as it was and no scalar drawn, and in no other case does it return
    an error. *)
Theorem Join_error (commitments : list (bls.G1Point B))
    (blobs : list (list (bls.Fr B))) (batch : kzg.BlobsBatch B) (draws : nat) :
  (length commitments <> length blobs ->
   exists e, kzg.Join B FieldElementsPerBlob commitments blobs (batch, draws) =
               Return (Some e, (batch, draws))) /\
  (forall e s, kzg.Join B FieldElementsPerBlob commitments blobs (batch, draws) =
                 Return (Some e, s) ->
               length commitments <> length blobs /\ s = (batch, draws)).
Proof.
  unfold kzg.Join. destruct (Nat.eqb_spec (length commitments) (length blobs)) as [He|He];
    simpl.
  - split; [contradiction|]. intros e s H. exfalso.
    destruct commitments, blobs; [| | |destruct (kzg.init B batch); cbn [negb] in H];
      try discriminate;
      match type of H with
      | context [kzg.joinEach ?a ?b ?c ?d ?e] =>
          destruct (kzg.joinEach a b c d e); simpl in H; discriminate
      end.
  - split; [eauto|]. intros e s H. inversion H. auto.
Qed.

(** *** The loops of [VerifyBlobs] *)

Lemma columnSum_full (rList : list (bls.Fr B)) (blobs : list (list (bls.Fr B))) (c : nat) :
  length rList = length blobs ->
  Forall (fun blob : list (bls.Fr B) => (c < length blob)%nat) blobs ->
  forall (n i : nat) (sum : bls.Fr B),
    (i + n)%nat = length blobs ->
    kzg.columnSum B rList blobs c i n sum =
      Return (dot (drop i rList) (column c (drop i blobs)) sum).
Proof.
  intros Hlen Hall. induction n as [|n IH]; intros i sum Hi; simpl.
  - rewrite !drop_ge by lia. reflexivity.
  - destruct (lookup_lt_is_Some_2 rList i) as [r Hr]; [lia|].
    destruct (lookup_lt_is_Some_2 blobs i) as [blob Hblob]; [lia|].
    pose proof (proj1 (Forall_lookup _ _) Hall i blob Hblob) as Hc.
    destruct (lookup_lt_is_Some_2 blob c Hc) as [b Hb].
    unfold kzg.index. rewrite Hr, Hblob. simpl. rewrite Hb. simpl.
    rewrite IH by lia.
    rewrite (drop_S rList r i Hr), (drop_S blobs blob i Hblob). simpl.
    rewrite Hb. reflexivity.
Qed.

Lemma leftMSM_full (rList : list (bls.Fr B)) (blobs : list (list (bls.Fr B))) :
  length rList = length blobs ->
  forall (n c : nat) (lPoints : list (bls.G1Point B)) (lScalars : list (bls.Fr B)),
    (c + n <= length kzgSetupLagrange)%nat ->
    Forall (fun blob : list (bls.Fr B) => (c + n <= length blob)%nat) blobs ->
    kzg.leftMSM B kzgSetupLagrange rList blobs c n lPoints lScalars =
      Return (lPoints ++ take n (drop c kzgSetupLagrange),
              lScalars ++ map (fun c' => dot rList (column c' blobs) (bls.ZeroFr B))
                              (seq c n)).
Proof.
  intros Hlen. induction n as [|n IH]; intros c lPoints lScalars Hs Hall; simpl.
  - rewrite !app_nil_r. reflexivity.
  - rewrite (columnSum_full rList blobs c Hlen) by
      (try (eapply Forall_impl; [exact Hall|]; simpl; intros; lia); reflexivity).
    simpl. rewrite !drop_0.
    destruct (lookup_lt_is_Some_2 kzgSetupLagrange c) as [p Hp]; [lia|].
    unfold kzg.index. rewrite Hp. simpl.
    rewrite IH by
      (try (eapply Forall_impl; [exact Hall|]; simpl; intros; lia); lia).
    rewrite (drop_S kzgSetupLagrange p c Hp). simpl.
    rewrite <- !app_assoc. reflexivity.
Qed.

Lemma rightMSM_full (rList : list (bls.Fr B)) (commitments : list (bls.G1Point B)) :
  forall (i : nat) (rPoints : list (bls.G1Point B)) (rScalars : list (bls.Fr B)),
    (i + length commitments <= length rList)%nat ->
    kzg.rightMSM B rList commitments i rPoints rScalars =
      Return (rPoints ++ commitments,
              rScalars ++ take (length commitments) (drop i rList)).
Proof.
  induction commitments as [|commit commitments IH]; intros i rPoints rScalars Hi; simpl.
  - rewrite !app_nil_r. reflexivity.
  - simpl in Hi. destruct (lookup_lt_is_Some_2 rList i) as [r Hr]; [lia|].
    unfold kzg.index. rewrite Hr. simpl. rewrite IH by lia.
    rewrite (drop_S rList r i Hr). simpl. rewrite <- !app_assoc. reflexivity.
Qed.

(** The loop of the right-side MSM reads [rList] at the index of each
    commitment: it panics when the commitments outnumber the scalars. *)
Lemma rightMSM_short (rList : list (bls.Fr B)) (commitments : list (bls.G1Point B)) :
  forall (i : nat) (rPoints : list (bls.G1Point B)) (rScalars : list (bls.Fr B)),
    (i <= length rList < i + length commitments)%nat ->
    kzg.rightMSM B rList commitments i rPoints rScalars = Panic "index out of range".
Proof.
  induction commitments as [|commit commitments IH]; intros i rPoints rScalars Hi;
    simpl in *.
  - lia.
  - unfold kzg.index. destruct (rList !! i) as [r|] eqn:Hr; simpl; [|reflexivity].
    apply IH. apply lookup_lt_Some in Hr. lia.
Qed.

Lemma columnSum_returns (rList : list (bls.Fr B)) (blobs : list (list (bls.Fr B))) (c : nat) :
  length rList = length blobs ->
  Forall (fun blob : list (bls.Fr B) => (c < length blob)%nat) blobs ->
  forall (n i : nat) (sum : bls.Fr B),
    (i + n)%nat = length blobs ->
    exists sum', kzg.columnSum B rList blobs c i n sum = Return sum'.
Proof.
  intros Hlen Hall n i sum Hi. eexists. apply columnSum_full; assumption.
Qed.

Lemma columnSum_short (rList : list (bls.Fr B)) (blobs : list (list (bls.Fr B))) (c : nat) :
  length rList = length blobs ->
  forall (n i : nat) (sum : bls.Fr B),
    (i + n)%nat = length blobs ->
    Exists (fun blob : list (bls.Fr B) => (length blob <= c)%nat) (drop i blobs) ->
    kzg.columnSum B rList blobs c i n sum = Panic "index out of range".
Proof.
  intros Hlen. induction n as [|n IH]; intros i sum Hi Hex.
  - rewrite drop_ge in Hex by lia. inversion Hex.
  - simpl. destruct (lookup_lt_is_Some_2 rList i) as [r Hr]; [lia|].
    destruct (lookup_lt_is_Some_2 blobs i) as [blob Hblob]; [lia|].
    unfold kzg.index. rewrite Hr, Hblob. simpl.
    rewrite (drop_S blobs blob i Hblob) in Hex.
    destruct (blob !! c) as [b|] eqn:Hb; simpl; [|reflexivity].
    apply lookup_lt_Some in Hb.
    apply Exists_cons in Hex as [Hs|Hex']; [lia|].
    apply IH; [lia|exact Hex'].
Qed.

Lemma leftMSM_returns (rList : list (bls.Fr B)) (blobs : list (list (bls.Fr B))) :
  length rList = length blobs ->
  forall (n c : nat) (lPoints : list (bls.G1Point B)) (lScalars : list (bls.Fr B)),
    (c + n <= length kzgSetupLagrange)%nat ->
    Forall (fun blob : list (bls.Fr B) => (c + n <= length blob)%nat) blobs ->
    exists l, kzg.leftMSM B kzgSetupLagrange rList blobs c n lPoints lScalars = Return l.
Proof.
  intros Hlen n c lPoints lScalars Hs Hall. eexists. apply leftMSM_full; assumption.
Qed.

Lemma leftMSM_short (rList : list (bls.Fr B)) (blobs : list (list (bls.Fr B))) :
  length rList = length blobs ->
  forall (n c : nat) (lPoints : list (bls.G1Point B)) (lScalars : list (bls.Fr B)),
    Forall (fun blob : list (bls.Fr B) => (c <= length blob)%nat) blobs ->
    Exists (fun blob : list (bls.Fr B) => (length blob < c + n)%nat) blobs ->
    kzg.leftMSM B kzgSetupLagrange rList blobs c n lPoints lScalars =
      Panic "index out of range".
Proof.
  intros Hlen. induction n as [|n IH]; intros c lPoints lScalars Hall Hex.
  - exfalso. apply Exists_exists in Hex as (blob & Hin & Hlt).
    pose proof (proj1 (Forall_forall _ _) Hall blob Hin). simpl in *. lia.
  - simpl.
    destruct (decide (Forall (fun blob : list (bls.Fr B) => (c < length blob)%nat) blobs))
      as [Hf|Hf].
    + destruct (columnSum_returns rList blobs c Hlen Hf (length blobs) 0 (bls.ZeroFr B))
        as [sum Hsum]; [reflexivity|].
      rewrite Hsum. simpl. unfold kzg.index.
      destruct (kzgSetupLagrange !! c); simpl; [|reflexivity].
      apply IH.
      * eapply Forall_impl; [exact Hf|]. simpl. intros. lia.
      * eapply Exists_impl; [exact Hex|]. simpl. intros. lia.
    + apply not_Forall_Exists in Hf; [|intros x; apply _].
      rewrite columnSum_short; [reflexivity|assumption|reflexivity|].
      rewrite drop_0. eapply Exists_impl; [exact Hf|]. simpl. intros. lia.
Qed.

(** X25. [VerifyBlobs] checks no blob size: a blob of fewer than
    [FieldElementsPerBlob] field elements makes it panic on the index,
    whatever the commitments and the setup. *)
Theorem VerifyBlobs_short_blob (commitments : list (bls.G1Point B))
    (blobs : list (list (bls.Fr B))) (draws : nat) :
  Exists short blobs ->
  kzg.VerifyBlobs B FieldElementsPerBlob kzgSetupLagrange commitments blobs draws =
    Panic "index out of range".
Proof.
  intros Hex. unfold kzg.VerifyBlobs.
  rewrite leftMSM_short; [reflexivity| | |].
  - rewrite length_map, length_seq. reflexivity.
  - apply Forall_forall. intros. lia.
  - exact Hex.
Qed.

(** X26. [VerifyBlobs] does not compare the number of commitments with the
    number of blobs: with a setup and blobs of at least
    [FieldElementsPerBlob] elements, it panics exactly when there are more
    commitments than blobs; with fewer commitments it returns. *)
Theorem VerifyBlobs_panics_iff (commitments : list (bls.G1Point B))
    (blobs : list (list (bls.Fr B))) (draws : nat) :
  (FieldElementsPerBlob <= length kzgSetupLagrange)%nat ->
  Forall (fun blob : list (bls.Fr B) => (FieldElementsPerBlob <= length blob)%nat) blobs ->
  (exists reason,
     kzg.VerifyBlobs B FieldElementsPerBlob kzgSetupLagrange commitments blobs draws =
       Panic reason) <->
  (length blobs < length commitments)%nat.
Proof.
  intros Hs Hall. unfold kzg.VerifyBlobs.
  set (rList := map (fun i => bls.RandomFr B (draws + i)) (seq 0 (length blobs))).
  assert (Hr : length rList = length blobs).
  { subst rList. rewrite length_map, length_seq. reflexivity. }
  destruct (leftMSM_returns rList blobs Hr FieldElementsPerBlob 0 [] [])
    as [[lP lS] Hl]; [simpl; lia|exact Hall|].
  rewrite Hl. simpl.
  destruct (decide (length blobs < length commitments)%nat) as [Hlt|Hge].
  - rewrite rightMSM_short by (simpl; lia). simpl. split; [auto|eauto].
  - rewrite rightMSM_full by (simpl; lia). simpl. split; [|lia].
    intros [reason H]. destruct (negb _) in H; discriminate.
Qed.

End KzgLoops.

(** ** The algebra of the batch *)

Section KzgFacts.

Variable B : bls.t.
Variable O : bls.G1Point B.
Hypothesis Hlaws : kzg.laws B O.

Variable FieldElementsPerBlob : nat.
Variable kzgSetupLagrange : list (bls.G1Point B).
Hypothesis Hsetup : length kzgSetupLagrange = FieldElementsPerBlob.

Local Abbreviation add := (bls.AddG1 B).
Local Abbreviation mul := (bls.MulG1 B).
Local Abbreviation linComb := (kzg.linComb B O).
Local Abbreviation consistent := (kzg.consistent B FieldElementsPerBlob kzgSetupLagrange).
Local Abbreviation BlobToKzg := (kzg.BlobToKzg B kzgSetupLagrange).

Local Abbreviation joined := (kzg.joined B).
Local Abbreviation honest := (kzg.honest B FieldElementsPerBlob kzgSetupLagrange).

Lemma add_swap (a b c d : bls.G1Point B) :
  add (add a b) (add c d) = add (add a c) (add b d).
Proof.
  rewrite <- (kzg.AddG1_assoc B O Hlaws a b (add c d)).
  rewrite (kzg.AddG1_assoc B O Hlaws b c d).
  rewrite (kzg.AddG1_comm B O Hlaws b c).
  rewrite <- (kzg.AddG1_assoc B O Hlaws c b d).
  rewrite (kzg.AddG1_assoc B O Hlaws a c (add b d)).
  reflexivity.
Qed.

(** The linear combination of the joined scalars. *)
Lemma linComb_joined (points : list (bls.G1Point B)) (r : bls.Fr B) :
  forall aggregate blob : list (bls.Fr B),
    length aggregate = length points -> length blob = length points ->
    linComb points (zip_with (joined r) aggregate blob) =
      add (linComb points aggregate) (mul (linComb points blob) r).
Proof.
  induction points as [|p points IH]; intros [|a aggregate] [|b blob] Ha Hb;
    simpl in *; try discriminate.
  - rewrite (kzg.MulG1_O B O Hlaws), (kzg.AddG1_O B O Hlaws). reflexivity.
  - rewrite IH by lia. unfold kzg.joined.
    rewrite (kzg.MulG1_add B O Hlaws), (kzg.MulG1_mul B O Hlaws).
    rewrite (kzg.MulG1_sum B O Hlaws). apply add_swap.
Qed.

Lemma join_consistent (blob : list (bls.Fr B)) (batch : kzg.BlobsBatch B) (draws : nat) :
  consistent batch -> kzg.init B batch = true ->
  length blob = FieldElementsPerBlob ->
  exists batch',
    kzg.join B FieldElementsPerBlob (BlobToKzg blob) blob (batch, draws) =
      Return (batch', S draws) /\
    consistent batch' /\ kzg.init B batch' = true.
Proof.
  intros [Hlen Hcommit] Hinit Hblob. unfold kzg.join.
  rewrite joinLoop_full by lia. simpl.
  eexists. split; [reflexivity|]. split; [|exact Hinit].
  split; simpl.
  - rewrite length_zip_with, !length_drop. simpl. lia.
  - intros _. unfold kzg.BlobToKzg in *.
    rewrite !drop_0.
    rewrite (kzg.LinCombG1_sum B O Hlaws) by (rewrite length_zip_with; lia).
    rewrite linComb_joined by lia.
    rewrite <- !(kzg.LinCombG1_sum B O Hlaws) by lia.
    rewrite (Hcommit Hinit). reflexivity.
Qed.

Lemma joinEach_consistent (commitments : list (bls.G1Point B))
    (blobs : list (list (bls.Fr B))) :
  honest commitments blobs ->
  forall (batch : kzg.BlobsBatch B) (draws : nat),
    consistent batch -> kzg.init B batch = true ->
    exists batch',
      kzg.joinEach B FieldElementsPerBlob commitments blobs (batch, draws) =
        Return (batch', (draws + length commitments)%nat) /\
      consistent batch' /\ kzg.init B batch' = true.
Proof.
  induction 1 as [|commit blob commitments blobs [-> Hblob] _ IH];
    intros batch draws Hc Hinit.
  - exists batch. simpl. rewrite Nat.add_0_r. auto.
  - cbn [kzg.joinEach].
    destruct (join_consistent blob batch draws Hc Hinit Hblob) as (b1 & -> & Hc1 & Hi1).
    cbn [mbind outcome_bind].
    destruct (IH b1 (S draws) Hc1 Hi1) as (b2 & -> & Hc2 & Hi2). cbn [length].
    exists b2. replace (draws + S (length commitments))%nat
      with (S draws + length commitments)%nat by lia. auto.
Qed.

(** X23. Blobs joined with their own commitments verify, whatever the
    random scalars: when each commitment is [BlobToKzg] of its blob, of
    [FieldElementsPerBlob] field elements, and the aggregate blob of the
    batch commits to its aggregate commitment once initialised, [Join]
    returns no error, the batch it leaves has the same property and [Verify]
    returns no error on it. *)
Theorem Join_consistent (commitments : list (bls.G1Point B))
    (blobs : list (list (bls.Fr B))) (batch : kzg.BlobsBatch B) (draws : nat) :
  honest commitments blobs ->
  consistent batch ->
  exists batch' draws',
    kzg.Join B FieldElementsPerBlob commitments blobs (batch, draws) =
      Return (None, (batch', draws')) /\
    consistent batch' /\
    kzg.init B batch' = kzg.init B batch || negb (bool_decide (commitments = [])) /\
    kzg.Verify B kzgSetupLagrange batch' = None.
Proof.
  intros Hh Hc. unfold kzg.Join.
  rewrite (Forall2_length _ _ _ Hh), Nat.eqb_refl. simpl.
  assert (Hverify : forall b, consistent b -> kzg.Verify B kzgSetupLagrange b = None).
  { intros b [_ Hb]. unfold kzg.Verify. destruct (kzg.init B b); [|reflexivity].
    simpl. unfold kzg.BlobToKzg in Hb. rewrite (Hb eq_refl).
    rewrite (kzg.EqualG1_refl B O Hlaws). reflexivity. }
  destruct Hh as [|commit blob commitments blobs [-> Hblob] Hh].
  - simpl. exists batch, draws. rewrite orb_false_r. auto.
  - destruct (kzg.init B batch) eqn:Hinit; simpl.
    + assert (Hh' : honest (BlobToKzg blob :: commitments) (blob :: blobs))
        by (constructor; auto).
      destruct (joinEach_consistent _ _ Hh' batch draws Hc Hinit) as (b1 & H1 & Hc1 & Hi1).
      simpl in H1. rewrite H1. simpl. eauto 10.
    + set (b0 := {| kzg.init := true;
                    kzg.aggregateCommitment := BlobToKzg blob;
                    kzg.aggregateBlob := kzg.copy (kzg.aggregateBlob B batch) blob |}).
      assert (Hc0 : consistent b0).
      { destruct Hc as [Hlen _]. split; simpl.
        - rewrite length_copy. exact Hlen.
        - intros _. rewrite copy_same_length by lia. reflexivity. }
      destruct (joinEach_consistent _ _ Hh b0 draws Hc0 eq_refl) as (b1 & H1 & Hc1 & Hi1).
      rewrite H1. simpl. eauto 10.
Qed.

Local Abbreviation column := (kzg.column B).
Local Abbreviation dot := (kzg.dot B).

(** *** The two sides of the equation of [VerifyBlobs] *)

Lemma linComb_zero (points : list (bls.G1Point B)) (n : nat) :
  linComb points (replicate n (bls.ZeroFr B)) = O.
Proof.
  revert n. induction points as [|p points IH]; intros [|n]; simpl; try reflexivity.
  rewrite IH, (kzg.MulG1_zero B O Hlaws), (kzg.AddG1_O B O Hlaws). reflexivity.
Qed.

Lemma add_O_r (a : bls.G1Point B) : add a O = a.
Proof. rewrite (kzg.AddG1_comm B O Hlaws). apply (kzg.AddG1_O B O Hlaws). Qed.

Lemma seq_lookup_default (acc : list (bls.Fr B)) :
  map (fun c => default (bls.ZeroFr B) (acc !! c)) (seq 0 (length acc)) = acc.
Proof.
  apply list_eq. intros i. rewrite list_lookup_fmap.
  destruct (decide (i < length acc)%nat) as [Hi|Hi].
  - rewrite lookup_seq_lt by exact Hi. simpl.
    destruct (lookup_lt_is_Some_2 acc i Hi) as [a Ha]. rewrite Ha. reflexivity.
  - rewrite lookup_seq_ge by lia. simpl. symmetry. apply lookup_ge_None. lia.
Qed.

Lemma linComb_columns (blobs : list (list (bls.Fr B))) :
  Forall (fun blob : list (bls.Fr B) => length blob = FieldElementsPerBlob) blobs ->
  forall (rs acc : list (bls.Fr B)),
    length rs = length blobs -> length acc = FieldElementsPerBlob ->
    linComb kzgSetupLagrange
      (map (fun c => dot rs (column c blobs) (default (bls.ZeroFr B) (acc !! c)))
           (seq 0 FieldElementsPerBlob)) =
    add (linComb kzgSetupLagrange acc)
        (linComb (map (linComb kzgSetupLagrange) blobs) rs).
Proof.
  induction 1 as [|blob blobs Hblob _ IH]; intros [|r rs] acc Hrs Hacc;
    simpl in Hrs; try discriminate.
  - simpl. rewrite add_O_r. rewrite <- Hacc at 1. rewrite seq_lookup_default.
    reflexivity.
  - set (acc' := zip_with (joined r) acc blob).
    assert (Hacc' : length acc' = FieldElementsPerBlob).
    { subst acc'. rewrite length_zip_with. lia. }
    assert (Hmap :
      map (fun c => dot (r :: rs) (column c (blob :: blobs))
                      (default (bls.ZeroFr B) (acc !! c)))
          (seq 0 FieldElementsPerBlob) =
      map (fun c => dot rs (column c blobs) (default (bls.ZeroFr B) (acc' !! c)))
          (seq 0 FieldElementsPerBlob)).
    { apply map_ext_in. intros c Hc. apply in_seq in Hc. simpl. f_equal.
      destruct (lookup_lt_is_Some_2 acc c) as [a Ha]; [lia|].
      destruct (lookup_lt_is_Some_2 blob c) as [b Hb]; [lia|].
      subst acc'. rewrite lookup_zip_with, Ha, Hb. simpl. unfold kzg.joined.
      rewrite (kzg.MulModFr_comm B O Hlaws). reflexivity. }
    rewrite Hmap, IH by (try exact Hacc'; lia).
    subst acc'. rewrite linComb_joined by lia. simpl.
    rewrite <- !(kzg.AddG1_assoc B O Hlaws). reflexivity.
Qed.

Lemma honest_commitments (commitments : list (bls.G1Point B))
    (blobs : list (list (bls.Fr B))) :
  honest commitments blobs ->
  commitments = map (linComb kzgSetupLagrange) blobs /\
  Forall (fun blob : list (bls.Fr B) => length blob = FieldElementsPerBlob) blobs.
Proof.
  induction 1 as [|commit blob commitments blobs [-> Hblob] _ [IH1 IH2]]; simpl.
  - auto.
  - split; [|constructor; auto]. f_equal; [|exact IH1].
    unfold kzg.BlobToKzg. apply (kzg.LinCombG1_sum B O Hlaws). lia.
Qed.

(** X24. [VerifyBlobs] accepts the blobs with their own commitments,
    whatever the random scalars: when each commitment is [BlobToKzg] of its
    blob, of [FieldElementsPerBlob] field elements, it returns no error,
    having drawn one scalar for each blob. *)
Theorem VerifyBlobs_honest (commitments : list (bls.G1Point B))
    (blobs : list (list (bls.Fr B))) (draws : nat) :
  honest commitments blobs ->
  kzg.VerifyBlobs B FieldElementsPerBlob kzgSetupLagrange commitments blobs draws =
    Return (None, (draws + length blobs)%nat).
Proof.
  intros Hh. pose proof (Forall2_length _ _ _ Hh) as Hlen.
  apply honest_commitments in Hh as [-> Hall].
  unfold kzg.VerifyBlobs.
  set (rList := map (fun i => bls.RandomFr B (draws + i)) (seq 0 (length blobs))).
  assert (Hr : length rList = length blobs).
  { subst rList. rewrite length_map, length_seq. reflexivity. }
  rewrite (leftMSM_full B kzgSetupLagrange rList blobs Hr) by
    (try (eapply Forall_impl; [exact Hall|]; simpl; intros; lia); lia).
  simpl. rewrite rightMSM_full by (rewrite length_map; simpl; lia). simpl.
  rewrite !drop_0, (take_ge kzgSetupLagrange) by lia.
  rewrite take_ge by (rewrite length_map; lia).
  rewrite !(kzg.LinCombG1_sum B O Hlaws) by
    (rewrite ?length_map, ?length_seq; lia).
  assert (Hz : map (fun c' => dot rList (column c' blobs) (bls.ZeroFr B))
                   (seq 0 FieldElementsPerBlob) =
               map (fun c' => dot rList (column c' blobs)
                                (default (bls.ZeroFr B)
                                   (replicate FieldElementsPerBlob (bls.ZeroFr B) !! c')))
                   (seq 0 FieldElementsPerBlob)).
  { apply map_ext_in. intros c Hc. apply in_seq in Hc.
    rewrite lookup_replicate_2 by lia. reflexivity. }
  rewrite Hz, (linComb_columns blobs Hall) by (rewrite ?length_replicate; lia).
  rewrite linComb_zero, (kzg.AddG1_O B O Hlaws), (kzg.EqualG1_refl B O Hlaws).
  reflexivity.
Qed.

End KzgFacts.

(** *** The properties on two blobs over the integers *)

Lemma integers_laws : kzg.laws kzg.integers 0.
Proof.
  split; simpl; intros; try lia; try apply Z.eqb_refl.
  revert scalars H. induction points as [|p points IH]; intros [|s scalars] H;
    simpl in *; try reflexivity; try discriminate.
  rewrite IH by lia. reflexivity.
Qed.

Lemma sample_honest : kzg.honest kzg.integers 2 KzgSample.setup KzgSample.commitments KzgSample.blobs.
Proof. repeat constructor. Qed.

Lemma sample_consistent : kzg.consistent kzg.integers 2 KzgSample.setup KzgSample.batch.
Proof. split; [reflexivity|discriminate]. Qed.

Lemma Join_error_witness :
  exists e,
    kzg.Join kzg.integers 2 KzgSample.commitments [] (KzgSample.batch, 0%nat) =
      Return (Some e, (KzgSample.batch, 0%nat)).
Proof.
  apply (Join_error kzg.integers 2 KzgSample.commitments [] KzgSample.batch 0%nat).
  simpl. lia.
Defined.

Lemma Join_returns_witness :
  exists batch',
    kzg.Join kzg.integers 2 KzgSample.commitments KzgSample.shortBlobs
      (KzgSample.batch, 0%nat) = Return (None, (batch', 1%nat)) /\
    kzg.init kzg.integers batch' = true.
Proof.
  apply (Join_returns kzg.integers 2 KzgSample.commitments KzgSample.shortBlobs
           KzgSample.batch 0%nat).
  - reflexivity.
  - reflexivity.
  - simpl. repeat constructor.
Defined.

Lemma Join_short_blob_witness :
  kzg.Join kzg.integers 2 KzgSample.commitments KzgSample.shortTail
    (KzgSample.batch, 0%nat) = Panic "index out of range".
Proof.
  apply (Join_short_blob kzg.integers 2 KzgSample.commitments KzgSample.shortTail
           KzgSample.batch 0%nat).
  - reflexivity.
  - reflexivity.
  - simpl. constructor. simpl. lia.
Defined.

Lemma Join_consistent_witness :
  exists batch' draws',
    kzg.Join kzg.integers 2 KzgSample.commitments KzgSample.blobs
      (KzgSample.batch, 0%nat) = Return (None, (batch', draws')) /\
    kzg.consistent kzg.integers 2 KzgSample.setup batch' /\
    kzg.init kzg.integers batch' = true /\
    kzg.Verify kzg.integers KzgSample.setup batch' = None.
Proof.
  exact (Join_consistent kzg.integers 0 integers_laws 2 KzgSample.setup eq_refl
           KzgSample.commitments KzgSample.blobs KzgSample.batch 0%nat
           sample_honest sample_consistent).
Defined.

Lemma VerifyBlobs_honest_witness :
  kzg.VerifyBlobs kzg.integers 2 KzgSample.setup KzgSample.commitments KzgSample.blobs
    0%nat = Return (None, 2%nat).
Proof.
  exact (VerifyBlobs_honest kzg.integers 0 integers_laws 2 KzgSample.setup eq_refl
           KzgSample.commitments KzgSample.blobs 0%nat sample_honest).
Defined.

Lemma VerifyBlobs_short_blob_witness :
  kzg.VerifyBlobs kzg.integers 2 KzgSample.setup KzgSample.commitments
    KzgSample.shortBlobs 0%nat = Panic "index out of range".
Proof.
  apply (VerifyBlobs_short_blob kzg.integers 2 KzgSample.setup KzgSample.commitments
           KzgSample.shortBlobs 0%nat).
  constructor. simpl. lia.
Defined.

Lemma VerifyBlobs_panics_iff_witness :
  (exists reason,
     kzg.VerifyBlobs kzg.integers 2 KzgSample.setup (0 :: KzgSample.commitments)
       KzgSample.blobs 0%nat = Panic reason) <-> (2 < 3)%nat.
Proof.
  apply (VerifyBlobs_panics_iff kzg.integers 2 KzgSample.setup
           (0 :: KzgSample.commitments) KzgSample.blobs 0%nat).
  - simpl. lia.
  - repeat constructor.
Defined.
